(** * The web client of the Flickr downloader: static/js/app.js

    A shallow embedding of the page script.  The script keeps four global
    variables, reads the form controls of the page, rewrites a handful of
    elements (buttons, log, progress bar, status lines, link wrapper), talks
    to the server through [fetch] and listens to one server-sent event
    stream per job.

    Layout of the development:
    - [JS]: the part of the language the script relies on (strings, the
      Number type as IEEE binary64, [parseInt], [Math.round], the
      number-to-string conversion, truthiness, [JSON.stringify]);
    - the page state, a small state-and-exception monad, and the script's
      functions, each [async] function split at its [await];
    - the page as a machine whose actions are calls, resumptions, stream
      events and user input;
    - the properties, and their instances at concrete pages. *)

From Stdlib Require Import ZArith List String Ascii Bool Lia Floats.
Import ListNotations.
Local Open Scope string_scope.
Local Open Scope Z_scope.

(* ================================================================== *)
(** * JavaScript values                                                *)
(* ================================================================== *)

Module JS.

(** Strings are sequences of code units; the model keeps the code units
    below 256, which is what [ascii] holds. *)

(** WhiteSpace and LineTerminator code points (below 256): TAB, LF, VT, FF,
    CR, SP, NBSP.  Used by [String.prototype.trim] and by [parseInt]. *)
Definition isWhiteSpace (c : ascii) : bool :=
  let n := nat_of_ascii c in
  ((n =? 9) || (n =? 10) || (n =? 11) || (n =? 12) || (n =? 13)
   || (n =? 32) || (n =? 160))%nat.

Fixpoint trimStart (s : string) : string :=
  match s with
  | String c r => if isWhiteSpace c then trimStart r else s
  | EmptyString => EmptyString
  end.

Fixpoint trimEnd (s : string) : string :=
  match s with
  | String c r =>
      match trimEnd r with
      | EmptyString => if isWhiteSpace c then EmptyString else String c EmptyString
      | r' => String c r'
      end
  | EmptyString => EmptyString
  end.

(** [s.trim()] *)
Definition trim (s : string) : string := trimEnd (trimStart s).

(** ** Numbers: IEEE 754 binary64 *)

Definition number := float.

(** The Number value for a mathematical integer (round to nearest, ties to
    even; overflow gives an infinity). *)
Definition Number_of_Z (z : Z) : number :=
  SF2Prim (binary_normalize 53 1024 z 0 false).

Definition isNaN (x : number) : bool := PrimFloat.is_nan x.

(** ToBoolean on numbers: NaN, +0 and -0 are falsy. *)
Definition number_truthy (x : number) : bool :=
  negb (PrimFloat.is_nan x || PrimFloat.is_zero x).

(** [Math.round]: the integral Number closest to [x], ties towards
    +Infinity; a result of zero keeps the sign of [x]. *)
Definition Math_round (x : number) : number :=
  match Prim2SF x with
  | S754_finite s m e =>
      if 0 <=? e then x
      else
        let k := - e in
        let mz := if s then Z.neg m else Z.pos m in
        let r := (2 * mz + 2 ^ k) / 2 ^ (k + 1) in
        if r =? 0 then (if s then PrimFloat.neg_zero else PrimFloat.zero)
        else Number_of_Z r
  | _ => x
  end.

(** ** Number::toString (radix 10) *)

Definition digitChar (d : Z) : ascii := ascii_of_nat (48 + Z.to_nat d).

Fixpoint decimal_aux (fuel : nat) (n : Z) (acc : string) : string :=
  match fuel with
  | O => acc
  | S f =>
      let acc' := String (digitChar (n mod 10)) acc in
      if n <? 10 then acc' else decimal_aux f (n / 10) acc'
  end.

(** Decimal digits of a non-negative integer. *)
Definition decimal (n : Z) : string :=
  decimal_aux (S (Z.to_nat (Z.log2 n))) n EmptyString.

Fixpoint zeros (n : nat) : string :=
  match n with O => EmptyString | S k => String "0"%char (zeros k) end.

(** A positive finite double is [m * 2^e].  With [E = e - 2] and the common
    denominator [d = 2^max(0,-E)], the value and the two ends of the set of
    reals that round to it are the fractions [xn/d], [ln/d], [hn/d]. *)
Record dyadic := { xn : Z; ln : Z; hn : Z; den : Z; closed : bool }.

Definition dyadic_of (m : positive) (e : Z) : dyadic :=
  let E := e - 2 in
  let up := 2 ^ Z.max 0 E in
  let below :=
    if (Z.pos m =? 2 ^ 52) && (-1074 <? e) then 4 * Z.pos m - 1
    else 4 * Z.pos m - 2 in
  {| xn := 4 * Z.pos m * up;
     ln := below * up;
     hn := (4 * Z.pos m + 2) * up;
     den := 2 ^ Z.max 0 (- E);
     closed := Z.even (Z.pos m) |}.

(** Comparison of [s * 10^P] with [b / den]. *)
Definition cmp10 (d : dyadic) (s P b : Z) : comparison :=
  (s * den d * 10 ^ Z.max 0 P ?= b * 10 ^ Z.max 0 (- P)).

(** Does [s * 10^P] round to the double? *)
Definition rounds_to (d : dyadic) (s P : Z) : bool :=
  match cmp10 d s P (ln d), cmp10 d s P (hn d) with
  | Gt, Lt => true
  | Eq, Lt | Gt, Eq | Eq, Eq => closed d
  | _, _ => false
  end.

(** The least [p] from [start] on with [x < 10^p]. *)
Fixpoint magnitude (fuel : nat) (d : dyadic) (p : Z) : Z :=
  match fuel with
  | O => p
  | S f =>
      match cmp10 d 1 p (xn d) with
      | Gt => p
      | _ => magnitude f d (p + 1)
      end
  end.

Definition exponent10 (d : dyadic) : Z :=
  let L := Z.log2 (xn d) - Z.log2 (den d) in
  magnitude 6 d (L * 30103 / 100000 - 1).

(** Shortest decimal [s * 10^P] that rounds to the double, trying
    [k = 1, 2, ...] significant digits; of two candidates the closer one,
    and the even one when they are equally close. *)
Fixpoint shortest (fuel : nat) (d : dyadic) (n0 k : Z) : Z * Z :=
  let P := n0 - k in
  let s1 := (xn d * 10 ^ Z.max 0 (- P)) / (den d * 10 ^ Z.max 0 P) in
  let s2 := s1 + 1 in
  match fuel with
  | O => (s1, P)
  | S f =>
      match rounds_to d s1 P, rounds_to d s2 P with
      | true, false => (s1, P)
      | false, true => (s2, P)
      | true, true =>
          match cmp10 d (s1 + s2) P (2 * xn d) with
          | Gt => (s1, P)
          | Lt => (s2, P)
          | Eq => if Z.even s1 then (s1, P) else (s2, P)
          end
      | false, false => shortest f d n0 (k + 1)
      end
  end.

Fixpoint strip_zeros (fuel : nat) (s P : Z) : Z * Z :=
  match fuel with
  | O => (s, P)
  | S f => if (s mod 10 =? 0) && (0 <? s) then strip_zeros f (s / 10) (P + 1)
           else (s, P)
  end.

(** Steps 6 to 10 of Number::toString for the digits [ds] (there are [k] of
    them) and the decimal point position [n]. *)
Definition layout (ds : string) (n : Z) : string :=
  let k := Z.of_nat (String.length ds) in
  if (k <=? n) && (n <=? 21) then ds ++ zeros (Z.to_nat (n - k))
  else if (0 <? n) && (n <=? 21) then
    substring 0 (Z.to_nat n) ds ++ "." ++ substring (Z.to_nat n) (Z.to_nat (k - n)) ds
  else if (-6 <? n) && (n <=? 0) then "0." ++ zeros (Z.to_nat (- n)) ++ ds
  else
    let e := n - 1 in
    let es := (if e <? 0 then "-" else "+") ++ decimal (Z.abs e) in
    if k =? 1 then ds ++ "e" ++ es
    else substring 0 1 ds ++ "." ++ substring 1 (Z.to_nat (k - 1)) ds ++ "e" ++ es.

Definition Number_toString (x : number) : string :=
  match Prim2SF x with
  | S754_nan => "NaN"
  | S754_zero _ => "0"
  | S754_infinity s => if s then "-Infinity" else "Infinity"
  | S754_finite s m e =>
      let d := dyadic_of m e in
      let '(s0, P0) := shortest 17 d (exponent10 d) 1 in
      let '(s1, P1) := strip_zeros 400 s0 P0 in
      let ds := decimal s1 in
      (if s then "-" else EmptyString) ++ layout ds (P1 + Z.of_nat (String.length ds))
  end.

(** ** [parseInt(string)] with no radix argument *)

Definition digitValue (c : ascii) : option Z :=
  let n := Z.of_nat (nat_of_ascii c) in
  if (48 <=? n) && (n <=? 57) then Some (n - 48)
  else if (97 <=? n) && (n <=? 122) then Some (n - 87)
  else if (65 <=? n) && (n <=? 90) then Some (n - 55)
  else None.

(** Value of the longest prefix of radix-[R] digits; [None] when the prefix
    is empty. *)
Fixpoint digitsValue (R : Z) (s : string) (acc : option Z) : option Z :=
  match s with
  | String c r =>
      match digitValue c with
      | Some v =>
          if v <? R
          then digitsValue R r
                 (Some (match acc with Some a => a * R + v | None => v end))
          else acc
      | None => acc
      end
  | EmptyString => acc
  end.

Definition parseInt (s : string) : number :=
  let S0 := trimStart s in
  let '(neg, S1) :=
    match S0 with
    | String "-"%char r => (true, r)
    | String "+"%char r => (false, r)
    | _ => (false, S0)
    end in
  let '(R, S2) :=
    match S1 with
    | String "0"%char (String "x"%char r) => (16, r)
    | String "0"%char (String "X"%char r) => (16, r)
    | _ => (10, S1)
    end in
  match digitsValue R S2 None with
  | None => PrimFloat.nan
  | Some 0 => if neg then PrimFloat.neg_zero else PrimFloat.zero
  | Some m => Number_of_Z (if neg then - m else m)
  end.

(** The mathematical value of an integral Number ([None] otherwise). *)
Definition integral (x : number) : option Z :=
  match Prim2SF x with
  | S754_zero _ => Some 0
  | S754_finite s m e =>
      let mz := if s then Z.neg m else Z.pos m in
      if 0 <=? e then Some (mz * 2 ^ e)
      else if mz mod 2 ^ (- e) =? 0 then Some (mz / 2 ^ (- e))
      else None
  | _ => None
  end.

(** ** Primitive values *)

Inductive value : Type :=
| Undefined
| Null
| Bool (b : bool)
| Num (x : number)
| Str (s : string).

(** ToBoolean *)
Definition truthy (v : value) : bool :=
  match v with
  | Undefined | Null => false
  | Bool b => b
  | Num x => number_truthy x
  | Str s => negb (s =? EmptyString)%string
  end.

(** ToString *)
Definition ToString (v : value) : string :=
  match v with
  | Undefined => "undefined"
  | Null => "null"
  | Bool true => "true"
  | Bool false => "false"
  | Num x => Number_toString x
  | Str s => s
  end.

(** [a || b] *)
Definition or (a b : value) : value := if truthy a then a else b.

(** ** Objects whose properties hold primitives, in insertion order *)

Definition object := list (string * value).

(** [o.k] *)
Fixpoint get (k : string) (o : object) : value :=
  match o with
  | (k', v) :: r => if (k' =? k)%string then v else get k r
  | [] => Undefined
  end.

(** [o.k = v] *)
Fixpoint set (k : string) (v : value) (o : object) : object :=
  match o with
  | (k', v') :: r =>
      if (k' =? k)%string then (k, v) :: r else (k', v') :: set k v r
  | [] => [(k, v)]
  end.

Definition has (k : string) (o : object) : bool :=
  existsb (fun p => (fst p =? k)%string) o.

(** ** [JSON.stringify] on such objects and [encodeURIComponent] *)

Definition hexChar (d : Z) : ascii :=
  if d <? 10 then digitChar d else ascii_of_nat (Z.to_nat (d - 10 + 97)).

Definition HEXChar (d : Z) : ascii :=
  if d <? 10 then digitChar d else ascii_of_nat (Z.to_nat (d - 10 + 65)).

Definition dquote : string := String (ascii_of_nat 34) EmptyString.

(** QuoteJSONString *)
Fixpoint quote_chars (s : string) : string :=
  match s with
  | EmptyString => EmptyString
  | String c r =>
      let n := Z.of_nat (nat_of_ascii c) in
      (if n =? 8 then "\b"
       else if n =? 9 then "\t"
       else if n =? 10 then "\n"
       else if n =? 12 then "\f"
       else if n =? 13 then "\r"
       else if n =? 34 then "\" ++ dquote
       else if n =? 92 then "\\"
       else if n <? 32 then "\u00" ++ String (hexChar (n / 16)) (String (hexChar (n mod 16)) EmptyString)
       else String c EmptyString) ++ quote_chars r
  end.

Definition JSON_value (v : value) : option string :=
  match v with
  | Undefined => None
  | Null => Some "null"
  | Bool b => Some (if b then "true" else "false")
  | Num x => Some (if PrimFloat.is_finite x then Number_toString x else "null")
  | Str s => Some (dquote ++ quote_chars s ++ dquote)
  end.

(** The members [JSON.stringify] writes: a property whose value is
    [undefined] is left out. *)
Fixpoint JSON_members (o : object) : list string :=
  match o with
  | [] => []
  | (k, v) :: r =>
      match JSON_value v with
      | Some t => (dquote ++ quote_chars k ++ dquote ++ ":" ++ t) :: JSON_members r
      | None => JSON_members r
      end
  end.

Definition JSON_stringify (o : object) : string :=
  "{" ++ String.concat "," (JSON_members o) ++ "}".

Definition unreserved (c : ascii) : bool :=
  let n := Z.of_nat (nat_of_ascii c) in
  ((48 <=? n) && (n <=? 57)) || ((65 <=? n) && (n <=? 90))
  || ((97 <=? n) && (n <=? 122))
  || existsb (Z.eqb n) [45; 95; 46; 33; 126; 42; 39; 40; 41].

Definition percent (n : Z) : string :=
  String "%"%char (String (HEXChar (n / 16)) (String (HEXChar (n mod 16)) EmptyString)).

(** [encodeURIComponent]: every code unit outside the unreserved set is
    written as the percent-escaped bytes of its UTF-8 encoding. *)
Fixpoint encodeURIComponent (s : string) : string :=
  match s with
  | EmptyString => EmptyString
  | String c r =>
      let n := Z.of_nat (nat_of_ascii c) in
      (if unreserved c then String c EmptyString
       else if n <? 128 then percent n
       else percent (192 + n / 64) ++ percent (128 + n mod 64))
      ++ encodeURIComponent r
  end.

End JS.

Import JS.
Local Open Scope float_scope.

Definition nl : string := String (ascii_of_nat 10) EmptyString.

(* ================================================================== *)
(** * The page                                                         *)
(* ================================================================== *)

(** An album as [/api/resolve-user] lists it. *)
Record Album := { a_id : value; a_title : value; a_photos : value }.

(** The parsed [data] of a message on the progress stream.  The two fields
    the handler does arithmetic on are Numbers; a property the object lacks
    reads [Undefined]. *)
Record Event := {
  ev_type : value;
  ev_current : number;
  ev_total : number;
  ev_message : value;
  ev_file_ready : value;
  ev_job_id : value
}.

(** The parsed body of the reply of [/api/download/start]. *)
Record StartReply := { sr_error : value; sr_job_id : value }.

(** One item of the preview and the parsed body of the reply of
    [/api/search]. *)
Record Photo := {
  thumb_url : value;
  p_title : string;
  owner : value;
  date_taken : value
}.

Record PreviewReply := {
  pr_error : value;
  preview : list Photo;
  pr_total : number
}.

(** How an awaited [fetch(...)] followed by [resp.json()] ends: with the
    parsed body, or with an exception [e] whose [e.message] is given. *)
Inductive settled (A : Type) : Type :=
| Fulfilled (data : A)
| Rejected (message : string).
Arguments Fulfilled {A} data.
Arguments Rejected {A} message.

(** The script's global variables. *)
Record Globals := {
  userNsid : value;
  userAlbums : list Album;
  currentJobId : value;
  eventSource : option nat      (* [null] or a reference to a stream *)
}.

(** What the controls of the page report when the script reads them:
    [.value] of inputs and selects, [.checked] of the check box, the value
    of the checked radio button of a group, and [dataset.tab] of the tab
    button carrying class [active] (if there is one). *)
Record Controls := {
  active_tab : option string;
  photo_size : string;
  embed_metadata : bool;
  filename_tmpl : string;
  int_date : string;
  int_count : string;
  search_text : string;
  search_tags : string;
  tag_mode : string;
  sort : string;
  license : string;
  search_count : string;
  user_mode : string;
  user_count : string;
  album_select : string
}.

(** A cell of the preview grid: the [div.thumb-cell], its [img] and its
    caption [div.title]. *)
Record ThumbCell := {
  cell_className : string;
  cell_title : string;
  img_src : string;
  img_alt : string;
  img_loading : string;
  caption_className : string;
  caption_textContent : string
}.

(** The element properties the script assigns.  [progress_bar_width] is the
    value last assigned to [style.width]; [log_scrolled_to_end] records
    [el.scrollTop = el.scrollHeight]. *)
Record Panel := {
  download_btn_disabled : bool;
  cancel_btn_disabled : bool;
  log_output : string;
  log_scrolled_to_end : bool;
  progress_bar_width : string;
  progress_status : string;
  download_link_wrap : string;
  album_select_disabled : bool;
  user_count_disabled : bool;
  preview_btn_disabled : bool;
  preview_status : string;
  preview_grid : list ThumbCell
}.

Record Request := {
  url : string;
  method : string;
  headers : list (string * string);
  body : option string
}.

(** An [EventSource] object: the URL it was opened on and whether [close()]
    was called on it. *)
Record Stream := { es_url : string; es_closed : bool }.

(** An [async] function suspended at its [await]. *)
Inductive Awaiting := AwaitStart | AwaitCancel | AwaitPreview.

(** What the script did to the world outside the document: the alerts it
    raised and the requests it sent (oldest first), the streams it opened (a
    stream is referred to by its position), and the suspended calls. *)
Record Browser := {
  alerts : list string;
  requests : list Request;
  streams : list Stream;
  pending : list Awaiting
}.

Record Page := {
  globals : Globals;
  controls : Controls;
  panel : Panel;
  browser : Browser
}.

(** ** Assignments *)

Definition with_globals (f : Globals -> Globals) (st : Page) : Page :=
  {| globals := f (globals st); controls := controls st;
     panel := panel st; browser := browser st |}.

Definition with_panel (f : Panel -> Panel) (st : Page) : Page :=
  {| globals := globals st; controls := controls st;
     panel := f (panel st); browser := browser st |}.

Definition with_browser (f : Browser -> Browser) (st : Page) : Page :=
  {| globals := globals st; controls := controls st;
     panel := panel st; browser := f (browser st) |}.

Definition with_controls (c : Controls) (st : Page) : Page :=
  {| globals := globals st; controls := c;
     panel := panel st; browser := browser st |}.

Definition put_userNsid (v : value) (g : Globals) : Globals :=
  {| userNsid := v; userAlbums := userAlbums g;
     currentJobId := currentJobId g; eventSource := eventSource g |}.

Definition put_userAlbums (l : list Album) (g : Globals) : Globals :=
  {| userNsid := userNsid g; userAlbums := l;
     currentJobId := currentJobId g; eventSource := eventSource g |}.

Definition put_currentJobId (v : value) (g : Globals) : Globals :=
  {| userNsid := userNsid g; userAlbums := userAlbums g;
     currentJobId := v; eventSource := eventSource g |}.

Definition put_eventSource (r : option nat) (g : Globals) : Globals :=
  {| userNsid := userNsid g; userAlbums := userAlbums g;
     currentJobId := currentJobId g; eventSource := r |}.

Definition put_download_btn_disabled (b : bool) (p : Panel) : Panel :=
  {| download_btn_disabled := b;
     cancel_btn_disabled := cancel_btn_disabled p;
     log_output := log_output p;
     log_scrolled_to_end := log_scrolled_to_end p;
     progress_bar_width := progress_bar_width p;
     progress_status := progress_status p;
     download_link_wrap := download_link_wrap p;
     album_select_disabled := album_select_disabled p;
     user_count_disabled := user_count_disabled p;
     preview_btn_disabled := preview_btn_disabled p;
     preview_status := preview_status p;
     preview_grid := preview_grid p |}.

Definition put_cancel_btn_disabled (b : bool) (p : Panel) : Panel :=
  {| download_btn_disabled := download_btn_disabled p;
     cancel_btn_disabled := b;
     log_output := log_output p;
     log_scrolled_to_end := log_scrolled_to_end p;
     progress_bar_width := progress_bar_width p;
     progress_status := progress_status p;
     download_link_wrap := download_link_wrap p;
     album_select_disabled := album_select_disabled p;
     user_count_disabled := user_count_disabled p;
     preview_btn_disabled := preview_btn_disabled p;
     preview_status := preview_status p;
     preview_grid := preview_grid p |}.

Definition put_log_output (s : string) (p : Panel) : Panel :=
  {| download_btn_disabled := download_btn_disabled p;
     cancel_btn_disabled := cancel_btn_disabled p;
     log_output := s;
     log_scrolled_to_end := log_scrolled_to_end p;
     progress_bar_width := progress_bar_width p;
     progress_status := progress_status p;
     download_link_wrap := download_link_wrap p;
     album_select_disabled := album_select_disabled p;
     user_count_disabled := user_count_disabled p;
     preview_btn_disabled := preview_btn_disabled p;
     preview_status := preview_status p;
     preview_grid := preview_grid p |}.

Definition put_log_scrolled_to_end (b : bool) (p : Panel) : Panel :=
  {| download_btn_disabled := download_btn_disabled p;
     cancel_btn_disabled := cancel_btn_disabled p;
     log_output := log_output p;
     log_scrolled_to_end := b;
     progress_bar_width := progress_bar_width p;
     progress_status := progress_status p;
     download_link_wrap := download_link_wrap p;
     album_select_disabled := album_select_disabled p;
     user_count_disabled := user_count_disabled p;
     preview_btn_disabled := preview_btn_disabled p;
     preview_status := preview_status p;
     preview_grid := preview_grid p |}.

Definition put_progress_bar_width (s : string) (p : Panel) : Panel :=
  {| download_btn_disabled := download_btn_disabled p;
     cancel_btn_disabled := cancel_btn_disabled p;
     log_output := log_output p;
     log_scrolled_to_end := log_scrolled_to_end p;
     progress_bar_width := s;
     progress_status := progress_status p;
     download_link_wrap := download_link_wrap p;
     album_select_disabled := album_select_disabled p;
     user_count_disabled := user_count_disabled p;
     preview_btn_disabled := preview_btn_disabled p;
     preview_status := preview_status p;
     preview_grid := preview_grid p |}.

Definition put_progress_status (s : string) (p : Panel) : Panel :=
  {| download_btn_disabled := download_btn_disabled p;
     cancel_btn_disabled := cancel_btn_disabled p;
     log_output := log_output p;
     log_scrolled_to_end := log_scrolled_to_end p;
     progress_bar_width := progress_bar_width p;
     progress_status := s;
     download_link_wrap := download_link_wrap p;
     album_select_disabled := album_select_disabled p;
     user_count_disabled := user_count_disabled p;
     preview_btn_disabled := preview_btn_disabled p;
     preview_status := preview_status p;
     preview_grid := preview_grid p |}.

Definition put_download_link_wrap (s : string) (p : Panel) : Panel :=
  {| download_btn_disabled := download_btn_disabled p;
     cancel_btn_disabled := cancel_btn_disabled p;
     log_output := log_output p;
     log_scrolled_to_end := log_scrolled_to_end p;
     progress_bar_width := progress_bar_width p;
     progress_status := progress_status p;
     download_link_wrap := s;
     album_select_disabled := album_select_disabled p;
     user_count_disabled := user_count_disabled p;
     preview_btn_disabled := preview_btn_disabled p;
     preview_status := preview_status p;
     preview_grid := preview_grid p |}.

Definition put_album_select_disabled (b : bool) (p : Panel) : Panel :=
  {| download_btn_disabled := download_btn_disabled p;
     cancel_btn_disabled := cancel_btn_disabled p;
     log_output := log_output p;
     log_scrolled_to_end := log_scrolled_to_end p;
     progress_bar_width := progress_bar_width p;
     progress_status := progress_status p;
     download_link_wrap := download_link_wrap p;
     album_select_disabled := b;
     user_count_disabled := user_count_disabled p;
     preview_btn_disabled := preview_btn_disabled p;
     preview_status := preview_status p;
     preview_grid := preview_grid p |}.

Definition put_user_count_disabled (b : bool) (p : Panel) : Panel :=
  {| download_btn_disabled := download_btn_disabled p;
     cancel_btn_disabled := cancel_btn_disabled p;
     log_output := log_output p;
     log_scrolled_to_end := log_scrolled_to_end p;
     progress_bar_width := progress_bar_width p;
     progress_status := progress_status p;
     download_link_wrap := download_link_wrap p;
     album_select_disabled := album_select_disabled p;
     user_count_disabled := b;
     preview_btn_disabled := preview_btn_disabled p;
     preview_status := preview_status p;
     preview_grid := preview_grid p |}.

Definition put_preview_btn_disabled (b : bool) (p : Panel) : Panel :=
  {| download_btn_disabled := download_btn_disabled p;
     cancel_btn_disabled := cancel_btn_disabled p;
     log_output := log_output p;
     log_scrolled_to_end := log_scrolled_to_end p;
     progress_bar_width := progress_bar_width p;
     progress_status := progress_status p;
     download_link_wrap := download_link_wrap p;
     album_select_disabled := album_select_disabled p;
     user_count_disabled := user_count_disabled p;
     preview_btn_disabled := b;
     preview_status := preview_status p;
     preview_grid := preview_grid p |}.

Definition put_preview_status (s : string) (p : Panel) : Panel :=
  {| download_btn_disabled := download_btn_disabled p;
     cancel_btn_disabled := cancel_btn_disabled p;
     log_output := log_output p;
     log_scrolled_to_end := log_scrolled_to_end p;
     progress_bar_width := progress_bar_width p;
     progress_status := progress_status p;
     download_link_wrap := download_link_wrap p;
     album_select_disabled := album_select_disabled p;
     user_count_disabled := user_count_disabled p;
     preview_btn_disabled := preview_btn_disabled p;
     preview_status := s;
     preview_grid := preview_grid p |}.

Definition put_preview_grid (l : list ThumbCell) (p : Panel) : Panel :=
  {| download_btn_disabled := download_btn_disabled p;
     cancel_btn_disabled := cancel_btn_disabled p;
     log_output := log_output p;
     log_scrolled_to_end := log_scrolled_to_end p;
     progress_bar_width := progress_bar_width p;
     progress_status := progress_status p;
     download_link_wrap := download_link_wrap p;
     album_select_disabled := album_select_disabled p;
     user_count_disabled := user_count_disabled p;
     preview_btn_disabled := preview_btn_disabled p;
     preview_status := preview_status p;
     preview_grid := l |}.

Definition put_alerts (l : list string) (b : Browser) : Browser :=
  {| alerts := l; requests := requests b;
     streams := streams b; pending := pending b |}.

Definition put_requests (l : list Request) (b : Browser) : Browser :=
  {| alerts := alerts b; requests := l;
     streams := streams b; pending := pending b |}.

Definition put_streams (l : list Stream) (b : Browser) : Browser :=
  {| alerts := alerts b; requests := requests b;
     streams := l; pending := pending b |}.

Definition put_pending (l : list Awaiting) (b : Browser) : Browser :=
  {| alerts := alerts b; requests := requests b;
     streams := streams b; pending := l |}.

(* ================================================================== *)
(** * Running the script: state and exceptions                         *)
(* ================================================================== *)

(** How a piece of script ends: normally with a value, or by throwing an
    exception with the given message. *)
Inductive completion (A : Type) : Type :=
| Normal (a : A)
| Throw (message : string).
Arguments Normal {A} a.
Arguments Throw {A} message.

Definition M (A : Type) : Type := Page -> completion A * Page.

Definition ret {A : Type} (a : A) : M A := fun st => (Normal a, st).

Definition bind {A B : Type} (m : M A) (k : A -> M B) : M B :=
  fun st =>
    match m st with
    | (Normal a, st') => k a st'
    | (Throw e, st') => (Throw e, st')
    end.

Definition throw {A : Type} (e : string) : M A := fun st => (Throw e, st).

Definition read {A : Type} (f : Page -> A) : M A :=
  fun st => (Normal (f st), st).

Definition write (f : Page -> Page) : M unit :=
  fun st => (Normal tt, f st).

(** [try { body } catch (e) { handler e.message }] *)
Definition try_catch {A : Type} (body : M A) (handler : string -> M A) : M A :=
  fun st =>
    match body st with
    | (Throw e, st') => handler e st'
    | r => r
    end.

(** [try { body } finally { final }] *)
Definition try_finally {A : Type} (body : M A) (final : M unit) : M A :=
  fun st =>
    match body st with
    | (c, st') =>
        match final st' with
        | (Normal _, st'') => (c, st'')
        | (Throw e, st'') => (Throw e, st'')
        end
    end.

(** [await] on a promise that settles as [r]. *)
Definition await {A : Type} (r : settled A) : M A :=
  match r with
  | Fulfilled d => ret d
  | Rejected e => throw e
  end.

Notation "x <- m ;; k" := (bind m (fun x => k))
  (at level 61, m at next level, right associativity).
Notation "m ;; k" := (bind m (fun _ => k))
  (at level 61, right associativity).

(** The page after a call; an exception nobody catches is reported on the
    console and changes nothing further. *)
Definition exec {A : Type} (m : M A) (st : Page) : Page := snd (m st).

(** ** What the browser provides *)

Definition alert (msg : string) : M unit :=
  write (with_browser (fun b => put_alerts (alerts b ++ [msg]) b)).

(** [fetch(...)]: the request leaves and the caller is suspended as [k]. *)
Definition fetch (r : Request) (k : Awaiting) : M unit :=
  write (with_browser (fun b =>
    put_pending (pending b ++ [k]) (put_requests (requests b ++ [r]) b))).

(** [new EventSource(u)] *)
Definition new_EventSource (u : string) : M nat :=
  i <- read (fun st => List.length (streams (browser st))) ;;
  write (with_browser (fun b =>
    put_streams (streams b ++ [{| es_url := u; es_closed := false |}]) b)) ;;
  ret i.

Fixpoint close_nth (i : nat) (l : list Stream) : list Stream :=
  match l, i with
  | [], _ => []
  | s :: r, O => {| es_url := es_url s; es_closed := true |} :: r
  | s :: r, S j => s :: close_nth j r
  end.

(** [eventSource.close()], on the value of the global at that moment. *)
Definition eventSource_close : M unit :=
  r <- read (fun st => eventSource (globals st)) ;;
  match r with
  | Some i => write (with_browser (fun b => put_streams (close_nth i (streams b)) b))
  | None => throw "Cannot read properties of null (reading 'close')"
  end.

(** Is stream [i] still delivering events? *)
Definition is_open (i : nat) (st : Page) : bool :=
  match nth_error (streams (browser st)) i with
  | Some s => negb (es_closed s)
  | None => false
  end.

(** [a[idx]] for a Number [idx]. *)
Definition at_index {A : Type} (l : list A) (idx : number) : option A :=
  match integral idx with
  | Some z => if (0 <=? z)%Z then nth_error l (Z.to_nat z) else None
  | None => None
  end.

(* ================================================================== *)
(** * The script                                                       *)
(* ================================================================== *)

(** ** User / Album mode toggle *)

Definition onUserModeChange : M unit :=
  mode <- read (fun st => user_mode (controls st)) ;;
  write (with_panel (put_album_select_disabled (negb (mode =? "album")%string))) ;;
  write (with_panel (put_user_count_disabled (mode =? "album")%string)).

(** ** Download *)

Definition getActiveTab : M string :=
  active <- read (fun st => active_tab (controls st)) ;;
  ret (match active with Some tab => tab | None => "interestingness" end).

Definition Number_of_length {A : Type} (l : list A) : number :=
  Number_of_Z (Z.of_nat (List.length l)).

(** Returns [None] for [null]. *)
Definition gatherParams : M (option object) :=
  tab <- getActiveTab ;;
  c <- read controls ;;
  userNsid <- read (fun st => userNsid (globals st)) ;;
  userAlbums <- read (fun st => userAlbums (globals st)) ;;
  let params :=
    [ ("size_key", Str (photo_size c));
      ("embed_metadata", Bool (embed_metadata c));
      ("filename_template", or (Str (filename_tmpl c)) (Str "{title}_{id}")) ] in
  if (tab =? "interestingness")%string then
    let params := set "tab_type" (Str "interestingness") params in
    let params := set "date" (Str (trim (int_date c))) params in
    let params := set "count" (or (Num (parseInt (int_count c))) (Num 500)) params in
    let params := if truthy userNsid then set "user_id" userNsid params else params in
    ret (Some params)
  else if (tab =? "search")%string then
    let params := set "tab_type" (Str "search") params in
    let params := set "text" (Str (trim (search_text c))) params in
    let params := set "tags" (Str (trim (search_tags c))) params in
    let params := set "tag_mode" (Str (tag_mode c)) params in
    let params := set "sort" (Str (sort c)) params in
    let params := set "license_ids" (Str (license c)) params in
    let params := set "count" (or (Num (parseInt (search_count c))) (Num 100)) params in
    let params := if truthy userNsid then set "user_id" userNsid params else params in
    ret (Some params)
  else if (tab =? "user-album")%string then
    let mode := user_mode c in
    if negb (truthy userNsid) then
      alert "Look up a user first." ;;
      ret None
    else
      let params := set "user_nsid" userNsid params in
      if (mode =? "photostream")%string then
        let params := set "tab_type" (Str "user_photostream") params in
        let params := set "count" (or (Num (parseInt (user_count c))) (Num 500)) params in
        ret (Some params)
      else
        let params := set "tab_type" (Str "album") params in
        let idx := parseInt (album_select c) in
        if isNaN idx || PrimFloat.ltb idx 0 || PrimFloat.leb (Number_of_length userAlbums) idx
        then
          alert "Select an album first." ;;
          ret None
        else
          match at_index userAlbums idx with
          | Some album =>
              let params := set "album_id" (a_id album) params in
              let params := set "album_title" (a_title album) params in
              ret (Some params)
          | None => throw "Cannot read properties of undefined (reading 'id')"
          end
  else ret (Some params).

Definition setRunning (running : bool) : M unit :=
  write (with_panel (put_download_btn_disabled running)) ;;
  write (with_panel (put_cancel_btn_disabled (negb running))).

Definition appendLog (msg : value) : M unit :=
  write (with_panel (fun p => put_log_output (log_output p ++ ToString msg ++ nl) p)) ;;
  write (with_panel (put_log_scrolled_to_end true)).

(** [startDownload], up to its [await fetch(...)]. *)
Definition startDownload : M unit :=
  params <- gatherParams ;;
  match params with
  | None => ret tt
  | Some params =>
      write (with_panel (put_log_output EmptyString)) ;;
      write (with_panel (put_progress_bar_width "0%")) ;;
      write (with_panel (put_progress_status "Starting...")) ;;
      write (with_panel (put_download_link_wrap EmptyString)) ;;
      setRunning true ;;
      fetch {| url := "/api/download/start";
               method := "POST";
               headers := [("Content-Type", "application/json")];
               body := Some (JSON_stringify params) |} AwaitStart
  end.

(** [eventSource.onmessage], given [JSON.parse(event.data)]. *)
Definition is_type (ev : Event) (t : string) : bool :=
  match ev_type ev with
  | Str s => (s =? t)%string
  | _ => false
  end.

Definition onmessage (ev : Event) : M unit :=
  if is_type ev "progress" then
    let pct := Math_round ((ev_current ev / ev_total ev) * 100) in
    write (with_panel (put_progress_bar_width (Number_toString pct ++ "%"))) ;;
    write (with_panel (put_progress_status
      (Number_toString (ev_current ev) ++ "/" ++ Number_toString (ev_total ev) ++ " photos")))
  else if is_type ev "log" then
    appendLog (ev_message ev)
  else if is_type ev "zipping" then
    write (with_panel (put_progress_status "Creating zip file..."))
  else if is_type ev "complete" then
    appendLog (or (ev_message ev) (Str "Done.")) ;;
    write (with_panel (put_progress_status "Done")) ;;
    (if truthy (ev_file_ready ev) then
       write (with_panel (put_download_link_wrap
         ("<a class=" ++ dquote ++ "download-link" ++ dquote
          ++ " href=" ++ dquote ++ "/api/download/file/" ++ ToString (ev_job_id ev) ++ dquote
          ++ ">Download Zip</a>")))
     else ret tt) ;;
    setRunning false ;;
    eventSource_close ;;
    write (with_globals (put_eventSource None))
  else if is_type ev "error" then
    appendLog (Str ("Error: " ++ ToString (ev_message ev))) ;;
    write (with_panel (put_progress_status "Failed")) ;;
    setRunning false ;;
    eventSource_close ;;
    write (with_globals (put_eventSource None))
  else if is_type ev "cancelled" then
    appendLog (Str "Operation cancelled.") ;;
    write (with_panel (put_progress_status "Cancelled")) ;;
    setRunning false ;;
    eventSource_close ;;
    write (with_globals (put_eventSource None))
  else ret tt.

(** [eventSource.onerror] *)
Definition onerror : M unit :=
  appendLog (Str "Connection lost.") ;;
  setRunning false ;;
  eventSource_close ;;
  write (with_globals (put_eventSource None)).

(** [startDownload] from its [await] on: [r] is how [fetch] and
    [resp.json()] ended. *)
Definition startDownload_resume (r : settled StartReply) : M unit :=
  try_catch
    (data <- await r ;;
     if truthy (sr_error data) then
       appendLog (Str ("Error: " ++ ToString (sr_error data))) ;;
       setRunning false
     else
       write (with_globals (put_currentJobId (sr_job_id data))) ;;
       currentJobId <- read (fun st => currentJobId (globals st)) ;;
       es <- new_EventSource ("/api/download/progress/" ++ ToString currentJobId) ;;
       write (with_globals (put_eventSource (Some es))))
    (fun message =>
       appendLog (Str ("Error: " ++ message)) ;;
       setRunning false).

(** [cancelDownload], up to its [await fetch(...)]. *)
Definition cancelDownload : M unit :=
  currentJobId <- read (fun st => currentJobId (globals st)) ;;
  if negb (truthy currentJobId) then ret tt
  else
    write (with_panel (put_progress_status "Cancelling...")) ;;
    fetch {| url := "/api/download/cancel/" ++ ToString currentJobId;
             method := "POST";
             headers := [];
             body := None |} AwaitCancel.

Definition cancelDownload_resume (r : settled unit) : M unit :=
  try_catch
    (await r)
    (fun message => appendLog (Str ("Cancel error: " ++ message))).

(** ** Preview *)

(** [startPreview], up to its [await fetch(...)]. *)
Definition startPreview : M unit :=
  c <- read controls ;;
  let text := trim (search_text c) in
  let tags := trim (search_tags c) in
  if negb (truthy (Str text)) && negb (truthy (Str tags)) then
    alert "Enter keywords and/or tags to search."
  else
    write (with_panel (put_preview_btn_disabled true)) ;;
    write (with_panel (put_preview_status "Searching...")) ;;
    write (with_panel (put_preview_grid [])) ;;
    userNsid <- read (fun st => userNsid (globals st)) ;;
    fetch {| url := "/api/search";
             method := "POST";
             headers := [("Content-Type", "application/json")];
             body := Some (JSON_stringify
               [ ("text", Str text);
                 ("tags", Str tags);
                 ("tag_mode", Str (tag_mode c));
                 ("sort", Str (sort c));
                 ("license_ids", Str (license c));
                 ("count", or (Num (parseInt (search_count c))) (Num 100));
                 ("user_id", or userNsid (Str EmptyString)) ]) |} AwaitPreview.

Definition thumb_cell (photo : Photo) : ThumbCell :=
  {| cell_className := "thumb-cell";
     cell_title :=
       p_title photo ++ nl ++ "By: " ++ ToString (owner photo)
       ++ (if truthy (date_taken photo)
           then nl ++ "Date: " ++ ToString (date_taken photo)
           else EmptyString);
     img_src := "/api/preview-thumb?url=" ++ encodeURIComponent (ToString (thumb_url photo));
     img_alt := p_title photo;
     img_loading := "lazy";
     caption_className := "title";
     caption_textContent :=
       if (15 <? String.length (p_title photo))%nat
       then substring 0 12 (p_title photo) ++ "..."
       else p_title photo |}.

(** The body of [data.preview.forEach(photo => ...)]. *)
Fixpoint forEach_photo (l : list Photo) : M unit :=
  match l with
  | [] => ret tt
  | photo :: rest =>
      (if negb (truthy (thumb_url photo)) then ret tt
       else write (with_panel (fun p =>
              put_preview_grid (preview_grid p ++ [thumb_cell photo]) p))) ;;
      forEach_photo rest
  end.

Section Script.

(** [Number.prototype.toLocaleString()], which depends on the locale of the
    browser. *)
Variable Number_toLocaleString : number -> string.

(** [startPreview] from its [await] on. *)
Definition startPreview_resume (r : settled PreviewReply) : M unit :=
  try_finally
    (try_catch
       (data <- await r ;;
        if truthy (pr_error data) then
          write (with_panel (put_preview_status ("Error: " ++ ToString (pr_error data))))
        else if negb (number_truthy (Number_of_length (preview data))) then
          write (with_panel (put_preview_status "No photos found."))
        else
          forEach_photo (preview data) ;;
          let total := Number_toLocaleString (pr_total data) in
          write (with_panel (put_preview_status
            (total ++ " total photos found  |  Previewing "
             ++ Number_toString (Number_of_length (preview data))))))
       (fun message =>
          write (with_panel (put_preview_status ("Error: " ++ message)))))
    (write (with_panel (put_preview_btn_disabled false))).

(* ================================================================== *)
(** * The page as a machine                                            *)
(* ================================================================== *)

(** What can happen to the page: a function of the script is called, a
    suspended call is resumed, a stream delivers a message or reports an
    error, the user changes the controls.  [lookupUser] is outside this
    development; [Lookup] stands for its assignment to the two globals the
    download path reads. *)
Inductive action : Type :=
| Call_startDownload
| Call_cancelDownload
| Call_startPreview
| Call_onUserModeChange
| Resume_startDownload (r : settled StartReply)
| Resume_cancelDownload (r : settled unit)
| Resume_startPreview (r : settled PreviewReply)
| Message (i : nat) (data : option Event)
| Stream_error (i : nat)
| Input (c : Controls)
| Lookup (nsid : value) (albums : list Album).

Definition Awaiting_eqb (a b : Awaiting) : bool :=
  match a, b with
  | AwaitStart, AwaitStart | AwaitCancel, AwaitCancel
  | AwaitPreview, AwaitPreview => true
  | _, _ => false
  end.

Fixpoint take (k : Awaiting) (l : list Awaiting) : option (list Awaiting) :=
  match l with
  | [] => None
  | a :: r =>
      if Awaiting_eqb a k then Some r
      else match take k r with
           | Some r' => Some (a :: r')
           | None => None
           end
  end.

(** A call suspended as [k] is resumed with [m]; nothing happens when no
    such call is suspended. *)
Definition resume (k : Awaiting) (m : M unit) (st : Page) : Page :=
  match take k (pending (browser st)) with
  | Some l => exec m (with_browser (put_pending l) st)
  | None => st
  end.

(** A closed stream delivers nothing.  [data = None] is a message whose
    [JSON.parse(event.data)] throws or yields [null]: the handler throws
    before it has changed anything. *)
Definition step (a : action) (st : Page) : Page :=
  match a with
  | Call_startDownload => exec startDownload st
  | Call_cancelDownload => exec cancelDownload st
  | Call_startPreview => exec startPreview st
  | Call_onUserModeChange => exec onUserModeChange st
  | Resume_startDownload r => resume AwaitStart (startDownload_resume r) st
  | Resume_cancelDownload r => resume AwaitCancel (cancelDownload_resume r) st
  | Resume_startPreview r => resume AwaitPreview (startPreview_resume r) st
  | Message i data =>
      if is_open i st then
        match data with
        | Some ev => exec (onmessage ev) st
        | None => st
        end
      else st
  | Stream_error i => if is_open i st then exec onerror st else st
  | Input c => with_controls c st
  | Lookup nsid albums =>
      with_globals (fun g => put_userAlbums albums (put_userNsid nsid g)) st
  end.

Definition run (acts : list action) (st : Page) : Page :=
  fold_left (fun s a => step a s) acts st.

(** The state the script starts in: its globals as initialised, nothing
    sent, opened or suspended yet. *)
Definition initial (st : Page) : Prop :=
  userNsid (globals st) = Null /\
  userAlbums (globals st) = [] /\
  currentJobId (globals st) = Null /\
  eventSource (globals st) = None /\
  requests (browser st) = [] /\
  streams (browser st) = [] /\
  pending (browser st) = [].

(** A terminal event, and the status line the handler leaves for it. *)
Definition terminal (ev : Event) : bool :=
  is_type ev "complete" || is_type ev "error" || is_type ev "cancelled".

Definition final_status (ev : Event) : string :=
  if is_type ev "complete" then "Done"
  else if is_type ev "error" then "Failed"
  else "Cancelled".

(** One of the six kinds the [switch] has a case for. *)
Definition handled (ev : Event) : bool :=
  existsb (is_type ev)
    ["progress"; "log"; "zipping"; "complete"; "error"; "cancelled"].

(** [close()] was called on stream [i]. *)
Definition is_closed (i : nat) (st : Page) : bool :=
  match nth_error (streams (browser st)) i with
  | Some s => es_closed s
  | None => false
  end.

(** Exactly one of the download and cancel buttons is enabled. *)
Definition one_enabled (st : Page) : Prop :=
  cancel_btn_disabled (panel st) = negb (download_btn_disabled (panel st)).

(** The markup written for a finished job. *)
Definition download_link (job_id : value) : string :=
  "<a class=" ++ dquote ++ "download-link" ++ dquote
  ++ " href=" ++ dquote ++ "/api/download/file/" ++ ToString job_id ++ dquote
  ++ ">Download Zip</a>".

(** The tab [gatherParams] works on. *)
Definition tab_of (st : Page) : string :=
  match active_tab (controls st) with
  | Some tab => tab
  | None => "interestingness"
  end.

(** The request [cancelDownload] sends for the current job. *)
Definition cancel_request (st : Page) : Request :=
  {| url := "/api/download/cancel/" ++ ToString (currentJobId (globals st));
     method := "POST";
     headers := [];
     body := None |}.

(** [startDownload] taken as the click handler of the download button (the
    markup that wires it is not in the script): a disabled button receives
    no click, so the call happens only while the button is enabled.  Every
    other action can happen at any time. *)
Definition permitted (a : action) (st : Page) : Prop :=
  match a with
  | Call_startDownload => download_btn_disabled (panel st) = false
  | _ => True
  end.

Inductive reachable : Page -> Prop :=
| reachable_initial : forall st, initial st -> reachable st
| reachable_step : forall st a,
    reachable st -> permitted a st -> reachable (step a st).

End Script.

(** ** Pages and events used as examples *)

Definition example_controls (tab mode count album : string) : Controls :=
  {| active_tab := Some tab;
     photo_size := "Large";
     embed_metadata := true;
     filename_tmpl := EmptyString;
     int_date := "2024-05-01";
     int_count := count;
     search_text := "sunset";
     search_tags := EmptyString;
     tag_mode := "any";
     sort := "relevance";
     license := EmptyString;
     search_count := count;
     user_mode := mode;
     user_count := count;
     album_select := album |}.

Definition idle_panel : Panel :=
  {| download_btn_disabled := false;
     cancel_btn_disabled := true;
     log_output := EmptyString;
     log_scrolled_to_end := false;
     progress_bar_width := "0%";
     progress_status := EmptyString;
     download_link_wrap := EmptyString;
     album_select_disabled := true;
     user_count_disabled := false;
     preview_btn_disabled := false;
     preview_status := EmptyString;
     preview_grid := [] |}.

Definition quiet_browser : Browser :=
  {| alerts := []; requests := []; streams := []; pending := [] |}.

(** The page as the script finds it, on a given tab. *)
Definition fresh_page (c : Controls) : Page :=
  {| globals := {| userNsid := Null; userAlbums := [];
                   currentJobId := Null; eventSource := None |};
     controls := c;
     panel := idle_panel;
     browser := quiet_browser |}.

Definition two_albums : list Album :=
  [ {| a_id := Str "72157600000000001"; a_title := Str "Iceland"; a_photos := Num 12 |};
    {| a_id := Str "72157600000000002"; a_title := Str "Lofoten"; a_photos := Num 30 |} ].

(** The page after a user with two albums was looked up. *)
Definition user_page (c : Controls) : Page :=
  {| globals := {| userNsid := Str "12345678@N00"; userAlbums := two_albums;
                   currentJobId := Null; eventSource := None |};
     controls := c;
     panel := idle_panel;
     browser := quiet_browser |}.

(** The page while job [j1] is streaming. *)
Definition streaming_page : Page :=
  {| globals := {| userNsid := Null; userAlbums := [];
                   currentJobId := Str "j1"; eventSource := Some O |};
     controls := example_controls "search" "photostream" "10" EmptyString;
     panel := put_cancel_btn_disabled false
                (put_download_btn_disabled true
                   (put_progress_status "Starting..." idle_panel));
     browser := {| alerts := []; requests := [];
                   streams := [ {| es_url := "/api/download/progress/j1";
                                   es_closed := false |} ];
                   pending := [] |} |}.

Definition progress_event (current total : number) : Event :=
  {| ev_type := Str "progress"; ev_current := current; ev_total := total;
     ev_message := Undefined; ev_file_ready := Undefined; ev_job_id := Undefined |}.

Definition complete_event (file_ready : bool) : Event :=
  {| ev_type := Str "complete"; ev_current := 0; ev_total := 0;
     ev_message := Str "Downloaded 3 photos."; ev_file_ready := Bool file_ready;
     ev_job_id := Str "j1" |}.

Definition album_page : Page :=
  user_page (example_controls "user-album" "album" "25" "1").

Definition album_params : object :=
  [ ("size_key", Str "Large");
    ("embed_metadata", Bool true);
    ("filename_template", Str "{title}_{id}");
    ("user_nsid", Str "12345678@N00");
    ("tab_type", Str "album");
    ("album_id", Str "72157600000000002");
    ("album_title", Str "Lofoten") ].

Definition zero_count_page : Page :=
  fresh_page (example_controls "interestingness" "photostream" "0" EmptyString).

Definition zero_count_params : object :=
  [ ("size_key", Str "Large");
    ("embed_metadata", Bool true);
    ("filename_template", Str "{title}_{id}");
    ("tab_type", Str "interestingness");
    ("date", Str "2024-05-01");
    ("count", Num 500) ].

(** A page whose filename template holds three spaces. *)
Definition blank_template_page : Page :=
  fresh_page
    {| active_tab := Some "interestingness";
       photo_size := "Large";
       embed_metadata := true;
       filename_tmpl := "   ";
       int_date := "2024-05-01";
       int_count := "20";
       search_text := EmptyString;
       search_tags := EmptyString;
       tag_mode := "any";
       sort := "relevance";
       license := EmptyString;
       search_count := "20";
       user_mode := "photostream";
       user_count := "20";
       album_select := EmptyString |}.

Definition blank_template_params : object :=
  [ ("size_key", Str "Large");
    ("embed_metadata", Bool true);
    ("filename_template", Str "   ");
    ("tab_type", Str "interestingness");
    ("date", Str "2024-05-01");
    ("count", Num 20) ].

Definition empty_reply : PreviewReply :=
  {| pr_error := Undefined; preview := []; pr_total := 0 |}.

(** ** Vocabulary of the properties *)

(** The panel after a terminal event; the stream part depends on whether
    the global still refers to a stream. *)
Definition end_of_job (ev : Event) (p : Panel) : Panel :=
  let logged :=
    if is_type ev "complete" then or (ev_message ev) (Str "Done.")
    else if is_type ev "error" then Str ("Error: " ++ ToString (ev_message ev))
    else Str "Operation cancelled." in
  let p1 := put_log_scrolled_to_end true
              (put_log_output (log_output p ++ ToString logged ++ nl) p) in
  let p2 := put_progress_status (final_status ev) p1 in
  let p3 := if is_type ev "complete" && truthy (ev_file_ready ev)
            then put_download_link_wrap (download_link (ev_job_id ev)) p2
            else p2 in
  put_cancel_btn_disabled true (put_download_btn_disabled false p3).

(** Whatever the outcome of [m], the page it leaves is related by [R] to the
    page it started from. *)
Definition keeps (R : Page -> Page -> Prop) {A : Type} (m : M A) : Prop :=
  forall st, R st (snd (m st)).

(** A stream that was closed is still closed. *)
Definition closed_later (st st' : Page) : Prop :=
  forall i, is_closed i st = true -> is_closed i st' = true.

(** Exactly one button enabled before, then also after. *)
Definition buttons_kept (st st' : Page) : Prop :=
  one_enabled st -> one_enabled st'.

(** The page after [alert(msg)]. *)
Definition alerted (msg : string) (st : Page) : Page :=
  with_browser (fun b => put_alerts (alerts b ++ [msg]) b) st.

(** The request [startDownload] sends for [params]. *)
Definition start_request (params : object) : Request :=
  {| url := "/api/download/start";
     method := "POST";
     headers := [("Content-Type", "application/json")];
     body := Some (JSON_stringify params) |}.

(** The page once [startDownload] has sent its request. *)
Definition started (params : object) (st : Page) : Page :=
  with_browser (fun b =>
    put_pending (pending b ++ [AwaitStart])
      (put_requests (requests b ++ [start_request params]) b))
    (with_panel (fun p =>
       put_cancel_btn_disabled false
         (put_download_btn_disabled true
            (put_download_link_wrap EmptyString
               (put_progress_status "Starting..."
                  (put_progress_bar_width "0%"
                     (put_log_output EmptyString p)))))) st).

(** A Number that [||] replaces by its right operand: NaN or zero. *)
Definition NaN_or_zero (x : number) : Prop :=
  isNaN x = true \/ PrimFloat.is_zero x = true.

(** Suspended calls of [startDownload]. *)
Fixpoint starts (l : list Awaiting) : nat :=
  match l with
  | [] => O
  | AwaitStart :: r => S (starts r)
  | _ :: r => starts r
  end.

Definition no_open (st : Page) : Prop := forall i, is_open i st = false.

(** While the user starts downloads through the download button: a stream
    that is open is the one the global refers to, at most one call of
    [startDownload] is suspended and then no stream is open, and the button
    is enabled only when no stream is open and no such call is suspended. *)
Record one_job (st : Page) : Prop := {
  open_is_current :
    forall i, is_open i st = true -> eventSource (globals st) = Some i;
  one_start : (starts (pending (browser st)) <= 1)%nat;
  start_before_open :
    (1 <= starts (pending (browser st)))%nat -> no_open st;
  idle_when_enabled :
    download_btn_disabled (panel st) = false ->
    no_open st /\ starts (pending (browser st)) = O
}.

(** The part of the page [one_job] looks at is the same in both. *)
Definition same_job_view (st st' : Page) : Prop :=
  streams (browser st') = streams (browser st) /\
  eventSource (globals st') = eventSource (globals st) /\
  download_btn_disabled (panel st') = download_btn_disabled (panel st) /\
  starts (pending (browser st')) = starts (pending (browser st)).

(** ** Vocabulary of the further properties *)

(** How a resumed [startDownload] fails: the message it logs, if it
    does. *)
Definition start_failure (r : settled StartReply) : option string :=
  match r with
  | Rejected message => Some message
  | Fulfilled data =>
      if truthy (sr_error data) then Some (ToString (sr_error data)) else None
  end.

(** The panel after [appendLog(msg)]. *)
Definition logged (msg : string) (p : Panel) : Panel :=
  put_log_scrolled_to_end true (put_log_output (log_output p ++ msg ++ nl) p).

(** The two buttons as [setRunning(false)] leaves them. *)
Definition idle_buttons (p : Panel) : Panel :=
  put_cancel_btn_disabled true (put_download_btn_disabled false p).

(** [a] is not the resumption of a [startDownload]. *)
Definition not_start_resume (a : action) : Prop :=
  match a with
  | Resume_startDownload _ => False
  | _ => True
  end.

Definition not_start_call (a : action) : Prop :=
  match a with
  | Call_startDownload => False
  | _ => True
  end.

(** The log only got longer. *)
Definition log_extended (st st' : Page) : Prop :=
  exists suffix : string,
    log_output (panel st') = log_output (panel st) ++ suffix.

Definition currentJobId_kept (st st' : Page) : Prop :=
  currentJobId (globals st') = currentJobId (globals st).

(** A request the script is known to send with [fetch]: a POST to one of
    its four endpoints. *)
Definition known_request (r : Request) : Prop :=
  method r = "POST" /\
  (url r = "/api/download/start" \/
   url r = "/api/search" \/
   url r = "/api/resolve-user" \/
   exists id : string, url r = "/api/download/cancel/" ++ id).

Definition known_stream (s : Stream) : Prop :=
  exists id : string, es_url s = "/api/download/progress/" ++ id.

(** An image of the preview grid, which the browser loads by itself from
    the [src] the script assigned. *)
Definition known_image (c : ThumbCell) : Prop :=
  exists u : string,
    img_src c = "/api/preview-thumb?url=" ++ encodeURIComponent u.

(** The markup assigned to the link wrapper: none, or the anchor of a
    'complete' event, its [job_id] inserted as it is. *)
Definition known_link (w : string) : Prop :=
  w = EmptyString \/ exists job_id : value, w = download_link job_id.

Definition known_traffic (st : Page) : Prop :=
  Forall known_request (requests (browser st)) /\
  Forall known_stream (streams (browser st)) /\
  Forall known_image (preview_grid (panel st)) /\
  known_link (download_link_wrap (panel st)).

Definition known_traffic_kept (st st' : Page) : Prop :=
  known_traffic st -> known_traffic st'.

(** [a] is not a call of one of the three functions of the page that use
    [fetch]. *)
Definition not_call (a : action) : Prop :=
  match a with
  | Call_startDownload | Call_cancelDownload | Call_startPreview => False
  | _ => True
  end.

Definition requests_kept (st st' : Page) : Prop :=
  requests (browser st') = requests (browser st).

(** No image was added: the preview grid is as it was, or empty. *)
Definition no_image_added (st st' : Page) : Prop :=
  preview_grid (panel st') = preview_grid (panel st) \/
  preview_grid (panel st') = [].

(** The three fields every parameter object starts with. *)
Definition common_params (c : Controls) : object :=
  [ ("size_key", Str (photo_size c));
    ("embed_metadata", Bool (embed_metadata c));
    ("filename_template", or (Str (filename_tmpl c)) (Str "{title}_{id}")) ].

(** Only white space (or nothing at all). *)
Fixpoint blank (s : string) : bool :=
  match s with
  | EmptyString => true
  | String c r => isWhiteSpace c && blank r
  end.

(** The request [startPreview] sends. *)
Definition preview_request (st : Page) : Request :=
  let c := controls st in
  {| url := "/api/search";
     method := "POST";
     headers := [("Content-Type", "application/json")];
     body := Some (JSON_stringify
       [ ("text", Str (trim (search_text c)));
         ("tags", Str (trim (search_tags c)));
         ("tag_mode", Str (tag_mode c));
         ("sort", Str (sort c));
         ("license_ids", Str (license c));
         ("count", or (Num (parseInt (search_count c))) (Num 100));
         ("user_id", or (userNsid (globals st)) (Str EmptyString)) ]) |}.

(** How a resumed [startPreview] fails: the message it shows, if it does. *)
Definition preview_failure (r : settled PreviewReply) : option string :=
  match r with
  | Rejected message => Some message
  | Fulfilled data =>
      if truthy (pr_error data) then Some (ToString (pr_error data)) else None
  end.

(** The photos that get a cell: those with a truthy [thumb_url]. *)
Definition with_thumb (l : list Photo) : list Photo :=
  filter (fun photo => truthy (thumb_url photo)) l.

(* ================================================================== *)
(** * User lookup                                                      *)
(* ================================================================== *)

(** Text that may hold any code unit: the status line of the lookup shows
    an en dash (U+2013). *)
Definition text := list N.

Definition units (s : string) : text :=
  map N_of_ascii (list_ascii_of_string s).

(** ['(optional – filter by user)'] *)
Definition optional_hint : text :=
  (units "(optional " ++ [8211%N] ++ units " filter by user)")%list.

(** The parsed body of the reply of [/api/resolve-user]. *)
Record UserReply := {
  ur_error : value;
  ur_nsid : value;
  ur_username : value;
  ur_albums : list Album
}.

(** An [option] element of the album select. *)
Record AlbumOption := { opt_value : string; opt_textContent : string }.

(** What [lookupUser] reads and writes besides the page of the download
    panel: the user input, the status line, the lookup button, the children
    of the album select, and the number of its calls that are suspended. *)
Record UserPanel := {
  user_input : string;
  user_status : text;
  lookup_btn_disabled : bool;
  album_options : list AlbumOption;
  lookups : nat
}.

Record Document := { page : Page; side : UserPanel }.

Definition put_user_input (s : string) (u : UserPanel) : UserPanel :=
  {| user_input := s; user_status := user_status u;
     lookup_btn_disabled := lookup_btn_disabled u;
     album_options := album_options u; lookups := lookups u |}.

Definition put_user_status (t : text) (u : UserPanel) : UserPanel :=
  {| user_input := user_input u; user_status := t;
     lookup_btn_disabled := lookup_btn_disabled u;
     album_options := album_options u; lookups := lookups u |}.

Definition put_lookup_btn_disabled (b : bool) (u : UserPanel) : UserPanel :=
  {| user_input := user_input u; user_status := user_status u;
     lookup_btn_disabled := b;
     album_options := album_options u; lookups := lookups u |}.

Definition put_album_options (l : list AlbumOption) (u : UserPanel) : UserPanel :=
  {| user_input := user_input u; user_status := user_status u;
     lookup_btn_disabled := lookup_btn_disabled u;
     album_options := l; lookups := lookups u |}.

Definition put_lookups (n : nat) (u : UserPanel) : UserPanel :=
  {| user_input := user_input u; user_status := user_status u;
     lookup_btn_disabled := lookup_btn_disabled u;
     album_options := album_options u; lookups := n |}.

Definition on_page (f : Page -> Page) (d : Document) : Document :=
  {| page := f (page d); side := side d |}.

Definition on_side (f : UserPanel -> UserPanel) (d : Document) : Document :=
  {| page := page d; side := f (side d) |}.

Definition resolve_request (input : string) : Request :=
  {| url := "/api/resolve-user";
     method := "POST";
     headers := [("Content-Type", "application/json")];
     body := Some (JSON_stringify [("username", Str input)]) |}.

(** The options [data.albums.forEach((a, i) => ...)] appends, [i] counting
    from [start]. *)
Fixpoint options_from (start : Z) (albums : list Album) : list AlbumOption :=
  match albums with
  | [] => []
  | a :: rest =>
      {| opt_value := ToString (Num (Number_of_Z start));
         opt_textContent :=
           ToString (a_title a) ++ " (" ++ ToString (a_photos a) ++ " photos)" |}
      :: options_from (start + 1) rest
  end.

(** [lookupUser], up to its [await fetch(...)]. *)
Definition lookupUser (d : Document) : Document :=
  let input := trim (user_input (side d)) in
  if negb (truthy (Str input)) then
    let d := on_page (with_globals (put_userNsid Null)) d in
    let d := on_page (with_globals (put_userAlbums [])) d in
    let d := on_side (put_album_options []) d in
    let d := on_page (with_panel (put_album_select_disabled true)) d in
    on_side (put_user_status optional_hint) d
  else
    let d := on_side (put_lookup_btn_disabled true) d in
    let d := on_side (put_user_status (units "Looking up user...")) d in
    let d := on_page (with_browser (fun b =>
               put_requests (requests b ++ [resolve_request input]) b)) d in
    on_side (fun u => put_lookups (S (lookups u)) u) d.

(** [lookupUser] from its [await] on; the [finally] clause runs on every
    path. *)
Definition lookupUser_resume (r : settled UserReply) (d : Document) : Document :=
  let d :=
    match r with
    | Fulfilled data =>
        if truthy (ur_error data) then
          on_side (put_user_status (units ("Error: " ++ ToString (ur_error data)))) d
        else
          let d := on_page (with_globals (put_userNsid (ur_nsid data))) d in
          let d := on_page (with_globals (put_userAlbums (ur_albums data))) d in
          let d := on_side (put_user_status
                     (units ("User: " ++ ToString (ur_username data)
                             ++ " (" ++ ToString (ur_nsid data) ++ ")"))) d in
          let d := on_side (put_album_options []) d in
          on_side (fun u =>
            put_album_options (album_options u ++ options_from 0 (ur_albums data)) u) d
    | Rejected message =>
        on_side (put_user_status (units ("Error: " ++ message))) d
    end in
  on_side (put_lookup_btn_disabled false) d.

(** What can happen to the document: an action of the page (the stand-in
    [Lookup] apart, now that [lookupUser] itself is there), a call or a
    resumption of [lookupUser], the user typing a name. *)
Inductive doc_action : Type :=
| On_page (a : action)
| Call_lookupUser
| Resume_lookupUser (r : settled UserReply)
| Type_user (s : string).

Definition is_Lookup (a : action) : bool :=
  match a with
  | Lookup _ _ => true
  | _ => false
  end.

Section DocumentMachine.

Variable Number_toLocaleString : number -> string.

Definition doc_step (a : doc_action) (d : Document) : Document :=
  match a with
  | On_page a =>
      if is_Lookup a then d else on_page (step Number_toLocaleString a) d
  | Call_lookupUser => lookupUser d
  | Resume_lookupUser r =>
      match lookups (side d) with
      | O => d
      | S n => lookupUser_resume r (on_side (put_lookups n) d)
      end
  | Type_user s => on_side (put_user_input s) d
  end.

Definition doc_run (acts : list doc_action) (d : Document) : Document :=
  fold_left (fun s a => doc_step a s) acts d.

End DocumentMachine.

(** [a] is not a call of one of the four functions that use [fetch]. *)
Definition calls_no_fetch (a : doc_action) : Prop :=
  match a with
  | On_page a => not_call a
  | Call_lookupUser => False
  | _ => True
  end.

(** [a] is not the resumption of a [startPreview]. *)
Definition not_preview_resume (a : doc_action) : Prop :=
  match a with
  | On_page (Resume_startPreview _) => False
  | _ => True
  end.

(** How a resumed [lookupUser] fails: the message it shows, if it does. *)
Definition lookup_failure (r : settled UserReply) : option string :=
  match r with
  | Rejected message => Some message
  | Fulfilled data =>
      if truthy (ur_error data) then Some (ToString (ur_error data)) else None
  end.

(** The select lists exactly the albums the script holds. *)
Definition options_match (d : Document) : Prop :=
  album_options (side d) = options_from 0 (userAlbums (globals (page d))).

Definition userAlbums_kept (st st' : Page) : Prop :=
  userAlbums (globals st') = userAlbums (globals st).

(** For every index [i] below [bound]: the value of option [i], read back
    by [parseInt], is the integral Number [i], which passes the three tests
    of [gatherParams] for every number of albums from [i + 1] to [bound]. *)
Definition index_survives (bound : nat) : bool :=
  let lengths := map (fun n => Number_of_Z (Z.of_nat n)) (seq 0 (S bound)) in
  forallb (fun i =>
    let idx := parseInt (ToString (Num (Number_of_Z (Z.of_nat i)))) in
    negb (isNaN idx)
    && negb (PrimFloat.ltb idx 0)
    && match integral idx with
       | Some z => (z =? Z.of_nat i)%Z
       | None => false
       end
    && forallb (fun len => negb (PrimFloat.leb len idx)) (skipn (S i) lengths))
    (seq 0 bound).

(* ================================================================== *)
(** * Tabs                                                             *)
(* ================================================================== *)

(** An element the tab script can reach: its [id] (empty when it has
    none), whether it carries the classes [tab-btn], [tab-content] and
    [active], and its [data-tab] attribute. *)
Record TabElement := {
  el_id : string;
  is_tab_btn : bool;
  is_tab_content : bool;
  active : bool;
  data_tab : string
}.

(** [classList.add('active')] and [classList.remove('active')] *)
Definition put_active (b : bool) (e : TabElement) : TabElement :=
  {| el_id := el_id e; is_tab_btn := is_tab_btn e;
     is_tab_content := is_tab_content e; active := b; data_tab := data_tab e |}.

Fixpoint update_nth (k : nat) (f : TabElement -> TabElement)
    (l : list TabElement) : list TabElement :=
  match l, k with
  | [], _ => []
  | e :: r, O => f e :: r
  | e :: r, S j => e :: update_nth j f r
  end.

(** [document.getElementById(id)]: the position of the first element with
    that id, in document order. *)
Fixpoint getElementById (id : string) (l : list TabElement) : option nat :=
  match l with
  | [] => None
  | e :: r =>
      if (el_id e =? id)%string then Some O
      else option_map S (getElementById id r)
  end.

(** [querySelectorAll(selector).forEach(e => e.classList.remove('active'))] *)
Definition remove_active (selector : TabElement -> bool)
    (l : list TabElement) : list TabElement :=
  map (fun e => if selector e then put_active false e else e) l.

(** The click listener of the tab button at position [k] of the document
    [l]; only elements that carry [tab-btn] have the listener. *)
Definition click_tab (k : nat) (l : list TabElement)
  : completion unit * list TabElement :=
  match nth_error l k with
  | Some btn =>
      if is_tab_btn btn then
        let l := remove_active is_tab_btn l in
        let l := remove_active is_tab_content l in
        let l := update_nth k (put_active true) l in
        let tabId := "tab-" ++ data_tab btn in
        match getElementById tabId l with
        | Some j => (Normal tt, update_nth j (put_active true) l)
        | None =>
            (Throw "Cannot read properties of null (reading 'classList')", l)
        end
      else (Normal tt, l)
  | None => (Normal tt, l)
  end.

(** [document.querySelector('.tab-btn.active')], and what [getActiveTab]
    makes of it. *)
Definition active_tab_btn (l : list TabElement) : option TabElement :=
  find (fun e => is_tab_btn e && active e) l.

Definition active_tab_of (l : list TabElement) : string :=
  match active_tab_btn l with
  | Some btn => data_tab btn
  | None => "interestingness"
  end.

(** ** More pages, documents and elements used as examples *)

(** A page on which a second stream was opened while the first was still
    open. *)
Definition two_stream_page : Page :=
  {| globals := {| userNsid := Null; userAlbums := [];
                   currentJobId := Str "j2"; eventSource := Some 1%nat |};
     controls := example_controls "search" "photostream" "10" EmptyString;
     panel := put_cancel_btn_disabled false
                (put_download_btn_disabled true idle_panel);
     browser := {| alerts := []; requests := [];
                   streams := [ {| es_url := "/api/download/progress/j1";
                                   es_closed := false |};
                                {| es_url := "/api/download/progress/j2";
                                   es_closed := false |} ];
                   pending := [] |} |}.

Definition search_page : Page :=
  fresh_page (example_controls "search" "photostream" "10" EmptyString).

Definition job_reply : StartReply :=
  {| sr_error := Undefined; sr_job_id := Str "j1" |}.

(** What [gatherParams] returns on [search_page]. *)
Definition search_params : object :=
  [ ("size_key", Str "Large");
    ("embed_metadata", Bool true);
    ("filename_template", Str "{title}_{id}");
    ("tab_type", Str "search");
    ("text", Str "sunset");
    ("tags", Str EmptyString);
    ("tag_mode", Str "any");
    ("sort", Str "relevance");
    ("license_ids", Str EmptyString);
    ("count", Num 10) ].

(** The page after job [j1] was started from [search_page] and has
    completed. *)
Definition ended_job_page : Page :=
  run Number_toString
    [ Call_startDownload;
      Resume_startDownload (Fulfilled job_reply);
      Message O (Some (complete_event true)) ]
    search_page.

Definition two_photo_reply : PreviewReply :=
  {| pr_error := Undefined;
     preview :=
       [ {| thumb_url := Str "https://live.staticflickr.com/1/a_q.jpg";
            p_title := "Sunset over the fjord at midsummer";
            owner := Str "alice"; date_taken := Str "2024-06-21" |};
         {| thumb_url := Null; p_title := "Untitled";
            owner := Str "bob"; date_taken := Null |} ];
     pr_total := 2 |}.

Definition user_panel (input : string) (options : list AlbumOption) : UserPanel :=
  {| user_input := input;
     user_status := [];
     lookup_btn_disabled := false;
     album_options := options;
     lookups := O |}.

(** A document in which a user with two albums was looked up before. *)
Definition looked_up (input : string) (selected : string) : Document :=
  {| page := user_page (example_controls "user-album" "album" "25" selected);
     side := user_panel input (options_from 0 two_albums) |}.

Definition alice_reply : UserReply :=
  {| ur_error := Undefined;
     ur_nsid := Str "99999999@N01";
     ur_username := Str "alice";
     ur_albums := [ {| a_id := Str "72157600000000009"; a_title := Str "Alps";
                       a_photos := Num 7 |} ] |}.

Definition tab_button (tab : string) (is_active : bool) : TabElement :=
  {| el_id := EmptyString; is_tab_btn := true; is_tab_content := false;
     active := is_active; data_tab := tab |}.

Definition tab_pane (tab : string) (is_active : bool) : TabElement :=
  {| el_id := "tab-" ++ tab; is_tab_btn := false; is_tab_content := true;
     active := is_active; data_tab := EmptyString |}.

Definition three_tabs : list TabElement :=
  [ tab_button "interestingness" true;
    tab_button "search" false;
    tab_button "user-album" false;
    tab_pane "interestingness" true;
    tab_pane "search" false;
    tab_pane "user-album" false ].

(* ================================================================== *)
(** * Properties                                                       *)
(* ================================================================== *)

Arguments Number_toString : simpl never.
Arguments Number_of_Z : simpl never.
Arguments Math_round : simpl never.
Arguments parseInt : simpl never.
Arguments JSON_stringify : simpl never.
Arguments trim : simpl never.
Arguments ToString : simpl never.
Arguments truthy : simpl never.
Arguments number_truthy : simpl never.
Arguments Number_of_length : simpl never.
Arguments at_index : simpl never.

(** Unfolding of the monad and of the browser's operations. *)
Ltac run_script :=
  cbv beta delta
    [exec bind ret read write throw try_catch try_finally await
     alert fetch new_EventSource eventSource_close setRunning appendLog]
    in *;
  cbn [fst snd globals controls panel browser
       with_globals with_panel with_browser with_controls] in *.

(** ** The handler, kind by kind *)

Lemma is_type_inj (ev : Event) (s t : string) :
  is_type ev s = true -> is_type ev t = true -> s = t.
Proof.
  unfold is_type. destruct (ev_type ev); try discriminate.
  intros H1 H2. apply String.eqb_eq in H1, H2. congruence.
Qed.

Lemma is_type_other (ev : Event) (s t : string) :
  is_type ev s = true -> s <> t -> is_type ev t = false.
Proof.
  intros H Hn. destruct (is_type ev t) eqn:E; [|reflexivity].
  exfalso. apply Hn. eapply is_type_inj; eassumption.
Qed.

(** Rewrites every test of the [switch] once the kind of [ev] is known. *)
Ltac pick_case H :=
  repeat match goal with
  | |- context [is_type ?ev ?t] =>
      first [ rewrite H
            | rewrite (is_type_other ev _ t H) by discriminate ]
  end.

Lemma onmessage_progress (ev : Event) (st : Page) :
  is_type ev "progress" = true ->
  onmessage ev st =
  (Normal tt,
   with_panel (fun p =>
     put_progress_status
       (Number_toString (ev_current ev) ++ "/" ++ Number_toString (ev_total ev) ++ " photos")
       (put_progress_bar_width
          (Number_toString (Math_round ((ev_current ev / ev_total ev) * 100)) ++ "%") p)) st).
Proof.
  intros H. unfold onmessage. pick_case H. reflexivity.
Qed.

Lemma onmessage_log (ev : Event) (st : Page) :
  is_type ev "log" = true ->
  onmessage ev st = appendLog (ev_message ev) st.
Proof.
  intros H. unfold onmessage. pick_case H. reflexivity.
Qed.

Lemma onmessage_zipping (ev : Event) (st : Page) :
  is_type ev "zipping" = true ->
  onmessage ev st =
  (Normal tt, with_panel (put_progress_status "Creating zip file...") st).
Proof.
  intros H. unfold onmessage. pick_case H. reflexivity.
Qed.

Lemma onmessage_unhandled (ev : Event) (st : Page) :
  handled ev = false -> onmessage ev st = (Normal tt, st).
Proof.
  unfold handled. cbn [existsb]. intros H.
  repeat (apply orb_false_elim in H; destruct H as [? H]).
  unfold onmessage.
  repeat match goal with E : is_type _ _ = false |- _ => rewrite E; clear E end.
  reflexivity.
Qed.

Lemma onmessage_terminal (ev : Event) (st : Page) :
  terminal ev = true ->
  onmessage ev st =
  match eventSource (globals st) with
  | Some i =>
      (Normal tt,
       with_globals (put_eventSource None)
         (with_browser (fun b => put_streams (close_nth i (streams b)) b)
            (with_panel (end_of_job ev) st)))
  | None =>
      (Throw "Cannot read properties of null (reading 'close')",
       with_panel (end_of_job ev) st)
  end.
Proof.
  unfold terminal. intros H.
  destruct (is_type ev "complete") eqn:E1;
    [| destruct (is_type ev "error") eqn:E2;
       [| destruct (is_type ev "cancelled") eqn:E3; [| discriminate ] ] ].
  - unfold onmessage, end_of_job, final_status, download_link. pick_case E1.
    run_script. cbn [andb].
    destruct (truthy (ev_file_ready ev)); run_script;
      destruct (eventSource (globals st)); reflexivity.
  - unfold onmessage, end_of_job, final_status. pick_case E2.
    run_script. cbn [andb]. destruct (eventSource (globals st)); reflexivity.
  - unfold onmessage, end_of_job, final_status. pick_case E3.
    run_script. cbn [andb]. destruct (eventSource (globals st)); reflexivity.
Qed.

(** ** Relations that every step of a call respects *)

Section Frame.

Variable R : Page -> Page -> Prop.
Hypothesis R_refl : forall st, R st st.
Hypothesis R_trans : forall a b c, R a b -> R b c -> R a c.

Lemma keeps_ret {A : Type} (a : A) : keeps R (ret a).
Proof. intros st. apply R_refl. Qed.

Lemma keeps_throw {A : Type} (e : string) : keeps R (@throw A e).
Proof. intros st. apply R_refl. Qed.

Lemma keeps_read {A : Type} (f : Page -> A) : keeps R (read f).
Proof. intros st. apply R_refl. Qed.

Lemma keeps_write (f : Page -> Page) :
  (forall st, R st (f st)) -> keeps R (write f).
Proof. intros H st. apply H. Qed.

Lemma keeps_bind {A B : Type} (m : M A) (k : A -> M B) :
  keeps R m -> (forall a, keeps R (k a)) -> keeps R (bind m k).
Proof.
  intros Hm Hk st. unfold bind.
  specialize (Hm st). destruct (m st) as [[a | e] st1]; cbn [snd] in *.
  - eapply R_trans; [exact Hm | apply Hk].
  - exact Hm.
Qed.

Lemma keeps_try_catch {A : Type} (body : M A) (handler : string -> M A) :
  keeps R body -> (forall e, keeps R (handler e)) -> keeps R (try_catch body handler).
Proof.
  intros Hb Hh st. unfold try_catch.
  specialize (Hb st). destruct (body st) as [[a | e] st1]; cbn [snd] in *.
  - exact Hb.
  - eapply R_trans; [exact Hb | apply Hh].
Qed.

Lemma keeps_try_finally {A : Type} (body : M A) (final : M unit) :
  keeps R body -> keeps R final -> keeps R (try_finally body final).
Proof.
  intros Hb Hf st. unfold try_finally.
  specialize (Hb st). destruct (body st) as [c st1]; cbn [snd] in *.
  specialize (Hf st1). destruct (final st1) as [[u | e] st2]; cbn [snd] in *;
    eapply R_trans; eassumption.
Qed.

Lemma keeps_await {A : Type} (r : settled A) : keeps R (await r).
Proof. destruct r; [apply keeps_ret | apply keeps_throw]. Qed.

Lemma keeps_exec {A : Type} (m : M A) (st : Page) : keeps R m -> R st (exec m st).
Proof. intros H. apply H. Qed.

End Frame.

(** Splits a call into its assignments; [leaf] closes the goals it knows. *)
Ltac frame_with leaf :=
  repeat first
    [ leaf
    | assumption
    | match goal with H : forall _, keeps _ _ |- keeps _ _ => apply H end
    | apply keeps_ret; solve [assumption]
    | apply keeps_throw; solve [assumption]
    | apply keeps_read; solve [assumption]
    | apply keeps_await; solve [assumption]
    | apply keeps_bind; try assumption
    | apply keeps_try_catch; try assumption
    | apply keeps_try_finally; try assumption
    | match goal with
      | |- forall _, keeps _ _ => intro
      | |- keeps _ (if ?b then _ else _) => destruct b
      | |- keeps _ (match ?x with _ => _ end) => destruct x
      end
    | progress cbv zeta ].

(** ** A closed stream stays closed *)

Lemma closed_later_refl (st : Page) : closed_later st st.
Proof. intros i H; exact H. Qed.

Lemma closed_later_trans (a b c : Page) :
  closed_later a b -> closed_later b c -> closed_later a c.
Proof. intros H1 H2 i H. apply H2, H1, H. Qed.

Lemma closed_later_same (st st' : Page) :
  streams (browser st') = streams (browser st) -> closed_later st st'.
Proof. intros E i. unfold is_closed. rewrite E. trivial. Qed.

Lemma nth_error_close_nth (l : list Stream) (i j : nat) :
  nth_error (close_nth i l) j =
  match nth_error l j with
  | Some s =>
      Some (if Nat.eqb i j then {| es_url := es_url s; es_closed := true |} else s)
  | None => None
  end.
Proof.
  revert i j. induction l as [| s l IH]; intros i j.
  - destruct i, j; reflexivity.
  - destruct i, j; cbn [close_nth nth_error Nat.eqb]; try reflexivity.
    + destruct (nth_error l j); reflexivity.
    + apply IH.
Qed.

Lemma closed_later_close (st : Page) (i : nat) :
  closed_later st
    (with_browser (fun b => put_streams (close_nth i (streams b)) b) st).
Proof.
  intros j. unfold is_closed. cbn. rewrite nth_error_close_nth.
  destruct (nth_error (streams (browser st)) j) as [s |]; [| trivial].
  destruct (Nat.eqb i j); trivial.
Qed.

Lemma closed_later_open (st : Page) (s : Stream) :
  closed_later st
    (with_browser (fun b => put_streams (streams b ++ [s]) b) st).
Proof.
  intros j. unfold is_closed. cbn.
  destruct (nth_error (streams (browser st)) j) as [s0 |] eqn:E; [| discriminate].
  rewrite nth_error_app1 by (apply nth_error_Some; congruence).
  rewrite E. trivial.
Qed.

Ltac closed_leaf :=
  first
    [ apply keeps_write; intros ?;
      first [ apply closed_later_same; reflexivity
            | apply closed_later_close
            | apply closed_later_open ] ].

Ltac closed_frame :=
  frame_with closed_leaf.

Lemma closed_later_script_onmessage (ev : Event) : keeps closed_later (onmessage ev).
Proof.
  pose proof closed_later_refl. pose proof closed_later_trans.
  unfold onmessage, appendLog, setRunning, eventSource_close. closed_frame.
Qed.

Lemma closed_later_script_onerror : keeps closed_later onerror.
Proof.
  pose proof closed_later_refl. pose proof closed_later_trans.
  unfold onerror, appendLog, setRunning, eventSource_close. closed_frame.
Qed.

Lemma closed_later_script_gatherParams : keeps closed_later gatherParams.
Proof.
  pose proof closed_later_refl. pose proof closed_later_trans.
  unfold gatherParams, getActiveTab, alert. closed_frame.
Qed.

Lemma closed_later_script_startDownload : keeps closed_later startDownload.
Proof.
  pose proof closed_later_refl. pose proof closed_later_trans.
  pose proof closed_later_script_gatherParams.
  unfold startDownload, setRunning, fetch.
  frame_with ltac:(first [assumption | closed_leaf]).
Qed.

Lemma closed_later_script_startDownload_resume (r : settled StartReply) :
  keeps closed_later (startDownload_resume r).
Proof.
  pose proof closed_later_refl. pose proof closed_later_trans.
  unfold startDownload_resume, appendLog, setRunning, new_EventSource.
  closed_frame.
Qed.

Lemma closed_later_script_cancelDownload : keeps closed_later cancelDownload.
Proof.
  pose proof closed_later_refl. pose proof closed_later_trans.
  unfold cancelDownload, fetch. closed_frame.
Qed.

Lemma closed_later_script_cancelDownload_resume (r : settled unit) :
  keeps closed_later (cancelDownload_resume r).
Proof.
  pose proof closed_later_refl. pose proof closed_later_trans.
  unfold cancelDownload_resume, appendLog. closed_frame.
Qed.

Lemma closed_later_script_startPreview : keeps closed_later startPreview.
Proof.
  pose proof closed_later_refl. pose proof closed_later_trans.
  unfold startPreview, alert, fetch. closed_frame.
Qed.

Lemma closed_later_script_forEach_photo (l : list Photo) :
  keeps closed_later (forEach_photo l).
Proof.
  pose proof closed_later_refl. pose proof closed_later_trans.
  induction l as [| photo rest IH]; cbn [forEach_photo].
  - apply keeps_ret; assumption.
  - frame_with ltac:(first [assumption | closed_leaf]).
Qed.

Lemma closed_later_script_onUserModeChange : keeps closed_later onUserModeChange.
Proof.
  pose proof closed_later_refl. pose proof closed_later_trans.
  unfold onUserModeChange. closed_frame.
Qed.

Section Properties.

Variable toLocaleString : number -> string.

Lemma closed_later_script_startPreview_resume (r : settled PreviewReply) :
  keeps closed_later (startPreview_resume toLocaleString r).
Proof.
  pose proof closed_later_refl. pose proof closed_later_trans.
  pose proof closed_later_script_forEach_photo.
  unfold startPreview_resume.
  closed_frame.
Qed.

Lemma closed_later_resume (k : Awaiting) (m : M unit) (st : Page) :
  keeps closed_later m -> closed_later st (resume k m st).
Proof.
  intros Hm. unfold resume.
  destruct (take k (pending (browser st))) as [l |].
  - eapply closed_later_trans; [| apply Hm].
    apply closed_later_same. reflexivity.
  - apply closed_later_refl.
Qed.

Lemma closed_later_step (a : action) (st : Page) :
  closed_later st (step toLocaleString a st).
Proof.
  destruct a; cbn [step].
  - apply closed_later_script_startDownload.
  - apply closed_later_script_cancelDownload.
  - apply closed_later_script_startPreview.
  - apply closed_later_script_onUserModeChange.
  - apply closed_later_resume, closed_later_script_startDownload_resume.
  - apply closed_later_resume, closed_later_script_cancelDownload_resume.
  - apply closed_later_resume, closed_later_script_startPreview_resume.
  - destruct (is_open i st); [| apply closed_later_refl].
    destruct data; [| apply closed_later_refl].
    apply closed_later_script_onmessage.
  - destruct (is_open i st); [| apply closed_later_refl].
    apply closed_later_script_onerror.
  - apply closed_later_same. reflexivity.
  - apply closed_later_same. reflexivity.
Qed.

Lemma closed_later_run (acts : list action) (st : Page) :
  closed_later st (run toLocaleString acts st).
Proof.
  revert st. induction acts as [| a acts IH]; intros st; cbn [run fold_left].
  - apply closed_later_refl.
  - eapply closed_later_trans; [apply closed_later_step | apply IH].
Qed.

Lemma is_closed_not_open (i : nat) (st : Page) :
  is_closed i st = true -> is_open i st = false.
Proof.
  unfold is_closed, is_open.
  destruct (nth_error (streams (browser st)) i); [| discriminate].
  intros ->. reflexivity.
Qed.

(** A message on a closed stream is not delivered. *)
Lemma message_on_closed_stream (i : nat) (data : option Event) (st : Page) :
  is_closed i st = true -> step toLocaleString (Message i data) st = st.
Proof.
  intros H. cbn [step]. rewrite (is_closed_not_open _ _ H). reflexivity.
Qed.

(** The handler sends nothing. *)
Lemma onmessage_requests (ev : Event) (st : Page) :
  requests (browser (exec (onmessage ev) st)) = requests (browser st).
Proof.
  apply (keeps_exec (fun a b => requests (browser b) = requests (browser a))).
  unfold onmessage, appendLog, setRunning, eventSource_close.
  assert (Hr : forall st : Page, requests (browser st) = requests (browser st))
    by reflexivity.
  assert (Ht : forall a b c : Page,
             requests (browser b) = requests (browser a) ->
             requests (browser c) = requests (browser b) ->
             requests (browser c) = requests (browser a))
    by (intros; congruence).
  frame_with ltac:(apply keeps_write; intros ?; reflexivity).
Qed.

(** C1: for the stream the global [eventSource] refers to, processing a
    terminal event ([complete], [error] or [cancelled]) closes that stream
    and sets the global to [null], leaves the matching final status and
    sends no request; whatever happens to the page afterwards, a later
    message on that stream is never processed. *)
Theorem terminal_event_ends_stream :
  forall (st : Page) (i : nat) (ev : Event),
    eventSource (globals st) = Some i ->
    is_open i st = true ->
    terminal ev = true ->
    let st' := step toLocaleString (Message i (Some ev)) st in
    eventSource (globals st') = None /\
    is_closed i st' = true /\
    progress_status (panel st') = final_status ev /\
    requests (browser st') = requests (browser st) /\
    forall (acts : list action) (data : option Event),
      step toLocaleString (Message i data) (run toLocaleString acts st')
      = run toLocaleString acts st'.
Proof.
  intros st i ev Hcur Hopen Hterm st'.
  assert (Est : st' =
            with_globals (put_eventSource None)
              (with_browser (fun b => put_streams (close_nth i (streams b)) b)
                 (with_panel (end_of_job ev) st))).
  { subst st'. cbn [step]. rewrite Hopen. unfold exec.
    rewrite (onmessage_terminal ev st Hterm), Hcur. reflexivity. }
  assert (Hclosed : is_closed i st' = true).
  { rewrite Est. unfold is_closed, is_open in *. cbn.
    rewrite nth_error_close_nth.
    destruct (nth_error (streams (browser st)) i); [| discriminate].
    rewrite Nat.eqb_refl. reflexivity. }
  repeat split.
  - rewrite Est. reflexivity.
  - exact Hclosed.
  - rewrite Est. cbn. unfold end_of_job.
    destruct (is_type ev "complete" && truthy (ev_file_ready ev)); reflexivity.
  - subst st'. cbn [step]. rewrite Hopen. apply onmessage_requests.
  - intros acts data. apply message_on_closed_stream.
    apply closed_later_run, Hclosed.
Qed.

(** ** The two buttons *)

Lemma buttons_kept_refl (st : Page) : buttons_kept st st.
Proof. intros H; exact H. Qed.

Lemma buttons_kept_trans (a b c : Page) :
  buttons_kept a b -> buttons_kept b c -> buttons_kept a c.
Proof. intros H1 H2 H. apply H2, H1, H. Qed.

Lemma setRunning_buttons (running : bool) (st : Page) :
  download_btn_disabled (panel (exec (setRunning running) st)) = running /\
  cancel_btn_disabled (panel (exec (setRunning running) st)) = negb running.
Proof. split; reflexivity. Qed.

Lemma buttons_kept_setRunning (running : bool) :
  keeps buttons_kept (setRunning running).
Proof. intros st _. reflexivity. Qed.

(** An assignment to anything but the two buttons. *)
Ltac buttons_leaf :=
  first
    [ apply buttons_kept_setRunning
    | apply keeps_write; intros ? Hone; exact Hone ].

Ltac buttons_frame :=
  pose proof buttons_kept_refl; pose proof buttons_kept_trans;
  frame_with buttons_leaf.

Lemma buttons_kept_forEach_photo (l : list Photo) :
  keeps buttons_kept (forEach_photo l).
Proof.
  induction l as [| photo rest IH]; cbn [forEach_photo]; buttons_frame.
Qed.

Lemma buttons_kept_resume (k : Awaiting) (m : M unit) (st : Page) :
  keeps buttons_kept m -> buttons_kept st (resume k m st).
Proof.
  intros Hm. unfold resume.
  destruct (take k (pending (browser st))) as [l |].
  - intros Hone. apply Hm. exact Hone.
  - apply buttons_kept_refl.
Qed.

Lemma buttons_kept_step (a : action) (st : Page) :
  buttons_kept st (step toLocaleString a st).
Proof.
  destruct a; cbn [step].
  - apply keeps_exec.
    unfold startDownload, gatherParams, getActiveTab, alert, fetch. buttons_frame.
  - apply keeps_exec. unfold cancelDownload, fetch. buttons_frame.
  - apply keeps_exec. unfold startPreview, alert, fetch. buttons_frame.
  - apply keeps_exec. unfold onUserModeChange. buttons_frame.
  - apply buttons_kept_resume.
    unfold startDownload_resume, appendLog, new_EventSource. buttons_frame.
  - apply buttons_kept_resume.
    unfold cancelDownload_resume, appendLog. buttons_frame.
  - apply buttons_kept_resume.
    pose proof buttons_kept_forEach_photo.
    unfold startPreview_resume. buttons_frame.
  - destruct (is_open i st); [| apply buttons_kept_refl].
    destruct data; [| apply buttons_kept_refl].
    apply keeps_exec.
    unfold onmessage, appendLog, eventSource_close. buttons_frame.
  - destruct (is_open i st); [| apply buttons_kept_refl].
    apply keeps_exec.
    unfold onerror, appendLog, eventSource_close. buttons_frame.
  - intros Hone; exact Hone.
  - intros Hone; exact Hone.
Qed.

Lemma buttons_kept_run (acts : list action) (st : Page) :
  buttons_kept st (run toLocaleString acts st).
Proof.
  revert st. induction acts as [| a acts IH]; intros st; cbn [run fold_left].
  - apply buttons_kept_refl.
  - eapply buttons_kept_trans; [apply buttons_kept_step | apply IH].
Qed.

(** C9: [setRunning(b)] leaves the download button's [disabled] equal to
    [b] and the cancel button's equal to [!b]; from then on, whatever
    happens to the page, exactly one of the two buttons is enabled; and the
    handler of a terminal event, like the handler of a stream error, leaves
    the download button enabled (also when it ends in an exception). *)
Theorem buttons_follow_setRunning :
  (forall (b : bool) (st : Page),
     download_btn_disabled (panel (exec (setRunning b) st)) = b /\
     cancel_btn_disabled (panel (exec (setRunning b) st)) = negb b) /\
  (forall (b : bool) (st : Page) (acts : list action),
     one_enabled (run toLocaleString acts (exec (setRunning b) st))) /\
  (forall (ev : Event) (st : Page),
     terminal ev = true ->
     download_btn_disabled (panel (exec (onmessage ev) st)) = false /\
     cancel_btn_disabled (panel (exec (onmessage ev) st)) = true) /\
  (forall st : Page,
     download_btn_disabled (panel (exec onerror st)) = false /\
     cancel_btn_disabled (panel (exec onerror st)) = true).
Proof.
  split; [| split; [| split]].
  - intros b st. apply setRunning_buttons.
  - intros b st acts. apply buttons_kept_run. reflexivity.
  - intros ev st Hterm. unfold exec. rewrite (onmessage_terminal ev st Hterm).
    destruct (eventSource (globals st)); split; reflexivity.
  - intros st. unfold onerror. run_script.
    destruct (eventSource (globals st)); split; reflexivity.
Qed.

(** ** Cancelling *)

(** C8: with no current job ([currentJobId] is [null], or any other falsy
    value) [cancelDownload] returns at once: the page is unchanged, so no
    request is sent and no element is touched. *)
Theorem cancelDownload_without_job :
  forall st : Page,
    truthy (currentJobId (globals st)) = false ->
    cancelDownload st = (Normal tt, st).
Proof.
  intros st H. unfold cancelDownload. run_script. rewrite H. reflexivity.
Qed.

(** C3 (amended): with a current job, [cancelDownload] writes
    'Cancelling...' to the status line and sends one POST to the cancel
    endpoint; when the call is resumed a fulfilled request changes nothing
    and a rejected one appends a 'Cancel error: ...' line to the log.  In
    both cases the globals, the streams, the two buttons, the progress bar
    and the link wrapper are as before. *)
Theorem cancelDownload_effects :
  forall (st : Page) (r : settled unit),
    truthy (currentJobId (globals st)) = true ->
    cancelDownload st =
      (Normal tt,
       with_browser (fun b =>
         put_pending (pending b ++ [AwaitCancel])
           (put_requests (requests b ++ [cancel_request st]) b))
         (with_panel (put_progress_status "Cancelling...") st)) /\
    (forall st1 : Page,
       cancelDownload_resume r st1 =
       match r with
       | Fulfilled _ => (Normal tt, st1)
       | Rejected message =>
           (Normal tt,
            with_panel (fun p =>
              put_log_scrolled_to_end true
                (put_log_output (log_output p ++ "Cancel error: " ++ message ++ nl) p)) st1)
       end) /\
    let st' := exec (cancelDownload_resume r) (exec cancelDownload st) in
    globals st' = globals st /\
    streams (browser st') = streams (browser st) /\
    download_btn_disabled (panel st') = download_btn_disabled (panel st) /\
    cancel_btn_disabled (panel st') = cancel_btn_disabled (panel st) /\
    progress_bar_width (panel st') = progress_bar_width (panel st) /\
    download_link_wrap (panel st') = download_link_wrap (panel st) /\
    progress_status (panel st') = "Cancelling...".
Proof.
  intros st r H.
  assert (E : cancelDownload st =
      (Normal tt,
       with_browser (fun b =>
         put_pending (pending b ++ [AwaitCancel])
           (put_requests (requests b ++ [cancel_request st]) b))
         (with_panel (put_progress_status "Cancelling...") st))).
  { unfold cancelDownload. run_script. rewrite H. reflexivity. }
  split; [exact E |]. split.
  - intros st1. destruct r as [[] | message]; reflexivity.
  - unfold exec at 2. rewrite E. cbn [snd].
    destruct r as [[] | message]; repeat split; reflexivity.
Qed.

(** ** The handler *)

(** C2 (amended): for a [progress] event the handler assigns
    [Math.round((current / total) * 100) + '%'] to the width of the bar,
    quotient and product taken in double precision in this order, and the
    text [current/total photos] to the status line, and nothing else; it
    has a case for [log], [zipping] and the three terminal kinds, and an
    event of any other kind changes nothing. *)
Theorem onmessage_by_kind :
  forall (ev : Event) (st : Page),
    (is_type ev "progress" = true ->
     exec (onmessage ev) st =
     with_panel (fun p =>
       put_progress_status
         (Number_toString (ev_current ev) ++ "/" ++ Number_toString (ev_total ev) ++ " photos")
         (put_progress_bar_width
            (Number_toString (Math_round ((ev_current ev / ev_total ev) * 100)) ++ "%") p)) st) /\
    (is_type ev "log" = true ->
     exec (onmessage ev) st = exec (appendLog (ev_message ev)) st) /\
    (is_type ev "zipping" = true ->
     exec (onmessage ev) st =
     with_panel (put_progress_status "Creating zip file...") st) /\
    (terminal ev = true ->
     panel (exec (onmessage ev) st) = end_of_job ev (panel st)) /\
    (handled ev = false -> exec (onmessage ev) st = st).
Proof.
  intros ev st. unfold exec. repeat split; intros H.
  - rewrite (onmessage_progress ev st H). reflexivity.
  - rewrite (onmessage_log ev st H). reflexivity.
  - rewrite (onmessage_zipping ev st H). reflexivity.
  - rewrite (onmessage_terminal ev st H).
    destruct (eventSource (globals st)); reflexivity.
  - rewrite (onmessage_unhandled ev st H). reflexivity.
Qed.

Lemma download_link_not_empty (job_id : value) :
  download_link job_id <> EmptyString.
Proof. unfold download_link. cbn. discriminate. Qed.

(** What a [complete] event does to the link wrapper, for any value of
    [file_ready]. *)
Lemma complete_event_panel (ev : Event) (st : Page) :
  is_type ev "complete" = true ->
  let st' := exec (onmessage ev) st in
  download_link_wrap (panel st') =
    (if truthy (ev_file_ready ev) then download_link (ev_job_id ev)
     else download_link_wrap (panel st)) /\
  progress_status (panel st') = "Done" /\
  log_output (panel st') =
    log_output (panel st) ++ ToString (or (ev_message ev) (Str "Done.")) ++ nl.
Proof.
  intros H st'. subst st'.
  assert (Ht : terminal ev = true) by (unfold terminal; rewrite H; reflexivity).
  assert (Hp : panel (exec (onmessage ev) st) = end_of_job ev (panel st)).
  { unfold exec. rewrite (onmessage_terminal ev st Ht).
    destruct (eventSource (globals st)); reflexivity. }
  rewrite Hp. unfold end_of_job, final_status. rewrite H. cbn [andb].
  destruct (truthy (ev_file_ready ev)); repeat split; reflexivity.
Qed.

(** Only a [complete] event writes the link wrapper. *)
Lemma onmessage_keeps_link (ev : Event) (st : Page) :
  is_type ev "complete" = false ->
  download_link_wrap (panel (exec (onmessage ev) st))
  = download_link_wrap (panel st).
Proof.
  intros H.
  apply (keeps_exec
    (fun a b => download_link_wrap (panel b) = download_link_wrap (panel a))).
  assert (Hr : forall s : Page,
             download_link_wrap (panel s) = download_link_wrap (panel s))
    by reflexivity.
  assert (Ht : forall a b c : Page,
             download_link_wrap (panel b) = download_link_wrap (panel a) ->
             download_link_wrap (panel c) = download_link_wrap (panel b) ->
             download_link_wrap (panel c) = download_link_wrap (panel a))
    by (intros; congruence).
  unfold onmessage. rewrite H. unfold appendLog, setRunning, eventSource_close.
  frame_with ltac:(apply keeps_write; intros ?; reflexivity).
Qed.

(** C4: for a [complete] event whose [file_ready] is the boolean [b], the
    link wrapper holds the link to [/api/download/file/<job_id>] when [b] is
    true and is left as it was when [b] is false; in both cases the status
    line reads 'Done' and the message (or 'Done.') goes to the log.  The
    wrapper being empty before, as [startDownload] leaves it, the link is
    there exactly when [b] is true. *)
Theorem complete_event_link :
  forall (ev : Event) (st : Page) (b : bool),
    is_type ev "complete" = true ->
    ev_file_ready ev = Bool b ->
    let st' := exec (onmessage ev) st in
    download_link_wrap (panel st') =
      (if b then download_link (ev_job_id ev) else download_link_wrap (panel st)) /\
    progress_status (panel st') = "Done" /\
    log_output (panel st') =
      log_output (panel st) ++ ToString (or (ev_message ev) (Str "Done.")) ++ nl /\
    (download_link_wrap (panel st) = EmptyString ->
     (download_link_wrap (panel st') = download_link (ev_job_id ev) <-> b = true)).
Proof.
  intros ev st b H Hb st'.
  destruct (complete_event_panel ev st H) as (Hw & Hs & Hl).
  fold st' in Hw, Hs, Hl. rewrite Hb in Hw. change (truthy (Bool b)) with b in Hw.
  repeat split; try assumption.
  - intros E. destruct b; [reflexivity |].
    match goal with E0 : download_link_wrap (panel st) = EmptyString |- _ =>
      rewrite Hw, E0 in E end.
    symmetry in E. exfalso. exact (download_link_not_empty _ E).
  - intros ->. exact Hw.
Qed.

(** ** Preview *)

(** C7: when the search reply carries no error and an empty [preview], the
    call ends normally with 'No photos found.' on the status line and the
    preview button enabled again; nothing else changes. *)
Theorem empty_preview_is_not_an_error :
  forall (data : PreviewReply) (st : Page),
    truthy (pr_error data) = false ->
    preview data = [] ->
    startPreview_resume toLocaleString (Fulfilled data) st =
    (Normal tt,
     with_panel (fun p =>
       put_preview_btn_disabled false (put_preview_status "No photos found." p)) st).
Proof.
  intros data st He Hp. unfold startPreview_resume. run_script.
  rewrite He, Hp. reflexivity.
Qed.

(** ** Gathering the parameters *)

Lemma startDownload_after_gatherParams (st : Page) :
  startDownload st =
  match gatherParams st with
  | (Normal (Some params), st1) => (Normal tt, started params st1)
  | (Normal None, st1) => (Normal tt, st1)
  | (Throw e, st1) => (Throw e, st1)
  end.
Proof.
  unfold startDownload. unfold bind at 1.
  destruct (gatherParams st) as [[[params |] | e] st1]; reflexivity.
Qed.

(** [gatherParams] raises an alert and returns [null], or touches nothing. *)
Lemma gatherParams_outcome (st : Page) :
  (exists params, gatherParams st = (Normal (Some params), st)) \/
  (exists msg, gatherParams st = (Normal None, alerted msg st)) \/
  (exists e, gatherParams st = (Throw e, st)).
Proof.
  unfold gatherParams, getActiveTab. run_script.
  repeat match goal with
  | |- context [if ?b then _ else _] => destruct b
  | |- context [match at_index ?l ?i with _ => _ end] => destruct (at_index l i)
  end;
  first [ left; eexists; reflexivity
        | right; left; eexists; reflexivity
        | right; right; eexists; reflexivity ].
Qed.

Lemma getActiveTab_tab_of (st : Page) :
  getActiveTab st = (Normal (tab_of st), st).
Proof. reflexivity. Qed.

(** Opens [gatherParams] on the tab named by [Htab]. *)
Ltac on_tab Htab :=
  unfold gatherParams; unfold bind at 1; rewrite getActiveTab_tab_of;
  run_script; rewrite Htab; cbn [String.eqb Ascii.eqb Bool.eqb].

(** C5: on the user-album tab, when no user is resolved ([userNsid] is
    [null] or otherwise falsy), or the mode is not photostream and the index
    read from the album select is NaN, negative or not below the number of
    albums, [gatherParams] raises an alert and returns [null], and
    [startDownload] returns having sent no request and changed nothing but
    the alert. *)
Theorem gatherParams_rejects_user_album :
  forall st : Page,
    tab_of st = "user-album" ->
    (truthy (userNsid (globals st)) = false \/
     ((user_mode (controls st) =? "photostream")%string = false /\
      let idx := parseInt (album_select (controls st)) in
      (isNaN idx = true \/
       PrimFloat.ltb idx 0 = true \/
       PrimFloat.leb (Number_of_length (userAlbums (globals st))) idx = true))) ->
    exists msg : string,
      gatherParams st = (Normal None, alerted msg st) /\
      startDownload st = (Normal tt, alerted msg st) /\
      requests (browser (exec startDownload st)) = requests (browser st) /\
      pending (browser (exec startDownload st)) = pending (browser st) /\
      panel (exec startDownload st) = panel st.
Proof.
  intros st Htab Hbad.
  assert (E : exists msg, gatherParams st = (Normal None, alerted msg st)).
  { on_tab Htab.
    destruct (truthy (userNsid (globals st))) eqn:Hu; cbn [negb].
    - destruct Hbad as [Hbad | [Hmode Hidx]]; [discriminate |].
      rewrite Hmode. cbv zeta in Hidx.
      assert (Hc : isNaN (parseInt (album_select (controls st)))
                   || PrimFloat.ltb (parseInt (album_select (controls st))) 0
                   || PrimFloat.leb (Number_of_length (userAlbums (globals st)))
                        (parseInt (album_select (controls st))) = true).
      { destruct Hidx as [-> | [-> | ->]];
          rewrite ?orb_true_r; reflexivity. }
      rewrite Hc. eexists. reflexivity.
    - eexists. reflexivity. }
  destruct E as [msg E]. exists msg.
  assert (E2 : startDownload st = (Normal tt, alerted msg st)).
  { rewrite startDownload_after_gatherParams, E. reflexivity. }
  split; [exact E |]. split; [exact E2 |].
  unfold exec. rewrite E2. repeat split; reflexivity.
Qed.

Lemma startDownload_sends (st : Page) (params : object) :
  fst (gatherParams st) = Normal (Some params) ->
  startDownload st = (Normal tt, started params st).
Proof.
  intros H. rewrite startDownload_after_gatherParams.
  destruct (gatherParams_outcome st) as [[p E] | [[msg E] | [e E]]];
    rewrite E in *; cbn [fst] in H; try discriminate.
  injection H as ->. reflexivity.
Qed.

(** C6: on the user-album tab, when [gatherParams] returns parameters: in
    album mode (any mode but photostream) they carry [tab_type] 'album', the
    [id] and [title] of the album at the selected index, the user's
    identifier as [user_nsid], and no [count]; in photostream mode they
    always carry a [count].  [startDownload] sends exactly these parameters,
    and [onUserModeChange] disables the count input when the mode is
    'album'. *)
Theorem album_request_has_no_count :
  forall (st : Page) (params : object),
    tab_of st = "user-album" ->
    fst (gatherParams st) = Normal (Some params) ->
    ((user_mode (controls st) =? "photostream")%string = false ->
     exists album : Album,
       at_index (userAlbums (globals st)) (parseInt (album_select (controls st)))
         = Some album /\
       get "tab_type" params = Str "album" /\
       get "album_id" params = a_id album /\
       get "album_title" params = a_title album /\
       get "user_nsid" params = userNsid (globals st) /\
       has "count" params = false) /\
    ((user_mode (controls st) =? "photostream")%string = true ->
     get "tab_type" params = Str "user_photostream" /\
     get "user_nsid" params = userNsid (globals st) /\
     has "count" params = true /\
     get "count" params = or (Num (parseInt (user_count (controls st)))) (Num 500)) /\
    requests (browser (exec startDownload st))
      = (requests (browser st) ++ [start_request params])%list /\
    (user_mode (controls st) = "album" ->
     user_count_disabled (panel (exec onUserModeChange st)) = true).
Proof.
  intros st params Htab H.
  assert (Hsend := startDownload_sends st params H).
  revert H. on_tab Htab.
  destruct (truthy (userNsid (globals st))); cbn [negb fst]; [| discriminate].
  destruct (user_mode (controls st) =? "photostream")%string eqn:Hmode.
  - cbn [fst]. intros H. injection H as <-.
    repeat split; try discriminate; try reflexivity.
    + unfold exec. rewrite Hsend. reflexivity.
    + intros E. unfold onUserModeChange. run_script. rewrite E. reflexivity.
  - destruct (isNaN _ || _ || _); cbn [fst]; [discriminate |].
    destruct (at_index _ _) as [album |]; cbn [fst]; [| discriminate].
    intros H. injection H as <-.
    repeat split; try discriminate; try reflexivity.
    + intros _. exists album. repeat split; reflexivity.
    + unfold exec. rewrite Hsend. reflexivity.
    + intros E. unfold onUserModeChange. run_script. rewrite E. reflexivity.
Qed.

Lemma or_default (x d : number) :
  NaN_or_zero x -> or (Num x) (Num d) = Num d.
Proof.
  unfold NaN_or_zero, isNaN, or, truthy, number_truthy.
  intros [-> | ->]; rewrite ?orb_true_r; reflexivity.
Qed.

Lemma or_template (t : string) :
  or (Str t) (Str "{title}_{id}")
  = Str (if (t =? EmptyString)%string then "{title}_{id}" else t).
Proof.
  unfold or, truthy. destruct (t =? EmptyString)%string; reflexivity.
Qed.

Lemma gatherParams_template (st : Page) (params : object) :
  fst (gatherParams st) = Normal (Some params) ->
  get "filename_template" params
  = or (Str (filename_tmpl (controls st))) (Str "{title}_{id}").
Proof.
  unfold gatherParams. unfold bind at 1.
  rewrite getActiveTab_tab_of. run_script.
  repeat match goal with
  | |- context [if ?b then _ else _] => destruct b
  | |- context [match at_index ?l ?i with _ => _ end] => destruct (at_index l i)
  end; cbn [fst]; intros H; try discriminate; injection H as <-; reflexivity.
Qed.

(** C10, amended: in the parameters [gatherParams] returns, the count read
    from the tab's input is replaced by the default when [parseInt] gives
    NaN or zero: 500 on the interestingness tab and in photostream mode, 100
    on the search tab; the input '0' is such a case.  The filename template
    is replaced by '{title}_{id}' exactly when it is the empty string: the
    script does not trim it, so any other template, one of white space only
    included, is sent as it was typed. *)
Theorem count_and_template_defaults :
  forall (st : Page) (params : object),
    fst (gatherParams st) = Normal (Some params) ->
    (filename_tmpl (controls st) = EmptyString ->
     get "filename_template" params = Str "{title}_{id}") /\
    (filename_tmpl (controls st) <> EmptyString ->
     get "filename_template" params = Str (filename_tmpl (controls st))) /\
    (tab_of st = "interestingness" ->
     NaN_or_zero (parseInt (int_count (controls st))) ->
     get "count" params = Num 500) /\
    (tab_of st = "search" ->
     NaN_or_zero (parseInt (search_count (controls st))) ->
     get "count" params = Num 100) /\
    (tab_of st = "user-album" ->
     user_mode (controls st) = "photostream" ->
     NaN_or_zero (parseInt (user_count (controls st))) ->
     get "count" params = Num 500) /\
    NaN_or_zero (parseInt "0").
Proof.
  intros st params H.
  split; [| split; [| split; [| split; [| split]]]].
  - intros Ht. rewrite (gatherParams_template st params H), or_template, Ht.
    reflexivity.
  - intros Ht. rewrite (gatherParams_template st params H), or_template.
    destruct (filename_tmpl (controls st) =? EmptyString)%string eqn:E;
      [| reflexivity].
    apply String.eqb_eq in E. contradiction.
  - intros Htab Hz. revert H. on_tab Htab.
    rewrite (or_default _ _ Hz).
    destruct (truthy (userNsid (globals st))); cbn [fst];
      intros H; injection H as <-; reflexivity.
  - intros Htab Hz. revert H. on_tab Htab.
    rewrite (or_default _ _ Hz).
    destruct (truthy (userNsid (globals st))); cbn [fst];
      intros H; injection H as <-; reflexivity.
  - intros Htab Hmode Hz. revert H. on_tab Htab.
    rewrite Hmode. cbn [String.eqb Ascii.eqb Bool.eqb].
    rewrite (or_default _ _ Hz).
    destruct (truthy (userNsid (globals st))); cbn [negb fst];
      intros H; try discriminate; injection H as <-; reflexivity.
  - right. vm_compute. reflexivity.
Qed.

(** ** One job at a time *)

Lemma same_job_view_refl (st : Page) : same_job_view st st.
Proof. repeat split. Qed.

Lemma same_job_view_trans (a b c : Page) :
  same_job_view a b -> same_job_view b c -> same_job_view a c.
Proof.
  intros (H1 & H2 & H3 & H4) (K1 & K2 & K3 & K4).
  repeat split; congruence.
Qed.

Lemma one_job_same_view (st st' : Page) :
  same_job_view st st' -> one_job st -> one_job st'.
Proof.
  intros (Hs & He & Hd & Hp) [J1 J2 J3 J4].
  assert (Ho : forall i, is_open i st' = is_open i st)
    by (intros i; unfold is_open; rewrite Hs; reflexivity).
  constructor.
  - intros i. rewrite Ho, He. apply J1.
  - rewrite Hp. exact J2.
  - rewrite Hp. intros H i. rewrite Ho. apply J3, H.
  - rewrite Hd, Hp. intros H. destruct (J4 H) as [Hn Hz].
    split; [| exact Hz]. intros i. rewrite Ho. apply Hn.
Qed.

Lemma starts_app (l r : list Awaiting) :
  starts (l ++ r) = (starts l + starts r)%nat.
Proof.
  induction l as [| [] l IH]; cbn [starts app]; rewrite ?IH; reflexivity.
Qed.

Lemma starts_take_other (k : Awaiting) (l l' : list Awaiting) :
  k <> AwaitStart -> take k l = Some l' -> starts l' = starts l.
Proof.
  intros Hk. revert l'. induction l as [| a l IH]; intros l'; cbn [take].
  - discriminate.
  - destruct (Awaiting_eqb a k) eqn:E.
    + intros H. injection H as <-.
      destruct a, k; try discriminate; try reflexivity. contradiction.
    + destruct (take k l) as [r |]; [| discriminate].
      intros H. injection H as <-.
      destruct a; cbn [starts]; rewrite (IH r eq_refl); reflexivity.
Qed.

Lemma starts_take_start (l l' : list Awaiting) :
  take AwaitStart l = Some l' -> starts l = S (starts l').
Proof.
  revert l'. induction l as [| a l IH]; intros l'; cbn [take].
  - discriminate.
  - destruct a; cbn [Awaiting_eqb starts].
    + intros H. injection H as <-. reflexivity.
    + destruct (take AwaitStart l) as [r |]; [| discriminate].
      intros H. injection H as <-. cbn [starts]. apply IH. reflexivity.
    + destruct (take AwaitStart l) as [r |]; [| discriminate].
      intros H. injection H as <-. cbn [starts]. apply IH. reflexivity.
Qed.

Ltac view_leaf :=
  apply keeps_write; intros ?; repeat split;
  cbn [browser globals panel with_browser with_panel with_globals
       put_pending put_requests put_alerts pending];
  rewrite ?starts_app; cbn [starts]; rewrite ?Nat.add_0_r; reflexivity.

Ltac view_frame :=
  pose proof same_job_view_refl; pose proof same_job_view_trans;
  frame_with view_leaf.

Lemma same_job_view_forEach_photo (l : list Photo) :
  keeps same_job_view (forEach_photo l).
Proof.
  induction l as [| photo rest IH]; cbn [forEach_photo]; view_frame.
Qed.

Lemma same_job_view_appendLog (msg : value) : keeps same_job_view (appendLog msg).
Proof. unfold appendLog. view_frame. Qed.

Lemma is_open_close (i j : nat) (st : Page) :
  is_open j (with_browser (fun b => put_streams (close_nth i (streams b)) b) st)
  = is_open j st && negb (Nat.eqb i j).
Proof.
  unfold is_open. cbn. rewrite nth_error_close_nth.
  destruct (nth_error (streams (browser st)) j) as [s |]; [| reflexivity].
  destruct (Nat.eqb i j); cbn; rewrite ?andb_false_r, ?andb_true_r; reflexivity.
Qed.

(** Closing the one stream that can be open leaves none open. *)
Lemma no_open_after_close (st st' : Page) (i : nat) :
  (forall j, is_open j st = true -> eventSource (globals st) = Some j) ->
  eventSource (globals st) = Some i ->
  streams (browser st') = close_nth i (streams (browser st)) ->
  no_open st'.
Proof.
  intros Hcur Hi Hs j.
  assert (E : is_open j st' = is_open j st && negb (Nat.eqb i j)).
  { rewrite <- is_open_close. unfold is_open. rewrite Hs. reflexivity. }
  rewrite E. destruct (is_open j st) eqn:Ho; [| reflexivity].
  apply Hcur in Ho. rewrite Hi in Ho. injection Ho as ->.
  rewrite Nat.eqb_refl. reflexivity.
Qed.

(** The page after the handler of a terminal event or of a stream error
    has run on the current stream. *)
Lemma one_job_after_close (st st' : Page) (i : nat) :
  one_job st ->
  is_open i st = true ->
  streams (browser st') = close_nth i (streams (browser st)) ->
  eventSource (globals st') = None ->
  pending (browser st') = pending (browser st) ->
  one_job st'.
Proof.
  intros [J1 J2 J3 J4] Ho Hs He Hp.
  assert (Hn : no_open st').
  { eapply no_open_after_close; [exact J1 | apply J1, Ho | exact Hs]. }
  assert (Hz : starts (pending (browser st)) = O).
  { destruct (starts (pending (browser st))) as [| n] eqn:E; [reflexivity |].
    assert (Hno : no_open st) by (apply J3; apply Nat.lt_0_succ).
    rewrite (Hno i) in Ho. discriminate. }
  constructor.
  - intros j Hj. rewrite (Hn j) in Hj. discriminate.
  - rewrite Hp. exact J2.
  - intros _. exact Hn.
  - intros _. split; [exact Hn | rewrite Hp; exact Hz].
Qed.

(** An event that is not terminal leaves the subscription as it is. *)
Lemma onmessage_keeps_subscription (ev : Event) (st : Page) :
  terminal ev = false -> same_job_view st (exec (onmessage ev) st).
Proof.
  intros Et.
  destruct (is_type ev "progress") eqn:E1.
  { unfold exec. rewrite (onmessage_progress ev st E1). repeat split. }
  destruct (is_type ev "log") eqn:E2.
  { unfold exec. rewrite (onmessage_log ev st E2). apply same_job_view_appendLog. }
  destruct (is_type ev "zipping") eqn:E3.
  { unfold exec. rewrite (onmessage_zipping ev st E3). repeat split. }
  unfold exec. rewrite onmessage_unhandled; [apply same_job_view_refl |].
  unfold handled. cbn [existsb]. unfold terminal in Et.
  rewrite E1, E2, E3. cbn [orb]. rewrite orb_false_r, orb_assoc. exact Et.
Qed.

Lemma one_job_message (st : Page) (i : nat) (ev : Event) :
  one_job st -> is_open i st = true -> one_job (exec (onmessage ev) st).
Proof.
  intros J Ho.
  destruct (terminal ev) eqn:Et.
  - unfold exec. rewrite (onmessage_terminal ev st Et).
    rewrite (open_is_current st J i Ho).
    eapply one_job_after_close; [exact J | exact Ho | reflexivity ..].
  - revert J. apply one_job_same_view, onmessage_keeps_subscription, Et.
Qed.

Lemma one_job_onerror (st : Page) (i : nat) :
  one_job st -> is_open i st = true -> one_job (exec onerror st).
Proof.
  intros J Ho. unfold onerror. run_script.
  rewrite (open_is_current st J i Ho). cbn [snd].
  eapply one_job_after_close; [exact J | exact Ho | reflexivity ..].
Qed.

Lemma one_job_startDownload (st : Page) :
  one_job st -> download_btn_disabled (panel st) = false ->
  one_job (exec startDownload st).
Proof.
  intros J Hd. unfold exec. rewrite startDownload_after_gatherParams.
  destruct (gatherParams_outcome st) as [[p E] | [[msg E] | [e E]]]; rewrite E;
    cbn [snd].
  - destruct (idle_when_enabled st J Hd) as [Hn Hz].
    constructor.
    + intros i Hi. change (is_open i st = true) in Hi.
      rewrite (Hn i) in Hi. discriminate.
    + change (starts (pending (browser st) ++ [AwaitStart]) <= 1)%nat.
      rewrite starts_app, Hz. apply Nat.le_refl.
    + intros _ i. change (is_open i st = false). apply Hn.
    + intros H. cbn in H. discriminate.
  - revert J. apply one_job_same_view. repeat split.
  - exact J.
Qed.

Lemma is_open_new_stream (st st' : Page) (u : string) (i : nat) :
  no_open st ->
  streams (browser st')
    = (streams (browser st) ++ [{| es_url := u; es_closed := false |}])%list ->
  is_open i st' = true ->
  i = List.length (streams (browser st)).
Proof.
  intros Hn Hs. specialize (Hn i). revert Hn. unfold is_open. rewrite Hs.
  destruct (Nat.lt_ge_cases i (List.length (streams (browser st)))) as [Hlt | Hge].
  - rewrite nth_error_app1 by exact Hlt. intros ->. discriminate.
  - intros _. rewrite nth_error_app2 by exact Hge.
    destruct (i - List.length (streams (browser st)))%nat as [| [| n]] eqn:E;
      cbn; try discriminate.
    intros _. apply Nat.le_antisymm; [| exact Hge].
    apply Nat.sub_0_le. exact E.
Qed.

Lemma one_job_startDownload_resume (st : Page) (r : settled StartReply) :
  one_job st -> one_job (resume AwaitStart (startDownload_resume r) st).
Proof.
  intros J. unfold resume.
  destruct (take AwaitStart (pending (browser st))) as [l |] eqn:Et; [| exact J].
  pose proof (starts_take_start _ _ Et) as Hs.
  pose proof (one_start st J) as H1.
  assert (Hl : starts l = O) by (rewrite Hs in H1; apply le_S_n in H1; apply Nat.le_0_r, H1).
  assert (Hn : no_open st)
    by (apply (start_before_open st J); rewrite Hs; apply le_n_S, Nat.le_0_l).
  assert (Hdis : download_btn_disabled (panel st) = true).
  { destruct (download_btn_disabled (panel st)) eqn:Hd; [reflexivity |].
    destruct (idle_when_enabled st J Hd) as [_ Hz]. rewrite Hs in Hz. discriminate. }
  assert (Hidle : forall p : Panel -> Panel,
            one_job (with_panel p (with_browser (put_pending l) st))).
  { intros p. constructor.
    - intros i Hi. change (is_open i st = true) in Hi.
      rewrite (Hn i) in Hi. discriminate.
    - change (starts l <= 1)%nat. rewrite Hl. apply Nat.le_0_l.
    - intros _ i. change (is_open i st = false). apply Hn.
    - intros _. split; [intros i; change (is_open i st = false); apply Hn | exact Hl]. }
  unfold startDownload_resume. run_script.
  destruct r as [data | message]; cbn [snd].
  - destruct (truthy (sr_error data)); cbn [snd].
    + apply (Hidle (fun p => put_cancel_btn_disabled true (put_download_btn_disabled false
               (put_log_scrolled_to_end true (put_log_output _ p))))).
    + constructor.
      * intros i Hi. cbn [globals with_globals put_eventSource eventSource].
        apply f_equal. symmetry.
        eapply is_open_new_stream; [exact Hn | | exact Hi]. reflexivity.
      * change (starts l <= 1)%nat. rewrite Hl. apply Nat.le_0_l.
      * intros H. change (1 <= starts l)%nat in H. rewrite Hl in H. inversion H.
      * intros H. change (download_btn_disabled (panel st) = false) in H.
        rewrite Hdis in H. discriminate.
  - apply (Hidle (fun p => put_cancel_btn_disabled true (put_download_btn_disabled false
             (put_log_scrolled_to_end true (put_log_output _ p))))).
Qed.

(** When the reply carries a job id, the call subscribes: the new stream is
    open and is the one the global refers to. *)
Lemma startDownload_resume_subscribes (data : StartReply) (st : Page) :
  truthy (sr_error data) = false ->
  let i := List.length (streams (browser st)) in
  let st' := exec (startDownload_resume (Fulfilled data)) st in
  eventSource (globals st') = Some i /\
  is_open i st' = true /\
  nth_error (streams (browser st')) i
    = Some {| es_url := "/api/download/progress/" ++ ToString (sr_job_id data);
              es_closed := false |} /\
  currentJobId (globals st') = sr_job_id data.
Proof.
  intros He i st'. subst st'. unfold startDownload_resume. run_script.
  rewrite He. cbn [snd].
  assert (En : forall (l : list Stream) (s : Stream),
             nth_error (l ++ [s]) (List.length l) = Some s).
  { intros l s. rewrite nth_error_app2 by apply Nat.le_refl.
    rewrite Nat.sub_diag. reflexivity. }
  repeat split.
  - unfold is_open. cbn. subst i. rewrite En. reflexivity.
  - cbn. subst i. rewrite En. reflexivity.
Qed.

Lemma one_job_resume_other (k : Awaiting) (m : M unit) (st : Page) :
  k <> AwaitStart -> keeps same_job_view m ->
  one_job st -> one_job (resume k m st).
Proof.
  intros Hk Hm J. unfold resume.
  destruct (take k (pending (browser st))) as [l |] eqn:Et; [| exact J].
  revert J. apply one_job_same_view.
  eapply same_job_view_trans; [| apply Hm].
  repeat split. cbn. apply (starts_take_other k _ _ Hk Et).
Qed.

Lemma one_job_step (a : action) (st : Page) :
  one_job st -> permitted a st -> one_job (step toLocaleString a st).
Proof.
  intros J Hp. destruct a; cbn [step permitted] in *.
  - apply one_job_startDownload; assumption.
  - revert J. apply one_job_same_view, keeps_exec.
    unfold cancelDownload, fetch. view_frame.
  - revert J. apply one_job_same_view, keeps_exec.
    unfold startPreview, alert, fetch. view_frame.
  - revert J. apply one_job_same_view, keeps_exec.
    unfold onUserModeChange. view_frame.
  - apply one_job_startDownload_resume, J.
  - apply one_job_resume_other; [discriminate | | exact J].
    unfold cancelDownload_resume, appendLog. view_frame.
  - apply one_job_resume_other; [discriminate | | exact J].
    pose proof same_job_view_forEach_photo.
    unfold startPreview_resume. view_frame.
  - destruct (is_open i st) eqn:Ho; [| exact J].
    destruct data as [ev |]; [| exact J].
    apply (one_job_message st i ev J Ho).
  - destruct (is_open i st) eqn:Ho; [| exact J].
    apply (one_job_onerror st i J Ho).
  - revert J. apply one_job_same_view. repeat split.
  - revert J. apply one_job_same_view. repeat split.
Qed.

Lemma one_job_initial (st : Page) : initial st -> one_job st.
Proof.
  intros (_ & _ & _ & _ & _ & Hs & Hp).
  assert (Hn : no_open st).
  { intros i. unfold is_open. rewrite Hs. destruct i; reflexivity. }
  constructor.
  - intros i Hi. rewrite (Hn i) in Hi. discriminate.
  - rewrite Hp. apply Nat.le_0_l.
  - intros _. exact Hn.
  - intros _. split; [exact Hn | rewrite Hp; reflexivity].
Qed.

(** In every state the page can reach while downloads are started through
    the download button, an open stream is the one the global [eventSource]
    refers to: the premise of [terminal_event_ends_stream] holds for every
    stream the script has subscribed to. *)
Lemma reachable_one_job (st : Page) :
  reachable toLocaleString st -> one_job st.
Proof.
  induction 1 as [st Hi | st a Hr IH Hp].
  - apply one_job_initial, Hi.
  - apply one_job_step; assumption.
Qed.

Lemma open_stream_is_current (st : Page) (i : nat) :
  reachable toLocaleString st ->
  is_open i st = true ->
  eventSource (globals st) = Some i.
Proof.
  intros Hr. apply (open_is_current st (reachable_one_job st Hr)).
Qed.

End Properties.

(* ================================================================== *)
(** * Further properties of the script                              *)
(* ================================================================== *)

Section Download.

Variable toLocaleString : number -> string.

(** ** Starting a job *)

Lemma startDownload_resume_failure (r : settled StartReply) (msg : string) (st : Page) :
  start_failure r = Some msg ->
  startDownload_resume r st =
  (Normal tt, with_panel (fun p => idle_buttons (logged ("Error: " ++ msg) p)) st).
Proof.
  unfold start_failure, startDownload_resume. run_script.
  destruct r as [data | message].
  - destruct (truthy (sr_error data)); [| discriminate].
    intros H. injection H as <-. reflexivity.
  - intros H. injection H as <-. reflexivity.
Qed.

Lemma cancelDownload_cases (st : Page) :
  cancelDownload st =
  if truthy (currentJobId (globals st)) then
    (Normal tt,
     with_browser (fun b =>
       put_pending (pending b ++ [AwaitCancel])
         (put_requests (requests b ++ [cancel_request st]) b))
       (with_panel (put_progress_status "Cancelling...") st))
  else (Normal tt, st).
Proof.
  unfold cancelDownload. run_script.
  destruct (truthy (currentJobId (globals st))); reflexivity.
Qed.

Lemma Awaiting_eqb_refl (a : Awaiting) : Awaiting_eqb a a = true.
Proof. destruct a; reflexivity. Qed.

Lemma take_In (k : Awaiting) (l : list Awaiting) :
  In k l -> exists l' : list Awaiting, take k l = Some l'.
Proof.
  induction l as [| a l IH]; intros H; [destruct H |].
  cbn [take]. destruct (Awaiting_eqb a k) eqn:E; [eexists; reflexivity |].
  destruct H as [-> | H]; [rewrite Awaiting_eqb_refl in E; discriminate |].
  destruct (IH H) as [l' ->]. eexists; reflexivity.
Qed.

Lemma failed_start_resumed (r : settled StartReply) (msg : string) (s : Page) :
  start_failure r = Some msg ->
  In AwaitStart (pending (browser s)) ->
  exists l : list Awaiting,
    step toLocaleString (Resume_startDownload r) s
    = with_panel (fun p => idle_buttons (logged ("Error: " ++ msg) p))
        (with_browser (put_pending l) s).
Proof.
  intros Hf Hin. cbn [step]. unfold resume.
  destruct (take_In _ _ Hin) as [l ->]. exists l.
  unfold exec. rewrite (startDownload_resume_failure r msg _ Hf). reflexivity.
Qed.

(** X1: a failed start.  When the reply of [/api/download/start] carries an
    error, or the request or the decoding of its reply fails, the resumed
    [startDownload] enables the download button, disables the cancel button
    and appends the line 'Error: ...' to the log; it does nothing else,
    whatever the page has become since the call: no stream is opened, the
    globals, the status line and the link wrapper are as they were.  So when
    nothing happened in between, the log (cleared by the call) holds that
    line only and the status is left at 'Starting...'.  But the call enables
    the cancel button and [currentJobId] still names the previous job: when
    [cancelDownload] ran in between, a cancel request for that job was sent
    and the status is left at 'Cancelling...'. *)
Theorem failed_start_leaves_page_idle :
  forall (st : Page) (params : object) (r : settled StartReply) (msg : string),
    fst (gatherParams st) = Normal (Some params) ->
    start_failure r = Some msg ->
    (forall s : Page,
       startDownload_resume r s
       = (Normal tt,
          with_panel (fun p => idle_buttons (logged ("Error: " ++ msg) p)) s)) /\
    (let st' := run toLocaleString
                  [Call_startDownload; Resume_startDownload r] st in
     log_output (panel st') = "Error: " ++ msg ++ nl /\
     progress_status (panel st') = "Starting..." /\
     download_btn_disabled (panel st') = false /\
     cancel_btn_disabled (panel st') = true /\
     download_link_wrap (panel st') = EmptyString /\
     requests (browser st')
       = (requests (browser st) ++ [start_request params])%list /\
     streams (browser st') = streams (browser st) /\
     globals st' = globals st) /\
    (truthy (currentJobId (globals st)) = true ->
     let st1 := step toLocaleString Call_startDownload st in
     let st' := run toLocaleString
                  [Call_startDownload; Call_cancelDownload;
                   Resume_startDownload r] st in
     cancel_btn_disabled (panel st1) = false /\
     log_output (panel st') = "Error: " ++ msg ++ nl /\
     progress_status (panel st') = "Cancelling..." /\
     download_btn_disabled (panel st') = false /\
     cancel_btn_disabled (panel st') = true /\
     download_link_wrap (panel st') = EmptyString /\
     requests (browser st')
       = (requests (browser st)
          ++ [start_request params; cancel_request st])%list /\
     streams (browser st') = streams (browser st) /\
     globals st' = globals st).
Proof.
  intros st params r msg Hp Hf.
  assert (E1 : step toLocaleString Call_startDownload st = started params st).
  { cbn [step]. unfold exec. rewrite (startDownload_sends st params Hp).
    reflexivity. }
  split; [intros s; apply startDownload_resume_failure, Hf |]. split.
  - cbn [run fold_left]. rewrite E1.
    destruct (failed_start_resumed r msg (started params st) Hf) as [l ->].
    { cbn. apply in_or_app. right. left. reflexivity. }
    repeat split.
  - intros Hc st1 st'. subst st1 st'. cbn [run fold_left]. rewrite E1.
    assert (E2 : step toLocaleString Call_cancelDownload (started params st)
                 = with_browser (fun b =>
                     put_pending (pending b ++ [AwaitCancel])
                       (put_requests
                          (requests b ++ [cancel_request (started params st)]) b))
                     (with_panel (put_progress_status "Cancelling...")
                        (started params st))).
    { cbn [step]. unfold exec. rewrite cancelDownload_cases.
      change (currentJobId (globals (started params st)))
        with (currentJobId (globals st)).
      rewrite Hc. reflexivity. }
    rewrite E2.
    match goal with
    | |- context [step toLocaleString (Resume_startDownload r) ?s] =>
        destruct (failed_start_resumed r msg s Hf) as [l ->]
    end.
    { cbn. apply in_or_app. left. apply in_or_app. right. left. reflexivity. }
    cbn. rewrite <- app_assoc. repeat split.
Qed.

(** X2: when the reply carries no error, [startDownload] subscribes to
    [/api/download/progress/<job_id>]; from then on [cancelDownload] posts
    to [/api/download/cancel/<job_id>] for the same id, unless the reply
    had no usable id (a falsy [job_id]), in which case the stream is opened
    all the same and [cancelDownload] does nothing. *)
Theorem cancel_targets_subscribed_job :
  forall (st : Page) (data : StartReply),
    truthy (sr_error data) = false ->
    let id := ToString (sr_job_id data) in
    let st1 := exec (startDownload_resume (Fulfilled data)) st in
    streams (browser st1)
      = (streams (browser st)
         ++ [{| es_url := "/api/download/progress/" ++ id; es_closed := false |}])%list /\
    requests (browser st1) = requests (browser st) /\
    (truthy (sr_job_id data) = true ->
     requests (browser (exec cancelDownload st1))
       = (requests (browser st)
          ++ [{| url := "/api/download/cancel/" ++ id; method := "POST";
                 headers := []; body := None |}])%list) /\
    (truthy (sr_job_id data) = false ->
     cancelDownload st1 = (Normal tt, st1)).
Proof.
  intros st data He id st1.
  assert (E : st1 =
    with_globals (put_eventSource (Some (List.length (streams (browser st)))))
      (with_browser (fun b =>
         put_streams (streams b ++ [{| es_url := "/api/download/progress/" ++ id;
                                       es_closed := false |}]) b)
         (with_globals (put_currentJobId (sr_job_id data)) st))).
  { subst st1. unfold startDownload_resume. run_script. rewrite He. reflexivity. }
  split; [rewrite E; reflexivity |]. split; [rewrite E; reflexivity |]. split.
  - intros Hid. unfold exec. rewrite cancelDownload_cases.
    replace (truthy (currentJobId (globals st1))) with true
      by (rewrite E; symmetry; exact Hid).
    rewrite E. reflexivity.
  - intros Hid. rewrite cancelDownload_cases.
    replace (truthy (currentJobId (globals st1))) with false
      by (rewrite E; symmetry; exact Hid).
    reflexivity.
Qed.

(** ** The stream handlers and the global *)

Lemma is_open_after_close_other (st : Page) (i j : nat) :
  i <> j -> is_open i st = true ->
  is_open i (with_browser (fun b => put_streams (close_nth j (streams b)) b) st) = true.
Proof.
  intros Hne Ho. unfold is_open in *. cbn. rewrite nth_error_close_nth.
  destruct (nth_error (streams (browser st)) i) as [s |]; [| discriminate].
  destruct (Nat.eqb_spec j i) as [-> | _]; [contradiction | exact Ho].
Qed.

(** X3: the handler closes the stream the global [eventSource] names, not
    the stream that delivered the event.  When the global names another
    stream [j], a terminal event on the open stream [i] closes [j] and
    leaves [i] open, so a further terminal event on [i] is processed again
    (the panel is rewritten once more; [close()] then fails on the null
    global). *)
Theorem terminal_event_closes_the_global_stream :
  forall (st : Page) (i j : nat) (ev ev' : Event),
    eventSource (globals st) = Some j ->
    i <> j ->
    is_open i st = true ->
    terminal ev = true ->
    terminal ev' = true ->
    let st1 := step toLocaleString (Message i (Some ev)) st in
    let st2 := step toLocaleString (Message i (Some ev')) st1 in
    is_open i st1 = true /\
    is_open j st1 = false /\
    eventSource (globals st1) = None /\
    panel st2 = end_of_job ev' (end_of_job ev (panel st)) /\
    is_open i st2 = true.
Proof.
  intros st i j ev ev' Hj Hne Ho Ht Ht' st1 st2.
  assert (E1 : st1 =
            with_globals (put_eventSource None)
              (with_browser (fun b => put_streams (close_nth j (streams b)) b)
                 (with_panel (end_of_job ev) st))).
  { subst st1. cbn [step]. rewrite Ho. unfold exec.
    rewrite (onmessage_terminal ev st Ht), Hj. reflexivity. }
  assert (Ho1 : is_open i st1 = true).
  { rewrite E1. apply (is_open_after_close_other (with_panel (end_of_job ev) st) i j Hne).
    exact Ho. }
  assert (E2 : st2 = with_panel (end_of_job ev') st1).
  { subst st2. cbn [step]. rewrite Ho1. unfold exec.
    rewrite (onmessage_terminal ev' st1 Ht'). rewrite E1. reflexivity. }
  split; [exact Ho1 |]. split.
  - rewrite E1. unfold is_open. cbn. rewrite nth_error_close_nth.
    destruct (nth_error (streams (browser st)) j); [| reflexivity].
    rewrite Nat.eqb_refl. reflexivity.
  - split; [rewrite E1; reflexivity |]. split.
    + rewrite E2, E1. reflexivity.
    + rewrite E2. exact Ho1.
Qed.

Lemma onerror_on_current (st : Page) (i : nat) :
  eventSource (globals st) = Some i ->
  onerror st =
  (Normal tt,
   with_globals (put_eventSource None)
     (with_browser (fun b => put_streams (close_nth i (streams b)) b)
        (with_panel (fun p => idle_buttons (logged "Connection lost." p)) st))).
Proof.
  intros H. unfold onerror. run_script. rewrite H. reflexivity.
Qed.

(** X4: an error on the stream the global refers to ends the subscription:
    the stream is closed and the global set to [null], 'Connection lost.'
    goes to the log and the download button is enabled again, while the
    status line and the progress bar keep showing the last progress; no
    request is sent, and whatever happens afterwards neither a message nor
    an error of that stream is handled again. *)
Theorem stream_error_ends_stream :
  forall (st : Page) (i : nat),
    eventSource (globals st) = Some i ->
    is_open i st = true ->
    let st' := step toLocaleString (Stream_error i) st in
    eventSource (globals st') = None /\
    is_closed i st' = true /\
    log_output (panel st') = log_output (panel st) ++ "Connection lost." ++ nl /\
    progress_status (panel st') = progress_status (panel st) /\
    progress_bar_width (panel st') = progress_bar_width (panel st) /\
    download_btn_disabled (panel st') = false /\
    cancel_btn_disabled (panel st') = true /\
    requests (browser st') = requests (browser st) /\
    forall (acts : list action) (data : option Event),
      step toLocaleString (Message i data) (run toLocaleString acts st')
        = run toLocaleString acts st' /\
      step toLocaleString (Stream_error i) (run toLocaleString acts st')
        = run toLocaleString acts st'.
Proof.
  intros st i Hcur Ho st'.
  assert (E : st' =
     with_globals (put_eventSource None)
       (with_browser (fun b => put_streams (close_nth i (streams b)) b)
          (with_panel (fun p => idle_buttons (logged "Connection lost." p)) st))).
  { subst st'. cbn [step]. rewrite Ho. unfold exec.
    rewrite (onerror_on_current st i Hcur). reflexivity. }
  assert (Hc : is_closed i st' = true).
  { rewrite E. unfold is_closed, is_open in *. cbn. rewrite nth_error_close_nth.
    destruct (nth_error (streams (browser st)) i); [| discriminate].
    rewrite Nat.eqb_refl. reflexivity. }
  split; [rewrite E; reflexivity |]. split; [exact Hc |].
  do 6 (split; [rewrite E; reflexivity |]).
  intros acts data.
  assert (Hc' : is_closed i (run toLocaleString acts st') = true)
    by (apply closed_later_run, Hc).
  split.
  - apply message_on_closed_stream, Hc'.
  - cbn [step]. rewrite (is_closed_not_open _ _ Hc'). reflexivity.
Qed.

(** ** What outlives a job *)

Lemma currentJobId_kept_refl (st : Page) : currentJobId_kept st st.
Proof. reflexivity. Qed.

Lemma currentJobId_kept_trans (a b c : Page) :
  currentJobId_kept a b -> currentJobId_kept b c -> currentJobId_kept a c.
Proof. unfold currentJobId_kept. intros H1 H2. congruence. Qed.

Ltac same_leaf := apply keeps_write; intros ?; reflexivity.

Lemma currentJobId_kept_forEach_photo (l : list Photo) :
  keeps currentJobId_kept (forEach_photo l).
Proof.
  pose proof currentJobId_kept_refl. pose proof currentJobId_kept_trans.
  induction l as [| photo rest IH]; cbn [forEach_photo]; frame_with same_leaf.
Qed.

Lemma currentJobId_kept_resume (k : Awaiting) (m : M unit) (st : Page) :
  keeps currentJobId_kept m -> currentJobId_kept st (resume k m st).
Proof.
  intros Hm. unfold resume.
  destruct (take k (pending (browser st))) as [l |]; [| reflexivity].
  apply (currentJobId_kept_trans _ (with_browser (put_pending l) st));
    [reflexivity | apply Hm].
Qed.

Lemma currentJobId_kept_step (a : action) (st : Page) :
  not_start_resume a -> currentJobId_kept st (step toLocaleString a st).
Proof.
  pose proof currentJobId_kept_refl. pose proof currentJobId_kept_trans.
  pose proof currentJobId_kept_forEach_photo.
  intros Ha. destruct a; cbn [step not_start_resume] in *;
    try contradiction; try reflexivity;
    try (apply currentJobId_kept_resume);
    try (destruct (is_open i st); [| reflexivity]);
    try (destruct data; [| reflexivity]);
    try (apply keeps_exec);
    unfold startDownload, gatherParams, getActiveTab, cancelDownload, startPreview,
      onUserModeChange, cancelDownload_resume, startPreview_resume, onmessage, onerror,
      appendLog, setRunning, eventSource_close, alert, fetch;
    frame_with same_leaf.
Qed.

Lemma currentJobId_kept_run (acts : list action) (st : Page) :
  Forall not_start_resume acts ->
  currentJobId_kept st (run toLocaleString acts st).
Proof.
  intros Hall. revert st.
  induction Hall as [| a acts Ha _ IH]; intros st; cbn [run fold_left].
  - reflexivity.
  - eapply currentJobId_kept_trans; [apply currentJobId_kept_step, Ha | apply IH].
Qed.

(** X5: [currentJobId] is never reset.  Nothing but the resumption of a
    [startDownload] assigns it, so after a job has ended (a terminal event,
    a stream error, anything else) [cancelDownload] still posts a cancel
    request for that job. *)
Theorem cancel_after_job_end_still_posts :
  forall (st : Page) (acts : list action),
    Forall not_start_resume acts ->
    truthy (currentJobId (globals st)) = true ->
    let st' := run toLocaleString acts st in
    currentJobId (globals st') = currentJobId (globals st) /\
    requests (browser (exec cancelDownload st'))
      = (requests (browser st') ++ [cancel_request st])%list.
Proof.
  intros st acts Hall Ht st'.
  assert (E : currentJobId (globals st') = currentJobId (globals st))
    by (apply currentJobId_kept_run, Hall).
  split; [exact E |].
  unfold exec. rewrite cancelDownload_cases, E, Ht. cbn.
  unfold cancel_request. rewrite E. reflexivity.
Qed.

(** ** The log *)

Lemma string_app_empty_r (s : string) : s ++ EmptyString = s.
Proof. induction s as [| c s IH]; cbn; [| rewrite IH]; reflexivity. Qed.

Lemma string_app_assoc (a b c : string) : (a ++ b) ++ c = a ++ (b ++ c).
Proof. induction a as [| x a IH]; cbn; [| rewrite IH]; reflexivity. Qed.

Lemma log_extended_refl (st : Page) : log_extended st st.
Proof. exists EmptyString. symmetry. apply string_app_empty_r. Qed.

Lemma log_extended_trans (a b c : Page) :
  log_extended a b -> log_extended b c -> log_extended a c.
Proof.
  intros [s1 H1] [s2 H2]. exists (s1 ++ s2).
  rewrite H2, H1. apply string_app_assoc.
Qed.

Lemma log_extended_same (st st' : Page) :
  log_output (panel st') = log_output (panel st) -> log_extended st st'.
Proof. intros E. exists EmptyString. rewrite E. symmetry. apply string_app_empty_r. Qed.

Lemma log_extended_appendLog (msg : value) : keeps log_extended (appendLog msg).
Proof. intros st. exists (ToString msg ++ nl). reflexivity. Qed.

Ltac log_leaf :=
  first
    [ apply log_extended_appendLog
    | apply keeps_write; intros ?; apply log_extended_same; reflexivity ].

Lemma log_extended_forEach_photo (l : list Photo) :
  keeps log_extended (forEach_photo l).
Proof.
  pose proof log_extended_refl. pose proof log_extended_trans.
  induction l as [| photo rest IH]; cbn [forEach_photo]; frame_with log_leaf.
Qed.

Lemma log_extended_resume (k : Awaiting) (m : M unit) (st : Page) :
  keeps log_extended m -> log_extended st (resume k m st).
Proof.
  intros Hm. unfold resume.
  destruct (take k (pending (browser st))) as [l |]; [| apply log_extended_refl].
  eapply log_extended_trans; [| apply Hm].
  apply log_extended_same. reflexivity.
Qed.

Lemma log_extended_step (a : action) (st : Page) :
  not_start_call a -> log_extended st (step toLocaleString a st).
Proof.
  pose proof log_extended_refl. pose proof log_extended_trans.
  pose proof log_extended_forEach_photo.
  intros Ha. destruct a; cbn [step not_start_call] in *;
    try contradiction;
    try (apply log_extended_same; reflexivity);
    try (apply log_extended_resume);
    try (destruct (is_open i st); [| apply log_extended_refl]);
    try (destruct data; [| apply log_extended_refl]);
    try (apply keeps_exec);
    unfold cancelDownload, startPreview, onUserModeChange, startDownload_resume,
      cancelDownload_resume, startPreview_resume, onmessage, onerror,
      setRunning, eventSource_close, new_EventSource, alert, fetch;
    frame_with log_leaf.
Qed.

(** X6: the log is append-only.  Every action but a call of [startDownload]
    leaves the old log as a prefix of the new one; a call of
    [startDownload] leaves it untouched (when the parameters are refused) or
    empties it. *)
Theorem log_is_append_only :
  forall (st : Page) (acts : list action),
    (Forall not_start_call acts ->
     exists suffix : string,
       log_output (panel (run toLocaleString acts st))
         = log_output (panel st) ++ suffix) /\
    (log_output (panel (step toLocaleString Call_startDownload st))
       = log_output (panel st) \/
     log_output (panel (step toLocaleString Call_startDownload st))
       = EmptyString).
Proof.
  intros st acts. split.
  - intros Hall. revert st.
    induction Hall as [| a acts Ha _ IH]; intros st; cbn [run fold_left].
    + apply log_extended_refl.
    + eapply log_extended_trans; [apply log_extended_step, Ha | apply IH].
  - cbn [step]. unfold exec. rewrite startDownload_after_gatherParams.
    destruct (gatherParams_outcome st) as [[p E] | [[msg E] | [e E]]]; rewrite E;
      [right | left | left]; reflexivity.
Qed.

(** X7: an event that is not terminal (progress, log, zipping, or a kind the
    handler has no case for) never ends the job: the globals, the streams,
    the requests, the two buttons and the link wrapper are as before, and
    the log is at most extended. *)
Theorem nonterminal_event_keeps_job_running :
  forall (ev : Event) (st : Page),
    terminal ev = false ->
    let st' := exec (onmessage ev) st in
    globals st' = globals st /\
    browser st' = browser st /\
    download_btn_disabled (panel st') = download_btn_disabled (panel st) /\
    cancel_btn_disabled (panel st') = cancel_btn_disabled (panel st) /\
    download_link_wrap (panel st') = download_link_wrap (panel st) /\
    (exists suffix : string,
       log_output (panel st') = log_output (panel st) ++ suffix).
Proof.
  intros ev st Et st'. subst st'.
  destruct (is_type ev "progress") eqn:E1.
  { unfold exec. rewrite (onmessage_progress ev st E1).
    repeat split. apply (log_extended_same st). reflexivity. }
  destruct (is_type ev "log") eqn:E2.
  { unfold exec. rewrite (onmessage_log ev st E2).
    repeat split. apply log_extended_appendLog. }
  destruct (is_type ev "zipping") eqn:E3.
  { unfold exec. rewrite (onmessage_zipping ev st E3).
    repeat split. apply (log_extended_same st). reflexivity. }
  unfold exec. rewrite onmessage_unhandled.
  - repeat split. apply log_extended_refl.
  - unfold handled. cbn [existsb]. unfold terminal in Et.
    rewrite E1, E2, E3. cbn [orb]. rewrite orb_false_r, orb_assoc. exact Et.
Qed.

(** X8: as long as [startDownload] is only called while the download button
    is enabled, at most one stream is open at any time, and it is the one
    the global [eventSource] refers to. *)
Theorem at_most_one_open_stream :
  forall (st : Page) (i j : nat),
    reachable toLocaleString st ->
    is_open i st = true ->
    is_open j st = true ->
    i = j /\ eventSource (globals st) = Some i.
Proof.
  intros st i j Hr Hi Hj.
  pose proof (reachable_one_job toLocaleString st Hr) as J.
  pose proof (open_is_current st J i Hi) as Ei.
  pose proof (open_is_current st J j Hj) as Ej.
  split; [congruence | exact Ei].
Qed.

(** ** What the script sends *)

Lemma known_traffic_kept_refl (st : Page) : known_traffic_kept st st.
Proof. intros H; exact H. Qed.

Lemma known_traffic_kept_trans (a b c : Page) :
  known_traffic_kept a b -> known_traffic_kept b c -> known_traffic_kept a c.
Proof. intros H1 H2 H. apply H2, H1, H. Qed.

Lemma known_traffic_same (st st' : Page) :
  requests (browser st') = requests (browser st) ->
  streams (browser st') = streams (browser st) ->
  preview_grid (panel st') = preview_grid (panel st) ->
  download_link_wrap (panel st') = download_link_wrap (panel st) ->
  known_traffic_kept st st'.
Proof.
  intros Er Es Eg El (Hr & Hs & Hg & Hl).
  unfold known_traffic. rewrite Er, Es, Eg, El. repeat split; assumption.
Qed.

Lemma known_traffic_fetch (r : Request) (k : Awaiting) :
  known_request r -> keeps known_traffic_kept (fetch r k).
Proof.
  intros Hk st (Hr & Hs & Hg & Hl). repeat split; cbn; try assumption.
  apply Forall_app. split; [exact Hr | constructor; [exact Hk | constructor]].
Qed.

Lemma Forall_close_nth (i : nat) (l : list Stream) :
  Forall known_stream l -> Forall known_stream (close_nth i l).
Proof.
  revert i. induction l as [| s l IH]; intros i H.
  - destruct i; constructor.
  - inversion H as [| s0 l0 Hs Hl]; subst.
    destruct i; cbn [close_nth]; constructor.
    + destruct Hs as [id Hs]. exists id. exact Hs.
    + exact Hl.
    + exact Hs.
    + apply IH, Hl.
Qed.

Lemma known_traffic_close : keeps known_traffic_kept eventSource_close.
Proof.
  intros st (Hr & Hs & Hg & Hl). unfold eventSource_close. run_script.
  destruct (eventSource (globals st)); cbn [snd];
    repeat split; try assumption. cbn. apply Forall_close_nth, Hs.
Qed.

Lemma known_traffic_new_EventSource (id : string) :
  keeps known_traffic_kept (new_EventSource ("/api/download/progress/" ++ id)).
Proof.
  intros st (Hr & Hs & Hg & Hl). repeat split; cbn; try assumption.
  apply Forall_app. split; [exact Hs |].
  constructor; [exists id; reflexivity | constructor].
Qed.

Lemma known_traffic_no_image (st : Page) :
  known_traffic_kept st (with_panel (put_preview_grid []) st).
Proof.
  intros (Hr & Hs & Hg & Hl). repeat split; cbn; try assumption. constructor.
Qed.

Lemma known_traffic_image (photo : Photo) (st : Page) :
  known_traffic_kept st
    (with_panel (fun p =>
       put_preview_grid (preview_grid p ++ [thumb_cell photo]) p) st).
Proof.
  intros (Hr & Hs & Hg & Hl). repeat split; cbn; try assumption.
  apply Forall_app. split; [exact Hg |].
  constructor; [| constructor].
  exists (ToString (thumb_url photo)). reflexivity.
Qed.

Lemma known_traffic_link (w : string) (st : Page) :
  known_link w ->
  known_traffic_kept st (with_panel (put_download_link_wrap w) st).
Proof.
  intros Hw (Hr & Hs & Hg & Hl). repeat split; cbn; assumption.
Qed.

Ltac traffic_leaf :=
  first
    [ apply known_traffic_close
    | apply known_traffic_new_EventSource
    | apply known_traffic_fetch; split;
        [reflexivity | first [left; reflexivity
                             | right; left; reflexivity
                             | right; right; right; eexists; reflexivity]]
    | apply keeps_write; intros ?;
      first [ apply known_traffic_same; reflexivity
            | apply known_traffic_no_image
            | apply known_traffic_image
            | apply known_traffic_link;
              first [left; reflexivity | right; eexists; reflexivity] ] ].

Lemma known_traffic_forEach_photo (l : list Photo) :
  keeps known_traffic_kept (forEach_photo l).
Proof.
  pose proof known_traffic_kept_refl. pose proof known_traffic_kept_trans.
  induction l as [| photo rest IH]; cbn [forEach_photo]; frame_with traffic_leaf.
Qed.

Lemma known_traffic_resume (k : Awaiting) (m : M unit) (st : Page) :
  keeps known_traffic_kept m -> known_traffic_kept st (resume k m st).
Proof.
  intros Hm. unfold resume.
  destruct (take k (pending (browser st))) as [l |]; [| apply known_traffic_kept_refl].
  eapply known_traffic_kept_trans; [| apply Hm].
  apply known_traffic_same; reflexivity.
Qed.

Lemma known_traffic_step (a : action) (st : Page) :
  known_traffic_kept st (step toLocaleString a st).
Proof.
  pose proof known_traffic_kept_refl. pose proof known_traffic_kept_trans.
  pose proof known_traffic_forEach_photo.
  destruct a; cbn [step];
    try (apply known_traffic_same; reflexivity);
    try (apply known_traffic_resume);
    try (destruct (is_open i st); [| apply known_traffic_kept_refl]);
    try (destruct data; [| apply known_traffic_kept_refl]);
    try (apply keeps_exec);
    unfold startDownload, gatherParams, getActiveTab, cancelDownload, startPreview,
      onUserModeChange, startDownload_resume, cancelDownload_resume,
      startPreview_resume, onmessage, onerror, appendLog, setRunning, alert;
    frame_with traffic_leaf.
Qed.

Lemma known_traffic_doc_step (a : doc_action) (d : Document) :
  known_traffic (page d) -> known_traffic (page (doc_step toLocaleString a d)).
Proof.
  intros K. destruct a as [a | | r | s]; cbn [doc_step].
  - destruct (is_Lookup a); [exact K |]. apply known_traffic_step, K.
  - unfold lookupUser.
    destruct (negb (truthy (Str (trim (user_input (side d)))))); [exact K |].
    destruct K as (Hr & Hs & Hg & Hl). repeat split; cbn; try assumption.
    apply Forall_app. split; [exact Hr |].
    constructor; [| constructor].
    split; [reflexivity | right; right; left; reflexivity].
  - destruct (lookups (side d)); [exact K |].
    unfold lookupUser_resume. destruct r as [data | message]; [| exact K].
    destruct (truthy (ur_error data)); exact K.
  - exact K.
Qed.

Lemma requests_kept_refl (st : Page) : requests_kept st st.
Proof. reflexivity. Qed.

Lemma requests_kept_trans (a b c : Page) :
  requests_kept a b -> requests_kept b c -> requests_kept a c.
Proof. unfold requests_kept. intros H1 H2. congruence. Qed.

Lemma requests_kept_forEach_photo (l : list Photo) :
  keeps requests_kept (forEach_photo l).
Proof.
  pose proof requests_kept_refl. pose proof requests_kept_trans.
  induction l as [| photo rest IH]; cbn [forEach_photo]; frame_with same_leaf.
Qed.

Lemma requests_kept_resume (k : Awaiting) (m : M unit) (st : Page) :
  keeps requests_kept m -> requests_kept st (resume k m st).
Proof.
  intros Hm. unfold resume.
  destruct (take k (pending (browser st))) as [l |]; [| reflexivity].
  apply (requests_kept_trans _ (with_browser (put_pending l) st));
    [reflexivity | apply Hm].
Qed.

Lemma requests_kept_step (a : action) (st : Page) :
  not_call a -> requests_kept st (step toLocaleString a st).
Proof.
  pose proof requests_kept_refl. pose proof requests_kept_trans.
  pose proof requests_kept_forEach_photo.
  intros Ha. destruct a; cbn [step not_call] in *;
    try contradiction; try reflexivity;
    try (apply requests_kept_resume);
    try (destruct (is_open i st); [| reflexivity]);
    try (destruct data; [| reflexivity]);
    try (apply keeps_exec);
    unfold onUserModeChange, startDownload_resume, cancelDownload_resume,
      startPreview_resume, onmessage, onerror,
      appendLog, setRunning, eventSource_close, new_EventSource;
    frame_with same_leaf.
Qed.

Lemma requests_kept_doc_step (a : doc_action) (d : Document) :
  calls_no_fetch a ->
  requests_kept (page d) (page (doc_step toLocaleString a d)).
Proof.
  intros Ha. destruct a as [a | | r | s]; cbn [doc_step calls_no_fetch] in *.
  - destruct (is_Lookup a); [reflexivity |]. apply requests_kept_step, Ha.
  - contradiction.
  - destruct (lookups (side d)); [reflexivity |].
    unfold lookupUser_resume. destruct r as [data | message]; [| reflexivity].
    destruct (truthy (ur_error data)); reflexivity.
  - reflexivity.
Qed.

Lemma no_image_added_refl (st : Page) : no_image_added st st.
Proof. left. reflexivity. Qed.

Lemma no_image_added_trans (a b c : Page) :
  no_image_added a b -> no_image_added b c -> no_image_added a c.
Proof.
  unfold no_image_added. intros [H1 | H1] [H2 | H2];
    rewrite ?H2, ?H1; auto.
Qed.

Ltac image_leaf :=
  apply keeps_write; intros ?;
  first [left; reflexivity | right; reflexivity].

Lemma no_image_added_resume (k : Awaiting) (m : M unit) (st : Page) :
  keeps no_image_added m -> no_image_added st (resume k m st).
Proof.
  intros Hm. unfold resume.
  destruct (take k (pending (browser st))) as [l |]; [| apply no_image_added_refl].
  apply (no_image_added_trans _ (with_browser (put_pending l) st));
    [left; reflexivity | apply Hm].
Qed.

Lemma no_image_added_step (a : action) (st : Page) :
  match a with Resume_startPreview _ => False | _ => True end ->
  no_image_added st (step toLocaleString a st).
Proof.
  pose proof no_image_added_refl. pose proof no_image_added_trans.
  intros Ha. destruct a; cbn [step] in *;
    try contradiction; try (left; reflexivity);
    try (apply no_image_added_resume);
    try (destruct (is_open i st); [| apply no_image_added_refl]);
    try (destruct data; [| apply no_image_added_refl]);
    try (apply keeps_exec);
    unfold startDownload, gatherParams, getActiveTab, cancelDownload, startPreview,
      onUserModeChange, startDownload_resume, cancelDownload_resume,
      onmessage, onerror, appendLog, setRunning, eventSource_close,
      new_EventSource, alert, fetch;
    frame_with image_leaf.
Qed.

Lemma no_image_added_doc_step (a : doc_action) (d : Document) :
  not_preview_resume a ->
  no_image_added (page d) (page (doc_step toLocaleString a d)).
Proof.
  intros Ha. destruct a as [a | | r | s]; cbn [doc_step].
  - destruct (is_Lookup a); [left; reflexivity |].
    apply no_image_added_step. destruct a; try exact I. exact Ha.
  - unfold lookupUser.
    destruct (negb (truthy (Str (trim (user_input (side d))))));
      left; reflexivity.
  - destruct (lookups (side d)); [left; reflexivity |].
    unfold lookupUser_resume. destruct r as [data | message];
      [| left; reflexivity].
    destruct (truthy (ur_error data)); left; reflexivity.
  - left. reflexivity.
Qed.

(** X9: what the script hands to the browser to be loaded.  In a document
    that has sent and opened nothing and shows neither a preview nor a link,
    whatever happens: every [fetch] of the script is a POST to
    [/api/download/start], [/api/search], [/api/resolve-user] or a URL under
    [/api/download/cancel/]; every [EventSource] it opens is on a URL under
    [/api/download/progress/]; every image of the preview grid has as [src]
    [/api/preview-thumb?url=] followed by a string encoded by
    [encodeURIComponent], which the browser loads by itself; and the markup
    assigned to the link wrapper is empty or the anchor to
    [/api/download/file/<job_id>] of a 'complete' event, the [job_id]
    inserted unescaped.  [fetch] is called by a call of [startDownload],
    [cancelDownload], [startPreview] or [lookupUser] only: not by a message
    or an error of a stream, not by the resumption of a call; and an image
    is added by the resumption of [startPreview] only. *)
Theorem script_traffic :
  forall (d : Document) (acts : list doc_action),
    requests (browser (page d)) = [] ->
    streams (browser (page d)) = [] ->
    preview_grid (panel (page d)) = [] ->
    download_link_wrap (panel (page d)) = EmptyString ->
    let st' := page (doc_run toLocaleString acts d) in
    Forall known_request (requests (browser st')) /\
    Forall known_stream (streams (browser st')) /\
    Forall known_image (preview_grid (panel st')) /\
    known_link (download_link_wrap (panel st')) /\
    (forall (a : doc_action) (s : Document),
       calls_no_fetch a ->
       requests (browser (page (doc_step toLocaleString a s)))
       = requests (browser (page s))) /\
    (forall (a : doc_action) (s : Document),
       not_preview_resume a ->
       no_image_added (page s) (page (doc_step toLocaleString a s))).
Proof.
  intros d acts Hr Hs Hg Hl st'. subst st'.
  assert (K : known_traffic (page (doc_run toLocaleString acts d))).
  { assert (H0 : known_traffic (page d)).
    { unfold known_traffic. rewrite Hr, Hs, Hg, Hl.
      repeat split; try constructor. reflexivity. }
    clear Hr Hs Hg Hl. revert d H0.
    induction acts as [| a acts IH]; intros d H0; cbn [doc_run fold_left].
    - exact H0.
    - apply IH, known_traffic_doc_step, H0. }
  destruct K as (Kr & Ks & Kg & Kl).
  repeat (split; [assumption |]). split.
  - intros a s Ha. apply requests_kept_doc_step, Ha.
  - intros a s Ha. apply no_image_added_doc_step, Ha.
Qed.

(** ** More on [gatherParams] *)

Ltac open_tab :=
  unfold gatherParams; unfold bind at 1; rewrite getActiveTab_tab_of;
  run_script.

Lemma truthy_default_500 : number_truthy 500 = true.
Proof. vm_compute. reflexivity. Qed.

Lemma truthy_default_100 : number_truthy 100 = true.
Proof. vm_compute. reflexivity. Qed.

Lemma or_number (x d : number) (y : number) :
  number_truthy d = true ->
  or (Num x) (Num d) = Num y -> number_truthy y = true.
Proof.
  intros Hd. unfold or. change (truthy (Num x)) with (number_truthy x).
  destruct (number_truthy x) eqn:Hx; intros H; injection H as <-; assumption.
Qed.

(** X10: [gatherParams] refuses (alerts and returns [null]) on the
    user-album tab only.  On every other tab, known or not, it returns
    parameters without touching the page, so [startDownload] resets the
    panel and sends its request, whatever the inputs hold; and whenever it
    returns [null] exactly one alert was raised and nothing else changed. *)
Theorem gatherParams_refuses_only_on_user_album :
  forall st : Page,
    (tab_of st <> "user-album" ->
     exists params : object,
       gatherParams st = (Normal (Some params), st) /\
       startDownload st = (Normal tt, started params st)) /\
    (fst (gatherParams st) = Normal None ->
     tab_of st = "user-album" /\
     exists msg : string,
       snd (gatherParams st) = alerted msg st /\
       exec startDownload st = alerted msg st).
Proof.
  intros st.
  assert (A : tab_of st <> "user-album" ->
              exists params, gatherParams st = (Normal (Some params), st)).
  { intros Hne. apply String.eqb_neq in Hne. open_tab. rewrite Hne.
    destruct (tab_of st =? "interestingness")%string;
      [| destruct (tab_of st =? "search")%string ];
      try (destruct (truthy (userNsid (globals st)))); eexists; reflexivity. }
  split.
  - intros Hne. destruct (A Hne) as [params E]. exists params.
    split; [exact E |]. apply startDownload_sends. rewrite E. reflexivity.
  - intros Hn. split.
    + destruct (String.eqb_spec (tab_of st) "user-album") as [E | Hne]; [exact E |].
      destruct (A Hne) as [params E]. rewrite E in Hn. discriminate.
    + destruct (gatherParams_outcome st) as [[p E] | [[msg E] | [e E]]];
        rewrite E in Hn; cbn [fst] in Hn; try discriminate.
      exists msg. split; [rewrite E; reflexivity |].
      unfold exec. rewrite startDownload_after_gatherParams, E. reflexivity.
Qed.

(** X11: a [count] in the parameters is never NaN and never zero, on any
    tab: it is what [parseInt] read when that is a truthy Number (negative
    numbers included), and the default otherwise. *)
Theorem submitted_count_is_truthy :
  forall (st : Page) (params : object),
    fst (gatherParams st) = Normal (Some params) ->
    (forall x : number, get "count" params = Num x -> number_truthy x = true) /\
    (has "count" params = true -> exists x : number, get "count" params = Num x) /\
    (tab_of st = "interestingness" ->
     number_truthy (parseInt (int_count (controls st))) = true ->
     get "count" params = Num (parseInt (int_count (controls st)))) /\
    (tab_of st = "search" ->
     number_truthy (parseInt (search_count (controls st))) = true ->
     get "count" params = Num (parseInt (search_count (controls st)))).
Proof.
  intros st params. open_tab.
  destruct (tab_of st =? "interestingness")%string eqn:T1;
    [| destruct (tab_of st =? "search")%string eqn:T2;
       [| destruct (tab_of st =? "user-album")%string eqn:T3 ] ].
  - apply String.eqb_eq in T1.
    destruct (truthy (userNsid (globals st))); cbn [fst]; intros H;
      injection H as <-; (split; [| split; [| split]]).
    all: try (intros x Hx; cbn in Hx;
              exact (or_number _ _ _ truthy_default_500 Hx)).
    all: try (intros _; cbn; unfold or;
              destruct (truthy (Num (parseInt (int_count (controls st)))));
              eexists; reflexivity).
    all: try (intros _ Hx; cbn; unfold or;
              change (truthy (Num (parseInt (int_count (controls st)))))
                with (number_truthy (parseInt (int_count (controls st))));
              rewrite Hx; reflexivity).
    all: intros Hs; rewrite T1 in Hs; discriminate.
  - apply String.eqb_eq in T2.
    destruct (truthy (userNsid (globals st))); cbn [fst]; intros H;
      injection H as <-; (split; [| split; [| split]]).
    all: try (intros x Hx; cbn in Hx;
              exact (or_number _ _ _ truthy_default_100 Hx)).
    all: try (intros _; cbn; unfold or;
              destruct (truthy (Num (parseInt (search_count (controls st)))));
              eexists; reflexivity).
    all: try (intros _ Hx; cbn; unfold or;
              change (truthy (Num (parseInt (search_count (controls st)))))
                with (number_truthy (parseInt (search_count (controls st))));
              rewrite Hx; reflexivity).
    all: intros Hs; rewrite T2 in Hs; discriminate.
  - apply String.eqb_eq in T3.
    destruct (truthy (userNsid (globals st))); cbn [negb fst]; [| discriminate].
    destruct (user_mode (controls st) =? "photostream")%string.
    + cbn [fst]. intros H. injection H as <-. (split; [| split; [| split]]).
      * intros x Hx. cbn in Hx. exact (or_number _ _ _ truthy_default_500 Hx).
      * intros _. cbn. unfold or.
        destruct (truthy (Num (parseInt (user_count (controls st)))));
          eexists; reflexivity.
      * intros Hs. rewrite T3 in Hs. discriminate.
      * intros Hs. rewrite T3 in Hs. discriminate.
    + destruct (isNaN _ || _ || _); cbn [fst]; [discriminate |].
      destruct (at_index _ _) as [album |]; cbn [fst]; [| discriminate].
      intros H. injection H as <-. (split; [| split; [| split]]).
      * intros x Hx. cbn in Hx. discriminate.
      * intros Hc. cbn in Hc. discriminate.
      * intros Hs. rewrite T3 in Hs. discriminate.
      * intros Hs. rewrite T3 in Hs. discriminate.
  - cbn [fst]. intros H. injection H as <-. (split; [| split; [| split]]).
    + intros x Hx. cbn in Hx. discriminate.
    + intros Hc. cbn in Hc. discriminate.
    + intros Hs. rewrite Hs in T1. discriminate.
    + intros Hs. rewrite Hs in T2. discriminate.
Qed.

(** X12: which key carries the user.  On the interestingness and search
    tabs the parameters have [user_id] exactly when a user is resolved, and
    never [user_nsid]; on the user-album tab they have [user_nsid], which is
    then truthy, and never [user_id]. *)
Theorem user_key_by_tab :
  forall (st : Page) (params : object),
    fst (gatherParams st) = Normal (Some params) ->
    (tab_of st = "interestingness" \/ tab_of st = "search" ->
     has "user_id" params = truthy (userNsid (globals st)) /\
     (truthy (userNsid (globals st)) = true ->
      get "user_id" params = userNsid (globals st)) /\
     has "user_nsid" params = false) /\
    (tab_of st = "user-album" ->
     has "user_id" params = false /\
     get "user_nsid" params = userNsid (globals st) /\
     truthy (userNsid (globals st)) = true).
Proof.
  intros st params H. split.
  - intros [Ht | Ht]; revert H; open_tab; rewrite Ht;
      cbn [String.eqb Ascii.eqb Bool.eqb];
      destruct (truthy (userNsid (globals st))); cbn [fst];
      intros H; injection H as <-; repeat split; try discriminate.
  - intros Ht. revert H. open_tab. rewrite Ht.
    cbn [String.eqb Ascii.eqb Bool.eqb].
    destruct (truthy (userNsid (globals st))); cbn [negb fst]; [| discriminate].
    destruct (user_mode (controls st) =? "photostream")%string.
    + cbn [fst]. intros H. injection H as <-. repeat split.
    + destruct (isNaN _ || _ || _); cbn [fst]; [discriminate |].
      destruct (at_index _ _) as [album |]; cbn [fst]; [| discriminate].
      intros H. injection H as <-. repeat split.
Qed.

(** ** More on the preview *)

Lemma trimStart_blank (s : string) :
  blank s = true -> trimStart s = EmptyString.
Proof.
  induction s as [| c r IH]; cbn [blank trimStart]; [reflexivity |].
  destruct (isWhiteSpace c); cbn [andb]; [exact IH | discriminate].
Qed.

Lemma blank_trimStart (s : string) : blank (trimStart s) = blank s.
Proof.
  induction s as [| c r IH]; cbn [blank trimStart]; [reflexivity |].
  destruct (isWhiteSpace c) eqn:E; cbn [andb]; [exact IH |].
  cbn [blank]. rewrite E. reflexivity.
Qed.

Lemma trimEnd_empty (s : string) :
  (trimEnd s =? EmptyString)%string = blank s.
Proof.
  induction s as [| c r IH]; cbn [blank trimEnd]; [reflexivity |].
  destruct (trimEnd r) as [| c' r'] eqn:E; cbn [String.eqb] in IH.
  - rewrite <- IH, andb_true_r. destruct (isWhiteSpace c); reflexivity.
  - rewrite <- IH, andb_false_r. reflexivity.
Qed.

(** The trimmed string is empty exactly when the string is blank. *)
Lemma truthy_trim (s : string) : truthy (Str (trim s)) = negb (blank s).
Proof.
  unfold truthy, trim. rewrite trimEnd_empty, blank_trimStart. reflexivity.
Qed.

Lemma startPreview_refuses_blank_search_eq (st : Page) :
  startPreview st =
  (Normal tt,
   if blank (search_text (controls st)) && blank (search_tags (controls st)) then
     alerted "Enter keywords and/or tags to search." st
   else
     with_browser (fun b =>
       put_pending (pending b ++ [AwaitPreview])
         (put_requests (requests b ++ [preview_request st]) b))
       (with_panel (fun p =>
          put_preview_grid []
            (put_preview_status "Searching..."
               (put_preview_btn_disabled true p))) st)).
Proof.
  unfold startPreview. run_script.
  rewrite !truthy_trim, !negb_involutive.
  destruct (blank (search_text (controls st)) && blank (search_tags (controls st)));
    reflexivity.
Qed.

(** X13: [startPreview] refuses exactly when the keywords and the tags are
    both blank (empty or white space only): it then raises an alert and
    does nothing else.  Otherwise it disables the preview button, shows
    'Searching...', empties the grid and sends one POST to [/api/search]
    with the trimmed keywords and tags. *)
Theorem startPreview_refuses_blank_search :
  forall st : Page,
    let c := controls st in
    startPreview st =
    (Normal tt,
     if blank (search_text c) && blank (search_tags c) then
       alerted "Enter keywords and/or tags to search." st
     else
       with_browser (fun b =>
         put_pending (pending b ++ [AwaitPreview])
           (put_requests (requests b ++ [preview_request st]) b))
         (with_panel (fun p =>
            put_preview_grid []
              (put_preview_status "Searching..."
                 (put_preview_btn_disabled true p))) st)).
Proof.
  intros st c. subst c. apply startPreview_refuses_blank_search_eq.
Qed.

Lemma forEach_photo_cells (l : list Photo) (st : Page) :
  forEach_photo l st =
  (Normal tt,
   with_panel (fun p =>
     put_preview_grid (preview_grid p ++ map thumb_cell (with_thumb l)) p) st).
Proof.
  revert st. induction l as [| photo rest IH]; intros st;
    cbn [forEach_photo with_thumb filter map].
  - unfold ret, with_panel. rewrite app_nil_r. destruct st as [g c [] b]. reflexivity.
  - unfold bind. destruct (truthy (thumb_url photo)); cbn [negb].
    + unfold write. rewrite IH. cbn [map]. unfold with_panel. cbn.
      rewrite <- app_assoc. reflexivity.
    + unfold ret. apply IH.
Qed.

Lemma length_is_truthy_upto_1000 :
  forallb (fun n => number_truthy (Number_of_Z (Z.of_nat n))) (seq 1 1000) = true.
Proof. vm_compute. reflexivity. Qed.

Lemma Number_of_length_truthy {A : Type} (l : list A) :
  (1 <= List.length l <= 1000)%nat -> number_truthy (Number_of_length l) = true.
Proof.
  intros Hl. unfold Number_of_length.
  pose proof length_is_truthy_upto_1000 as H.
  rewrite forallb_forall in H. apply H. apply in_seq. lia.
Qed.

(** X14: however the awaited search ends (any reply, or a failure), the
    resumed [startPreview] completes normally and leaves the preview button
    enabled, and it touches nothing but the preview status, the grid and
    that button. *)
Theorem preview_button_always_reenabled :
  forall (r : settled PreviewReply) (st : Page),
    exists (status : string) (cells : list ThumbCell),
      startPreview_resume toLocaleString r st =
      (Normal tt,
       with_panel (fun p =>
         put_preview_btn_disabled false
           (put_preview_status status
              (put_preview_grid (preview_grid p ++ cells) p))) st).
Proof.
  intros r st. unfold startPreview_resume. run_script.
  destruct r as [data | message].
  - destruct (truthy (pr_error data)).
    + exists ("Error: " ++ ToString (pr_error data)), [].
      unfold with_panel. rewrite app_nil_r. destruct st as [g c [] b]. reflexivity.
    + destruct (number_truthy (Number_of_length (preview data))); cbn [negb].
      * rewrite forEach_photo_cells. eexists _, _. reflexivity.
      * exists "No photos found.", [].
        unfold with_panel. rewrite app_nil_r. destruct st as [g c [] b]. reflexivity.
  - exists ("Error: " ++ message), [].
    unfold with_panel. rewrite app_nil_r. destruct st as [g c [] b]. reflexivity.
Qed.

(** X15: for a reply without error listing between 1 and 1000 photos, the
    grid gets one cell per photo that has a truthy [thumb_url], in the order
    of the reply, while the status line counts every photo of the reply,
    with or without a cell. *)
Theorem preview_cells_and_count :
  forall (data : PreviewReply) (st : Page),
    truthy (pr_error data) = false ->
    (1 <= List.length (preview data) <= 1000)%nat ->
    let st' := exec (startPreview_resume toLocaleString (Fulfilled data)) st in
    preview_grid (panel st')
      = (preview_grid (panel st) ++ map thumb_cell (with_thumb (preview data)))%list /\
    preview_status (panel st')
      = toLocaleString (pr_total data) ++ " total photos found  |  Previewing "
        ++ Number_toString (Number_of_length (preview data)) /\
    (List.length (preview_grid (panel st'))
       <= List.length (preview_grid (panel st)) + List.length (preview data))%nat.
Proof.
  intros data st He Hl st'. subst st'.
  unfold startPreview_resume. run_script.
  rewrite He, (Number_of_length_truthy _ Hl). cbn [negb].
  rewrite forEach_photo_cells. cbn [snd].
  unfold with_panel; cbn.
  repeat split.
  rewrite length_app, length_map. unfold with_thumb.
  pose proof (filter_length_le (fun photo => truthy (thumb_url photo)) (preview data)).
  lia.
Qed.

Lemma length_substring_0 (n : nat) (s : string) :
  (n <= String.length s)%nat -> String.length (substring 0 n s) = n.
Proof.
  revert s. induction n as [| n IH]; intros s H.
  - destruct s; reflexivity.
  - destruct s as [| c r]; cbn in H; [lia |].
    cbn [substring String.length]. rewrite IH by lia. reflexivity.
Qed.

Lemma string_length_app (a b : string) :
  String.length (a ++ b) = (String.length a + String.length b)%nat.
Proof. induction a as [| c a IH]; cbn; [| rewrite IH]; reflexivity. Qed.

(** X16: the caption of a cell is never longer than 15 characters: a title
    of at most 15 characters is shown as it is, a longer one as its first
    12 characters followed by '...'. *)
Theorem caption_at_most_15 :
  forall photo : Photo,
    let caption := caption_textContent (thumb_cell photo) in
    (String.length caption <= 15)%nat /\
    ((String.length (p_title photo) <= 15)%nat -> caption = p_title photo) /\
    ((15 < String.length (p_title photo))%nat ->
     caption = substring 0 12 (p_title photo) ++ "..." /\
     String.length caption = 15%nat).
Proof.
  intros photo caption. subst caption. cbn [thumb_cell caption_textContent].
  destruct (Nat.ltb_spec 15 (String.length (p_title photo))) as [Hlt | Hle].
  - assert (E : String.length (substring 0 12 (p_title photo) ++ "...") = 15%nat).
    { rewrite string_length_app, length_substring_0 by lia. reflexivity. }
    split; [rewrite E; lia |]. split; [lia |]. intros _. split; [reflexivity | exact E].
  - split; [exact Hle |]. split; [reflexivity | lia].
Qed.

(** X17: a search that was sent and then fails (the reply carries an error,
    or the request or its decoding fails) leaves an empty grid, the text
    'Error: ...' on the preview status and the preview button enabled. *)
Theorem failed_preview_leaves_empty_grid :
  forall (st : Page) (r : settled PreviewReply) (msg : string),
    blank (search_text (controls st)) && blank (search_tags (controls st)) = false ->
    preview_failure r = Some msg ->
    let st' := exec (startPreview_resume toLocaleString r) (exec startPreview st) in
    preview_grid (panel st') = [] /\
    preview_status (panel st') = "Error: " ++ msg /\
    preview_btn_disabled (panel st') = false /\
    requests (browser st') = (requests (browser st) ++ [preview_request st])%list.
Proof.
  intros st r msg Hb Hf st'. subst st'.
  pose proof (startPreview_refuses_blank_search_eq st) as E. rewrite Hb in E.
  unfold exec. rewrite E. cbn [snd].
  unfold startPreview_resume. run_script. unfold preview_failure in Hf.
  destruct r as [data | message].
  - destruct (truthy (pr_error data)); [| discriminate].
    injection Hf as <-. repeat split.
  - injection Hf as <-. repeat split.
Qed.

End Download.

(** ** User lookup *)

(** X18: with a blank user input (empty or white space only) [lookupUser]
    forgets the user: [userNsid] is [null], no album is held or listed, the
    album select is disabled and the status line shows the hint; nothing is
    sent and the lookup button is not touched.  A download from the
    user-album tab is then refused. *)
Theorem blank_lookup_forgets_user :
  forall d : Document,
    blank (user_input (side d)) = true ->
    let d' := lookupUser d in
    userNsid (globals (page d')) = Null /\
    userAlbums (globals (page d')) = [] /\
    album_options (side d') = [] /\
    album_select_disabled (panel (page d')) = true /\
    user_status (side d') = optional_hint /\
    requests (browser (page d')) = requests (browser (page d)) /\
    lookup_btn_disabled (side d') = lookup_btn_disabled (side d) /\
    lookups (side d') = lookups (side d) /\
    (tab_of (page d') = "user-album" ->
     gatherParams (page d') = (Normal None, alerted "Look up a user first." (page d'))).
Proof.
  intros d Hb d'. subst d'. unfold lookupUser.
  rewrite truthy_trim, Hb. cbn [negb].
  repeat split.
  intros Htab. unfold gatherParams. unfold bind at 1.
  rewrite getActiveTab_tab_of. run_script. rewrite Htab. reflexivity.
Qed.

(** X19: a lookup with a name in the input disables the lookup button,
    shows 'Looking up user...' and sends one POST to [/api/resolve-user]
    with the trimmed name, the user resolved before staying in effect
    meanwhile; and however the request ends, the resumed call leaves the
    lookup button enabled. *)
Theorem lookup_button_follows_request :
  forall d : Document,
    blank (user_input (side d)) = false ->
    let d' := lookupUser d in
    lookup_btn_disabled (side d') = true /\
    user_status (side d') = units "Looking up user..." /\
    requests (browser (page d'))
      = (requests (browser (page d))
         ++ [resolve_request (trim (user_input (side d)))])%list /\
    globals (page d') = globals (page d) /\
    panel (page d') = panel (page d) /\
    album_options (side d') = album_options (side d) /\
    forall r : settled UserReply,
      lookup_btn_disabled (side (lookupUser_resume r d')) = false.
Proof.
  intros d Hb d'. subst d'. unfold lookupUser.
  rewrite truthy_trim, Hb. cbn [negb].
  repeat split.
Qed.

(** X20: a lookup that fails (the reply carries an error, or the request or
    its decoding fails) shows 'Error: ...' and enables the lookup button,
    but keeps the user and the albums of the previous lookup, in the
    globals and in the select: the page the download functions work on is
    untouched. *)
Theorem failed_lookup_keeps_previous_user :
  forall (d : Document) (r : settled UserReply) (msg : string),
    lookup_failure r = Some msg ->
    let d' := lookupUser_resume r d in
    page d' = page d /\
    album_options (side d') = album_options (side d) /\
    user_status (side d') = units ("Error: " ++ msg) /\
    lookup_btn_disabled (side d') = false.
Proof.
  intros d r msg Hf d'. subst d'. unfold lookupUser_resume, lookup_failure in *.
  destruct r as [data | message].
  - destruct (truthy (ur_error data)); [| discriminate].
    injection Hf as <-. repeat split.
  - injection Hf as <-. repeat split.
Qed.

Lemma nth_error_options_from (albums : list Album) (start : Z) (i : nat) :
  nth_error (options_from start albums) i =
  match nth_error albums i with
  | Some a =>
      Some {| opt_value := ToString (Num (Number_of_Z (start + Z.of_nat i)));
              opt_textContent :=
                ToString (a_title a) ++ " (" ++ ToString (a_photos a) ++ " photos)" |}
  | None => None
  end.
Proof.
  revert start i. induction albums as [| a rest IH]; intros start i.
  - destruct i; reflexivity.
  - destruct i as [| i]; cbn [options_from nth_error].
    + rewrite Z.add_0_r. reflexivity.
    + rewrite IH. replace (start + 1 + Z.of_nat i)%Z with (start + Z.of_nat (S i))%Z by lia.
      reflexivity.
Qed.

Lemma length_options_from (albums : list Album) (start : Z) :
  List.length (options_from start albums) = List.length albums.
Proof.
  revert start. induction albums as [| a rest IH]; intros start;
    cbn [options_from List.length]; [| rewrite IH]; reflexivity.
Qed.

Lemma lookupUser_resume_success (d : Document) (data : UserReply) :
  truthy (ur_error data) = false ->
  lookupUser_resume (Fulfilled data) d =
  {| page := with_globals (fun g =>
               put_userAlbums (ur_albums data) (put_userNsid (ur_nsid data) g)) (page d);
     side := put_lookup_btn_disabled false
               (put_album_options (options_from 0 (ur_albums data))
                  (put_user_status
                     (units ("User: " ++ ToString (ur_username data)
                             ++ " (" ++ ToString (ur_nsid data) ++ ")")) (side d))) |}.
Proof. intros He. unfold lookupUser_resume. rewrite He. reflexivity. Qed.

(** X21: a lookup that succeeds replaces the user and the albums held by
    the script and the options of the select together: the new select has
    one option per album of the reply, in order, option [i] having the
    value [i] and the text 'title (n photos)'.  Whether the select is
    disabled is not changed, and nothing else of the page is. *)
Theorem lookup_lists_albums :
  forall (d : Document) (data : UserReply),
    truthy (ur_error data) = false ->
    let d' := lookupUser_resume (Fulfilled data) d in
    userNsid (globals (page d')) = ur_nsid data /\
    userAlbums (globals (page d')) = ur_albums data /\
    List.length (album_options (side d')) = List.length (ur_albums data) /\
    (forall (i : nat) (a : Album),
       nth_error (ur_albums data) i = Some a ->
       nth_error (album_options (side d')) i =
       Some {| opt_value := ToString (Num (Number_of_Z (Z.of_nat i)));
               opt_textContent :=
                 ToString (a_title a) ++ " (" ++ ToString (a_photos a) ++ " photos)" |}) /\
    panel (page d') = panel (page d) /\
    browser (page d') = browser (page d) /\
    currentJobId (globals (page d')) = currentJobId (globals (page d)) /\
    eventSource (globals (page d')) = eventSource (globals (page d)) /\
    lookup_btn_disabled (side d') = false.
Proof.
  intros d data He d'. subst d'. rewrite (lookupUser_resume_success d data He).
  cbn [page side globals with_globals put_userAlbums put_userNsid userNsid userAlbums
       album_options put_lookup_btn_disabled put_album_options].
  split; [reflexivity |]. split; [reflexivity |].
  split; [apply length_options_from |]. split.
  - intros i a Hi. rewrite nth_error_options_from, Hi. reflexivity.
  - repeat split.
Qed.

(** ** From the select to the request *)

Lemma index_survives_1000 : index_survives 1000 = true.
Proof. vm_compute. reflexivity. Qed.

Lemma index_survives_spec (bound i n : nat) :
  index_survives bound = true ->
  (i < n <= bound)%nat ->
  let idx := parseInt (ToString (Num (Number_of_Z (Z.of_nat i)))) in
  isNaN idx = false /\
  PrimFloat.ltb idx 0 = false /\
  integral idx = Some (Z.of_nat i) /\
  PrimFloat.leb (Number_of_Z (Z.of_nat n)) idx = false.
Proof.
  intros H Hin idx. unfold index_survives in H.
  rewrite forallb_forall in H.
  assert (Hi : In i (seq 0 bound)) by (apply in_seq; lia).
  apply H in Hi. clear H. fold idx in Hi.
  apply andb_true_iff in Hi. destruct Hi as [Hi Hn].
  apply andb_true_iff in Hi. destruct Hi as [Hi Hz].
  apply andb_true_iff in Hi. destruct Hi as [Hnan Hneg].
  apply negb_true_iff in Hnan, Hneg.
  split; [exact Hnan |]. split; [exact Hneg |]. split.
  - destruct (integral idx) as [z |]; [| discriminate].
    apply Z.eqb_eq in Hz. rewrite Hz. reflexivity.
  - rewrite forallb_forall in Hn. apply negb_true_iff. apply Hn.
    apply (nth_error_In _ (n - S i)). rewrite nth_error_skipn.
    replace (S i + (n - S i))%nat with n by lia.
    rewrite nth_error_map, nth_error_seq.
    replace (n <? S bound)%nat with true by (symmetry; apply Nat.ltb_lt; lia).
    reflexivity.
Qed.

Lemma listed_index (i n : nat) :
  (i < n <= 1000)%nat ->
  let idx := parseInt (ToString (Num (Number_of_Z (Z.of_nat i)))) in
  isNaN idx = false /\
  PrimFloat.ltb idx 0 = false /\
  integral idx = Some (Z.of_nat i) /\
  PrimFloat.leb (Number_of_Z (Z.of_nat n)) idx = false.
Proof. apply index_survives_spec, index_survives_1000. Qed.

(** X22: the select and the request agree.  When the select lists the
    albums the script holds (at most 1000), and the value the select
    reports is that of its option [i], then on the user-album tab in album
    mode, with a user resolved, [gatherParams] returns the [id] and the
    [title] of album [i]: the album the user sees selected is the one that
    is downloaded. *)
Theorem selected_option_is_the_album_sent :
  forall (d : Document) (i : nat) (o : AlbumOption) (a : Album),
    options_match d ->
    (List.length (userAlbums (globals (page d))) <= 1000)%nat ->
    nth_error (album_options (side d)) i = Some o ->
    nth_error (userAlbums (globals (page d))) i = Some a ->
    album_select (controls (page d)) = opt_value o ->
    tab_of (page d) = "user-album" ->
    (user_mode (controls (page d)) =? "photostream")%string = false ->
    truthy (userNsid (globals (page d))) = true ->
    exists params : object,
      gatherParams (page d) = (Normal (Some params), page d) /\
      get "album_id" params = a_id a /\
      get "album_title" params = a_title a /\
      get "tab_type" params = Str "album".
Proof.
  intros d i o a Hm Hlen Ho Ha Hsel Htab Hmode Hu.
  assert (Hi : (i < List.length (userAlbums (globals (page d))))%nat)
    by (apply nth_error_Some; congruence).
  assert (Ev : opt_value o = ToString (Num (Number_of_Z (Z.of_nat i)))).
  { unfold options_match in Hm. rewrite Hm, nth_error_options_from, Ha in Ho.
    injection Ho as <-. reflexivity. }
  destruct (listed_index i (List.length (userAlbums (globals (page d)))))
    as (Hnan & Hneg & Hint & Hlt); [lia |].
  unfold gatherParams. unfold bind at 1. rewrite getActiveTab_tab_of. run_script.
  rewrite Htab. cbn [String.eqb Ascii.eqb Bool.eqb].
  rewrite Hu, Hmode. cbn [negb]. rewrite Hsel, Ev.
  unfold Number_of_length. rewrite Hnan, Hneg, Hlt. cbn [orb].
  unfold at_index. rewrite Hint.
  replace (0 <=? Z.of_nat i)%Z with true by (symmetry; apply Z.leb_le; lia).
  rewrite Nat2Z.id, Ha.
  eexists. split; [reflexivity |]. repeat split.
Qed.

Section Documents.

Variable toLocaleString : number -> string.

Lemma userAlbums_kept_refl (st : Page) : userAlbums_kept st st.
Proof. reflexivity. Qed.

Lemma userAlbums_kept_trans (a b c : Page) :
  userAlbums_kept a b -> userAlbums_kept b c -> userAlbums_kept a c.
Proof. unfold userAlbums_kept. intros H1 H2. congruence. Qed.

Lemma userAlbums_kept_forEach_photo (l : list Photo) :
  keeps userAlbums_kept (forEach_photo l).
Proof.
  pose proof userAlbums_kept_refl. pose proof userAlbums_kept_trans.
  induction l as [| photo rest IH]; cbn [forEach_photo];
    frame_with ltac:(apply keeps_write; intros ?; reflexivity).
Qed.

Lemma userAlbums_kept_resume (k : Awaiting) (m : M unit) (st : Page) :
  keeps userAlbums_kept m -> userAlbums_kept st (resume k m st).
Proof.
  intros Hm. unfold resume.
  destruct (take k (pending (browser st))) as [l |]; [| reflexivity].
  apply (userAlbums_kept_trans _ (with_browser (put_pending l) st));
    [reflexivity | apply Hm].
Qed.

Lemma userAlbums_kept_step (a : action) (st : Page) :
  is_Lookup a = false -> userAlbums_kept st (step toLocaleString a st).
Proof.
  pose proof userAlbums_kept_refl. pose proof userAlbums_kept_trans.
  pose proof userAlbums_kept_forEach_photo.
  intros Ha. destruct a; cbn [step is_Lookup] in *;
    try discriminate; try reflexivity;
    try (apply userAlbums_kept_resume);
    try (destruct (is_open i st); [| reflexivity]);
    try (destruct data; [| reflexivity]);
    try (apply keeps_exec);
    unfold startDownload, gatherParams, getActiveTab, cancelDownload, startPreview,
      onUserModeChange, startDownload_resume, cancelDownload_resume,
      startPreview_resume, onmessage, onerror,
      appendLog, setRunning, eventSource_close, new_EventSource, alert, fetch;
    frame_with ltac:(apply keeps_write; intros ?; reflexivity).
Qed.

Lemma options_match_step (a : doc_action) (d : Document) :
  options_match d -> options_match (doc_step toLocaleString a d).
Proof.
  unfold options_match. intros Hm. destruct a as [a | | r | s]; cbn [doc_step].
  - destruct (is_Lookup a) eqn:Ha; [exact Hm |].
    cbn [on_page page side]. rewrite (userAlbums_kept_step a (page d) Ha). exact Hm.
  - unfold lookupUser.
    destruct (negb (truthy (Str (trim (user_input (side d))))));
      [reflexivity | exact Hm].
  - destruct (lookups (side d)) as [| n]; [exact Hm |].
    unfold lookupUser_resume.
    destruct r as [data | message]; [destruct (truthy (ur_error data)) |];
      first [exact Hm | reflexivity].
  - exact Hm.
Qed.

(** X23: the album select and the albums held by the script never come
    apart.  A successful lookup and a lookup with a blank input make the
    select list exactly the albums in [userAlbums], and no action of the
    document (downloads, previews, stream events, further lookups, failed
    ones included) breaks that. *)
Theorem select_always_lists_held_albums :
  (forall (d : Document) (data : UserReply),
     truthy (ur_error data) = false ->
     options_match (lookupUser_resume (Fulfilled data) d)) /\
  (forall d : Document,
     blank (user_input (side d)) = true -> options_match (lookupUser d)) /\
  (forall (d : Document) (acts : list doc_action),
     options_match d -> options_match (doc_run toLocaleString acts d)).
Proof.
  split; [| split].
  - intros d data He. unfold options_match.
    rewrite (lookupUser_resume_success d data He). reflexivity.
  - intros d Hb. unfold options_match, lookupUser.
    rewrite truthy_trim, Hb. reflexivity.
  - intros d acts. revert d.
    induction acts as [| a acts IH]; intros d Hm; cbn [doc_run fold_left].
    + exact Hm.
    + apply IH, options_match_step, Hm.
Qed.

End Documents.

(** ** Tabs *)

Lemma nth_error_update_nth (f : TabElement -> TabElement)
    (l : list TabElement) (k i : nat) :
  nth_error (update_nth k f l) i =
  match nth_error l i with
  | Some e => Some (if Nat.eqb k i then f e else e)
  | None => None
  end.
Proof.
  revert k i. induction l as [| e r IH]; intros k i.
  - destruct k, i; reflexivity.
  - destruct k, i; cbn [update_nth nth_error Nat.eqb]; try reflexivity.
    + destruct (nth_error r i); reflexivity.
    + apply IH.
Qed.

Lemma nth_error_remove_active (selector : TabElement -> bool)
    (l : list TabElement) (i : nat) :
  nth_error (remove_active selector l) i =
  match nth_error l i with
  | Some e => Some (if selector e then put_active false e else e)
  | None => None
  end.
Proof.
  unfold remove_active. rewrite nth_error_map.
  destruct (nth_error l i); reflexivity.
Qed.

Lemma getElementById_found (id : string) (l : list TabElement) (j : nat) :
  getElementById id l = Some j ->
  exists e, nth_error l j = Some e /\ el_id e = id.
Proof.
  revert j. induction l as [| e r IH]; intros j; cbn [getElementById].
  - discriminate.
  - destruct (String.eqb_spec (el_id e) id) as [E | _].
    + intros H. injection H as <-. exists e. split; [reflexivity | exact E].
    + destruct (getElementById id r) as [k |]; cbn [option_map]; [| discriminate].
      intros H. injection H as <-. cbn [nth_error]. apply IH. reflexivity.
Qed.

(** The elements after the three passes of the listener, before the pane
    is looked up. *)
Lemma nth_error_after_passes (l : list TabElement) (k i : nat) :
  nth_error
    (update_nth k (put_active true)
       (remove_active is_tab_content (remove_active is_tab_btn l))) i =
  match nth_error l i with
  | Some e =>
      Some (put_active
              (if Nat.eqb k i then true
               else if is_tab_btn e || is_tab_content e then false
               else active e) e)
  | None => None
  end.
Proof.
  rewrite nth_error_update_nth, !nth_error_remove_active.
  destruct (nth_error l i) as [e |]; [| reflexivity].
  destruct e as [id b c a t]. destruct b, c, (Nat.eqb k i); reflexivity.
Qed.

(** X24: a click on a tab button makes it the one active tab button,
    whatever was active before, provided the element whose id is
    ['tab-' + data-tab] is not itself a tab button: [getActiveTab] then
    returns the [data-tab] of the button clicked.  This holds also when no
    element has that id, in which case the listener ends in an exception. *)
Theorem click_selects_the_tab :
  forall (l : list TabElement) (k : nat) (btn : TabElement),
    nth_error l k = Some btn ->
    is_tab_btn btn = true ->
    (forall e, In e l -> el_id e = "tab-" ++ data_tab btn -> is_tab_btn e = false) ->
    let l' := snd (click_tab k l) in
    (forall (i : nat) (e : TabElement),
       nth_error l' i = Some e -> is_tab_btn e = true ->
       (active e = true <-> i = k)) /\
    active_tab_of l' = data_tab btn.
Proof.
  intros l k btn Hk Hb Hpane l'.
  assert (Hshape : forall i e, nth_error l' i = Some e ->
            exists e0, nth_error l i = Some e0 /\
              is_tab_btn e = is_tab_btn e0 /\ data_tab e = data_tab e0 /\
              (is_tab_btn e0 = true -> active e = Nat.eqb k i)).
  { intros i e. subst l'. unfold click_tab. rewrite Hk, Hb.
    destruct (getElementById _ _) as [j |] eqn:Ej; cbn [snd].
    - apply getElementById_found in Ej. destruct Ej as (p & Hp & Hid).
      rewrite nth_error_after_passes in Hp.
      rewrite nth_error_update_nth, nth_error_after_passes.
      destruct (nth_error l i) as [e0 |] eqn:E0; [| discriminate].
      intros H. injection H as <-. exists e0. split; [reflexivity |].
      destruct (Nat.eqb_spec j i) as [-> | Hne].
      + rewrite E0 in Hp. injection Hp as <-. cbn in Hid.
        assert (Hnb : is_tab_btn e0 = false)
          by (apply Hpane; [eapply nth_error_In; exact E0 | exact Hid]).
        repeat split. intros Hc. rewrite Hnb in Hc. discriminate.
      + repeat split. intros Hc. cbn. rewrite Hc. cbn.
        destruct (Nat.eqb k i); reflexivity.
    - rewrite nth_error_after_passes.
      destruct (nth_error l i) as [e0 |] eqn:E0; [| discriminate].
      intros H. injection H as <-. exists e0. split; [reflexivity |].
      repeat split. intros Hc. cbn. rewrite Hc. cbn.
      destruct (Nat.eqb k i); reflexivity. }
  assert (Hone : forall i e, nth_error l' i = Some e -> is_tab_btn e = true ->
            (active e = true <-> i = k)).
  { intros i e Hi He. destruct (Hshape i e Hi) as (e0 & _ & Eb & _ & Ha).
    rewrite Eb in He. rewrite (Ha He). rewrite Nat.eqb_eq. split; congruence. }
  split; [exact Hone |].
  unfold active_tab_of, active_tab_btn.
  assert (Hlen : exists e, nth_error l' k = Some e).
  { assert (Hl : List.length l' = List.length l).
    { subst l'. unfold click_tab. rewrite Hk, Hb.
      assert (U : forall j f m, List.length (update_nth j f m) = List.length m).
      { intros j f m. revert j. induction m as [| x m IH]; intros j;
          destruct j; cbn; try reflexivity. rewrite IH. reflexivity. }
      destruct (getElementById _ _); cbn [snd];
        rewrite ?U; unfold remove_active; rewrite !length_map; reflexivity. }
    destruct (nth_error l' k) as [e |] eqn:E; [exists e; reflexivity |].
    apply nth_error_None in E. rewrite Hl in E.
    assert (k < List.length l)%nat by (apply nth_error_Some; congruence). lia. }
  destruct Hlen as [ek Hek].
  destruct (Hshape k ek Hek) as (e0 & E0 & Eb & Et & Ha).
  rewrite Hk in E0. injection E0 as <-.
  destruct (find (fun e => is_tab_btn e && active e) l') as [f |] eqn:Ef.
  - apply find_some in Ef. destruct Ef as [Hin Hf].
    apply andb_true_iff in Hf. destruct Hf as [Hfb Hfa].
    apply In_nth_error in Hin. destruct Hin as [i Hi].
    apply (Hone i f Hi Hfb) in Hfa. subst i.
    rewrite Hek in Hi. injection Hi as <-. exact Et.
  - exfalso.
    pose proof (find_none _ _ Ef ek (nth_error_In _ _ Hek)) as Hn.
    cbn beta in Hn. rewrite Eb, Hb, (Ha Hb), Nat.eqb_refl in Hn. discriminate.
Qed.

Lemma getElementById_same_ids (id : string) (l1 l2 : list TabElement) :
  map el_id l1 = map el_id l2 -> getElementById id l1 = getElementById id l2.
Proof.
  revert l2. induction l1 as [| e1 r1 IH]; intros [| e2 r2] H;
    cbn [map] in H; try discriminate; [reflexivity |].
  injection H as He Hr. cbn [getElementById]. rewrite He, (IH r2 Hr). reflexivity.
Qed.

Lemma ids_after_passes (l : list TabElement) (k : nat) :
  map el_id
    (update_nth k (put_active true)
       (remove_active is_tab_content (remove_active is_tab_btn l)))
  = map el_id l.
Proof.
  apply nth_error_ext. intros i.
  rewrite !nth_error_map, nth_error_after_passes.
  destruct (nth_error l i); reflexivity.
Qed.

(** X25: the pane that goes with the tab.  When the first element with id
    ['tab-' + data-tab] is at position [j], the click activates it and
    leaves no other [tab-content] element active (the button itself apart,
    should it carry that class too).  When no element has that id, every
    such element is left inactive and the listener ends in an exception
    after the button was activated. *)
Theorem click_shows_the_pane :
  forall (l : list TabElement) (k : nat) (btn : TabElement),
    nth_error l k = Some btn ->
    is_tab_btn btn = true ->
    (forall j : nat,
       getElementById ("tab-" ++ data_tab btn) l = Some j ->
       fst (click_tab k l) = Normal tt /\
       forall (i : nat) (e : TabElement),
         nth_error (snd (click_tab k l)) i = Some e ->
         (i = j -> active e = true) /\
         (is_tab_content e = true -> i <> k -> (active e = true <-> i = j))) /\
    (getElementById ("tab-" ++ data_tab btn) l = None ->
     (exists message, fst (click_tab k l) = Throw message) /\
     forall (i : nat) (e : TabElement),
       nth_error (snd (click_tab k l)) i = Some e ->
       (i = k -> active e = true) /\
       (is_tab_content e = true -> i <> k -> active e = false)).
Proof.
  intros l k btn Hk Hb.
  assert (Eid : getElementById ("tab-" ++ data_tab btn)
                  (update_nth k (put_active true)
                     (remove_active is_tab_content (remove_active is_tab_btn l)))
                = getElementById ("tab-" ++ data_tab btn) l)
    by (apply getElementById_same_ids, ids_after_passes).
  split.
  - intros j Hj. unfold click_tab. rewrite Hk, Hb, Eid, Hj. cbn [fst snd].
    split; [reflexivity |].
    intros i e. rewrite nth_error_update_nth, nth_error_after_passes.
    destruct (nth_error l i) as [e0 |]; [| discriminate].
    intros H. injection H as <-. split.
    + intros ->. rewrite Nat.eqb_refl. reflexivity.
    + intros Hc Hne. destruct (Nat.eqb_spec j i) as [-> | Hji].
      * split; reflexivity.
      * cbn in Hc. cbn. destruct (Nat.eqb_spec k i) as [-> | _]; [contradiction |].
        rewrite Hc, orb_true_r. split; [discriminate | intros ->; contradiction].
  - intros Hn. unfold click_tab. rewrite Hk, Hb, Eid, Hn. cbn [fst snd].
    split; [eexists; reflexivity |].
    intros i e. rewrite nth_error_after_passes.
    destruct (nth_error l i) as [e0 |]; [| discriminate].
    intros H. injection H as <-. split.
    + intros ->. cbn. rewrite Nat.eqb_refl. reflexivity.
    + intros Hc Hne. cbn in Hc. cbn.
      destruct (Nat.eqb_spec k i) as [-> | _]; [contradiction |].
      rewrite Hc, orb_true_r. reflexivity.
Qed.

(* ================================================================== *)
(** * The properties at concrete pages                                 *)
(* ================================================================== *)

(** A search job that finds three photos: the request is sent, the reply
    names job [j1], the stream reports the three photos, the packaging and
    the end. *)
Example three_photos_scenario :
  let st :=
    run Number_toString
      [ Call_startDownload;
        Resume_startDownload (Fulfilled {| sr_error := Undefined; sr_job_id := Str "j1" |});
        Message O (Some (progress_event 1 3));
        Message O (Some (progress_event 2 3));
        Message O (Some (progress_event 3 3));
        Message O (Some {| ev_type := Str "zipping"; ev_current := 0; ev_total := 0;
                           ev_message := Undefined; ev_file_ready := Undefined;
                           ev_job_id := Undefined |});
        Message O (Some (complete_event true));
        Message O (Some (progress_event 1 3)) ]
      (fresh_page (example_controls "search" "photostream" "10" EmptyString)) in
  progress_bar_width (panel st) = "100%" /\
  progress_status (panel st) = "Done" /\
  download_link_wrap (panel st) = download_link (Str "j1") /\
  log_output (panel st) = "Downloaded 3 photos." ++ nl /\
  download_btn_disabled (panel st) = false /\
  cancel_btn_disabled (panel st) = true /\
  eventSource (globals st) = None /\
  is_closed O st = true /\
  map url (requests (browser st)) = ["/api/download/start"].
Proof. vm_compute. repeat split. Qed.

Example progress_one_of_three :
  let st := exec (onmessage (progress_event 1 3)) streaming_page in
  progress_bar_width (panel st) = "33%" /\
  progress_status (panel st) = "1/3 photos".
Proof. vm_compute. split; reflexivity. Qed.

(** [terminal_event_ends_stream] on the streaming page, for a [complete]
    event. *)
Lemma terminal_event_ends_stream_witness :
  eventSource (globals streaming_page) = Some O /\
  is_open O streaming_page = true /\
  terminal (complete_event true) = true /\
  eventSource (globals
    (step Number_toString (Message O (Some (complete_event true))) streaming_page))
  = None.
Proof.
  split; [reflexivity |]. split; [reflexivity |]. split; [reflexivity |].
  exact (proj1 (terminal_event_ends_stream Number_toString streaming_page O
                  (complete_event true) eq_refl eq_refl eq_refl)).
Defined.

(** C2, as stated, fails for the event [{current: 23, total: 40}]: the
    handler assigns '57%' ([(23 / 40) * 100] is 57.49999999999999 in double
    precision), whereas [100 * 23 / 40] is exactly 57.5, which rounds to
    58. *)
Lemma progress_width_counterexample :
  let ev := progress_event 23 40 in
  progress_bar_width (panel (exec (onmessage ev) streaming_page)) = "57%" /\
  Number_toString (Math_round (100 * ev_current ev / ev_total ev)) ++ "%" = "58%" /\
  integral (ev_current ev) = Some 23%Z /\
  integral (ev_total ev) = Some 40%Z /\
  (2 * (100 * 23) = (57 + 58) * 40)%Z.
Proof. vm_compute. repeat split. Qed.

(** C3, as stated, fails when the POST is rejected: the log gets a line. *)
Lemma cancelDownload_counterexample :
  let st' := run Number_toString
               [Call_cancelDownload; Resume_cancelDownload (Rejected "Failed to fetch")]
               streaming_page in
  truthy (currentJobId (globals streaming_page)) = true /\
  log_output (panel streaming_page) = EmptyString /\
  log_output (panel st') = "Cancel error: Failed to fetch" ++ nl /\
  log_output (panel st') <> log_output (panel streaming_page).
Proof. vm_compute. repeat split. discriminate. Qed.

Lemma cancelDownload_effects_witness :
  truthy (currentJobId (globals streaming_page)) = true /\
  progress_status (panel
    (exec (cancelDownload_resume (Rejected "Failed to fetch"))
       (exec cancelDownload streaming_page))) = "Cancelling...".
Proof.
  split; [reflexivity |].
  destruct (cancelDownload_effects streaming_page (Rejected "Failed to fetch") eq_refl)
    as (_ & _ & H).
  exact (proj2 (proj2 (proj2 (proj2 (proj2 (proj2 H)))))).
Defined.

Lemma complete_event_link_witness :
  is_type (complete_event true) "complete" = true /\
  ev_file_ready (complete_event true) = Bool true /\
  download_link_wrap (panel (exec (onmessage (complete_event true)) streaming_page))
  = download_link (Str "j1").
Proof.
  split; [reflexivity |]. split; [reflexivity |].
  exact (proj1 (complete_event_link (complete_event true) streaming_page true
                  eq_refl eq_refl)).
Defined.

(** The album index read from the select is checked against the albums
    looked up: with two albums, '7' and the empty value are refused, '1' is
    accepted. *)
Example album_index_checked :
  fst (gatherParams (user_page (example_controls "user-album" "album" "25" "7")))
    = Normal None /\
  alerts (browser (exec startDownload
    (user_page (example_controls "user-album" "album" "25" "7"))))
    = ["Select an album first."] /\
  fst (gatherParams (user_page (example_controls "user-album" "album" "25" EmptyString)))
    = Normal None /\
  fst (gatherParams album_page) = Normal (Some album_params).
Proof. vm_compute. repeat split. Qed.

Example photostream_has_count :
  match fst (gatherParams (user_page (example_controls "user-album" "photostream" "25" "1"))) with
  | Normal (Some params) =>
      get "count" params = Num 25 /\ get "tab_type" params = Str "user_photostream"
  | _ => False
  end.
Proof. vm_compute. split; reflexivity. Qed.

Lemma gatherParams_rejects_user_album_witness :
  tab_of (fresh_page (example_controls "user-album" "album" "25" "0")) = "user-album" /\
  truthy (userNsid (globals (fresh_page (example_controls "user-album" "album" "25" "0"))))
  = false /\
  requests (browser
    (exec startDownload (fresh_page (example_controls "user-album" "album" "25" "0"))))
  = [].
Proof.
  split; [reflexivity |]. split; [reflexivity |].
  destruct (gatherParams_rejects_user_album
              (fresh_page (example_controls "user-album" "album" "25" "0"))
              eq_refl (or_introl eq_refl))
    as (msg & _ & _ & H & _).
  exact H.
Defined.

Lemma album_request_has_no_count_witness :
  tab_of album_page = "user-album" /\
  fst (gatherParams album_page) = Normal (Some album_params) /\
  requests (browser (exec startDownload album_page)) = [start_request album_params].
Proof.
  split; [reflexivity |]. split; [reflexivity |].
  destruct (album_request_has_no_count album_page album_params eq_refl eq_refl)
    as (_ & _ & H & _).
  exact H.
Defined.

Lemma empty_preview_is_not_an_error_witness :
  truthy (pr_error empty_reply) = false /\
  preview empty_reply = [] /\
  startPreview_resume Number_toString (Fulfilled empty_reply) streaming_page =
  (Normal tt,
   with_panel (fun p =>
     put_preview_btn_disabled false (put_preview_status "No photos found." p))
     streaming_page).
Proof.
  split; [reflexivity |]. split; [reflexivity |].
  exact (empty_preview_is_not_an_error Number_toString empty_reply streaming_page
           eq_refl eq_refl).
Defined.

Lemma cancelDownload_without_job_witness :
  truthy (currentJobId (globals zero_count_page)) = false /\
  cancelDownload zero_count_page = (Normal tt, zero_count_page).
Proof.
  split; [reflexivity |].
  exact (cancelDownload_without_job zero_count_page eq_refl).
Defined.

Lemma count_and_template_defaults_witness :
  fst (gatherParams zero_count_page) = Normal (Some zero_count_params) /\
  get "count" zero_count_params = Num 500 /\
  get "filename_template" zero_count_params = Str "{title}_{id}".
Proof.
  split; [reflexivity |].
  destruct (count_and_template_defaults zero_count_page zero_count_params eq_refl)
    as (Ht & _ & Hc & _ & _ & Hz).
  split; [exact (Hc eq_refl Hz) | exact (Ht eq_refl)].
Defined.

(** C10, as stated, fails for a template of three spaces: it is blank, and
    it is sent as it is. *)
Lemma blank_template_counterexample :
  blank (filename_tmpl (controls blank_template_page)) = true /\
  fst (gatherParams blank_template_page) = Normal (Some blank_template_params) /\
  get "filename_template" blank_template_params = Str "   " /\
  get "filename_template" blank_template_params <> Str "{title}_{id}".
Proof. vm_compute. repeat split. discriminate. Qed.

(** ** The further properties at concrete pages *)

Lemma failed_start_leaves_page_idle_witness :
  fst (gatherParams ended_job_page) = Normal (Some search_params) /\
  start_failure (Rejected "Failed to fetch") = Some "Failed to fetch" /\
  truthy (currentJobId (globals ended_job_page)) = true /\
  download_btn_disabled (panel ended_job_page) = false /\
  progress_status (panel
    (run Number_toString
       [Call_startDownload; Call_cancelDownload;
        Resume_startDownload (Rejected "Failed to fetch")] ended_job_page))
  = "Cancelling...".
Proof.
  repeat (split; [reflexivity |]).
  destruct (failed_start_leaves_page_idle Number_toString ended_job_page
              search_params (Rejected "Failed to fetch") "Failed to fetch"
              eq_refl eq_refl) as (_ & _ & H).
  exact (proj1 (proj2 (proj2 (H eq_refl)))).
Defined.

Lemma cancel_targets_subscribed_job_witness :
  truthy (sr_error job_reply) = false /\
  streams (browser (exec (startDownload_resume (Fulfilled job_reply)) search_page))
  = [ {| es_url := "/api/download/progress/j1"; es_closed := false |} ].
Proof.
  split; [reflexivity |].
  exact (proj1 (cancel_targets_subscribed_job search_page job_reply eq_refl)).
Defined.

Lemma terminal_event_closes_the_global_stream_witness :
  eventSource (globals two_stream_page) = Some 1%nat /\
  is_open O two_stream_page = true /\
  terminal (complete_event true) = true /\
  is_open O
    (step Number_toString (Message O (Some (complete_event true))) two_stream_page)
  = true.
Proof.
  split; [reflexivity |]. split; [reflexivity |]. split; [reflexivity |].
  exact (proj1 (terminal_event_closes_the_global_stream Number_toString
                  two_stream_page O 1%nat (complete_event true) (complete_event true)
                  eq_refl (fun H => O_S O H) eq_refl eq_refl eq_refl)).
Defined.

Lemma stream_error_ends_stream_witness :
  eventSource (globals streaming_page) = Some O /\
  is_open O streaming_page = true /\
  eventSource (globals (step Number_toString (Stream_error O) streaming_page)) = None.
Proof.
  split; [reflexivity |]. split; [reflexivity |].
  exact (proj1 (stream_error_ends_stream Number_toString streaming_page O
                  eq_refl eq_refl)).
Defined.

Lemma cancel_after_job_end_still_posts_witness :
  Forall not_start_resume [Message O (Some (complete_event true))] /\
  truthy (currentJobId (globals streaming_page)) = true /\
  currentJobId (globals
    (run Number_toString [Message O (Some (complete_event true))] streaming_page))
  = Str "j1".
Proof.
  assert (H : Forall not_start_resume [Message O (Some (complete_event true))])
    by (constructor; [exact I | constructor]).
  split; [exact H |]. split; [reflexivity |].
  exact (proj1 (cancel_after_job_end_still_posts Number_toString streaming_page
                  [Message O (Some (complete_event true))] H eq_refl)).
Defined.

Lemma nonterminal_event_keeps_job_running_witness :
  terminal (progress_event 1 3) = false /\
  globals (exec (onmessage (progress_event 1 3)) streaming_page)
  = globals streaming_page.
Proof.
  split; [reflexivity |].
  exact (proj1 (nonterminal_event_keeps_job_running (progress_event 1 3)
                  streaming_page eq_refl)).
Defined.

Lemma at_most_one_open_stream_witness :
  is_open O
    (step Number_toString (Resume_startDownload (Fulfilled job_reply))
       (step Number_toString Call_startDownload search_page)) = true /\
  eventSource (globals
    (step Number_toString (Resume_startDownload (Fulfilled job_reply))
       (step Number_toString Call_startDownload search_page))) = Some O.
Proof.
  split; [reflexivity |].
  refine (proj2 (at_most_one_open_stream Number_toString
                   (step Number_toString (Resume_startDownload (Fulfilled job_reply))
                      (step Number_toString Call_startDownload search_page))
                   O O _ eq_refl eq_refl)).
  apply reachable_step; [apply reachable_step |].
  - apply reachable_initial. repeat split.
  - reflexivity.
  - exact I.
Defined.

Lemma script_traffic_witness :
  let d := {| page := search_page; side := user_panel "alice" [] |} in
  let acts :=
    [ Call_lookupUser;
      Resume_lookupUser (Fulfilled alice_reply);
      On_page Call_startPreview;
      On_page (Resume_startPreview (Fulfilled two_photo_reply));
      On_page Call_startDownload;
      On_page (Resume_startDownload (Fulfilled job_reply));
      On_page Call_cancelDownload;
      On_page (Message O (Some (complete_event true))) ] in
  requests (browser (page d)) = [] /\
  streams (browser (page d)) = [] /\
  preview_grid (panel (page d)) = [] /\
  download_link_wrap (panel (page d)) = EmptyString /\
  Forall known_request
    (requests (browser (page (doc_run Number_toString acts d)))) /\
  Forall known_image
    (preview_grid (panel (page (doc_run Number_toString acts d)))).
Proof.
  intros d acts. repeat (split; [reflexivity |]).
  destruct (script_traffic Number_toString d acts eq_refl eq_refl eq_refl eq_refl)
    as (Hr & _ & Hg & _).
  split; [exact Hr | exact Hg].
Defined.

Lemma submitted_count_is_truthy_witness :
  fst (gatherParams zero_count_page) = Normal (Some zero_count_params) /\
  get "count" zero_count_params = Num 500 /\
  number_truthy 500 = true.
Proof.
  split; [reflexivity |]. split; [reflexivity |].
  exact (proj1 (submitted_count_is_truthy zero_count_page zero_count_params eq_refl)
           500 eq_refl).
Defined.

Lemma user_key_by_tab_witness :
  fst (gatherParams album_page) = Normal (Some album_params) /\
  tab_of album_page = "user-album" /\
  has "user_id" album_params = false.
Proof.
  split; [reflexivity |]. split; [reflexivity |].
  exact (proj1 (proj2 (user_key_by_tab album_page album_params eq_refl) eq_refl)).
Defined.

Lemma preview_cells_and_count_witness :
  truthy (pr_error two_photo_reply) = false /\
  (1 <= List.length (preview two_photo_reply) <= 1000)%nat /\
  preview_grid (panel
    (exec (startPreview_resume Number_toString (Fulfilled two_photo_reply)) search_page))
  = ([] ++ map thumb_cell (with_thumb (preview two_photo_reply)))%list.
Proof.
  assert (H : (1 <= List.length (preview two_photo_reply) <= 1000)%nat)
    by (cbn; lia).
  split; [reflexivity |]. split; [exact H |].
  exact (proj1 (preview_cells_and_count Number_toString two_photo_reply search_page
                  eq_refl H)).
Defined.

Lemma failed_preview_leaves_empty_grid_witness :
  blank (search_text (controls search_page))
    && blank (search_tags (controls search_page)) = false /\
  preview_failure (Rejected "Failed to fetch") = Some "Failed to fetch" /\
  preview_grid (panel
    (exec (startPreview_resume Number_toString (Rejected "Failed to fetch"))
       (exec startPreview search_page))) = [].
Proof.
  split; [reflexivity |]. split; [reflexivity |].
  exact (proj1 (failed_preview_leaves_empty_grid Number_toString search_page
                  (Rejected "Failed to fetch") "Failed to fetch" eq_refl eq_refl)).
Defined.

Lemma blank_lookup_forgets_user_witness :
  blank (user_input (side (looked_up "   " "1"))) = true /\
  userNsid (globals (page (lookupUser (looked_up "   " "1")))) = Null.
Proof.
  split; [reflexivity |].
  exact (proj1 (blank_lookup_forgets_user (looked_up "   " "1") eq_refl)).
Defined.

Lemma lookup_button_follows_request_witness :
  blank (user_input (side (looked_up " alice " "1"))) = false /\
  lookup_btn_disabled (side (lookupUser (looked_up " alice " "1"))) = true.
Proof.
  split; [reflexivity |].
  exact (proj1 (lookup_button_follows_request (looked_up " alice " "1") eq_refl)).
Defined.

Lemma failed_lookup_keeps_previous_user_witness :
  lookup_failure (Rejected "Failed to fetch") = Some "Failed to fetch" /\
  page (lookupUser_resume (Rejected "Failed to fetch") (looked_up "alice" "1"))
  = page (looked_up "alice" "1").
Proof.
  split; [reflexivity |].
  exact (proj1 (failed_lookup_keeps_previous_user (looked_up "alice" "1")
                  (Rejected "Failed to fetch") "Failed to fetch" eq_refl)).
Defined.

Lemma lookup_lists_albums_witness :
  truthy (ur_error alice_reply) = false /\
  userNsid (globals (page (lookupUser_resume (Fulfilled alice_reply)
                             (looked_up "alice" "1")))) = Str "99999999@N01".
Proof.
  split; [reflexivity |].
  exact (proj1 (lookup_lists_albums (looked_up "alice" "1") alice_reply eq_refl)).
Defined.

Lemma selected_option_is_the_album_sent_witness :
  options_match (looked_up "alice" "1") /\
  nth_error (album_options (side (looked_up "alice" "1"))) 1
    = Some {| opt_value := "1"; opt_textContent := "Lofoten (30 photos)" |} /\
  exists params : object,
    gatherParams (page (looked_up "alice" "1"))
      = (Normal (Some params), page (looked_up "alice" "1")) /\
    get "album_id" params = Str "72157600000000002" /\
    get "album_title" params = Str "Lofoten" /\
    get "tab_type" params = Str "album".
Proof.
  split; [reflexivity |]. split; [vm_compute; reflexivity |].
  refine (selected_option_is_the_album_sent (looked_up "alice" "1") 1%nat
            {| opt_value := "1"; opt_textContent := "Lofoten (30 photos)" |}
            {| a_id := Str "72157600000000002"; a_title := Str "Lofoten";
               a_photos := Num 30 |}
            eq_refl _ _ eq_refl eq_refl eq_refl eq_refl eq_refl).
  - cbn. lia.
  - vm_compute. reflexivity.
Defined.

Lemma click_selects_the_tab_witness :
  nth_error three_tabs 1 = Some (tab_button "search" false) /\
  active_tab_of (snd (click_tab 1 three_tabs)) = "search".
Proof.
  split; [reflexivity |].
  refine (proj2 (click_selects_the_tab three_tabs 1%nat (tab_button "search" false)
                   eq_refl eq_refl _)).
  intros e Hin Hid.
  repeat (destruct Hin as [<- | Hin]; [first [reflexivity | discriminate Hid] |]).
  destruct Hin.
Defined.

Lemma click_shows_the_pane_witness :
  nth_error three_tabs 1 = Some (tab_button "search" false) /\
  getElementById "tab-search" three_tabs = Some 4%nat /\
  fst (click_tab 1 three_tabs) = Normal tt.
Proof.
  split; [reflexivity |]. split; [reflexivity |].
  exact (proj1 (proj1 (click_shows_the_pane three_tabs 1%nat
                         (tab_button "search" false) eq_refl eq_refl)
                  4%nat eq_refl)).
Defined.
